(** * kindle_maker: a model of [kindle_maker/ebooklib.py]

    A shallow embedding of the e-book builder: [format_file_name], the
    classes [Chapter], [EbookUtil] and [Ebook] with the chapter tree, the
    heading index, the cover rules and the two packagers, followed by the
    properties the specification states about them.

    Python objects live in a store and are named by references, because the
    source mutates them in place: [Ebook.chapter_list] holds the very
    [Chapter] objects the caller keeps handles on.  Every method is a
    computation over the world (the store, the file system, the clock) that
    either returns or raises; what was mutated before a [raise] stays
    mutated, as in Python.

    The parts of the standard library the methods lean on are modelled for
    POSIX: [os.path], [pathlib] paths as their strings, [os.walk],
    [shutil.copy], [zipfile.ZipFile] in write mode, and the binding of call
    arguments to parameters.  Templates, processes and [download_image] are
    functions of the environment.  Assertions are enabled, as they are unless
    the interpreter runs with [-O].  Not modelled: [Ebook.__del__], which the
    garbage collector calls, and the deprecated [make_ebook] with
    [_parse_headers]. *)

From Stdlib Require Import ZArith NArith List String Ascii Bool Lia Sorted
  DecimalString.
From stdpp Require Import base option list.
Import ListNotations.

Set Warnings "-register-all".

Local Open Scope Z_scope.
Local Open Scope list_scope.

(** ** Python values *)

(** A Python [str] is a sequence of Unicode code points. *)
Definition pystr := list N.

(** A literal of the source, given by its ASCII spelling. *)
Definition py (s : string) : pystr := map N_of_ascii (list_ascii_of_string s).

Definition pystr_eqb (a b : pystr) : bool := bool_decide (a = b).

(** [str(n)] for an [int]. *)
Definition str_of_int (n : Z) : pystr := py (NilZero.string_of_int (Z.to_int n)).

(** Truth value of an [Optional[str]] or [Optional[bytes]] in an [if]:
    [None] and the empty sequence are false. *)
Definition truthy {A} (v : option (list A)) : bool :=
  match v with
  | Some (_ :: _) => true
  | _ => false
  end.

(** ** [re.sub] for a character class *)

(** [\s] on a [str] pattern: the code points for which CPython's
    [Py_UNICODE_ISSPACE] holds. *)
Definition is_space (c : N) : bool :=
  ((9 <=? c) && (c <=? 13) || (28 <=? c) && (c <=? 32) || (c =? 133)
   || (c =? 160) || (c =? 5760) || (8192 <=? c) && (c <=? 8202)
   || (c =? 8232) || (c =? 8233) || (c =? 8239) || (c =? 8287)
   || (c =? 12288))%N.

(** The literal members of the character class of [format_file_name]: slash,
    backslash, [?%*:|], the double quote (code point 34), the single quote,
    [<>.,;=], the plus sign (a literal inside a class), [&] and [#]. *)
Definition illegal_literals : pystr :=
  py "/\?%*:|" ++ [34%N] ++ py "'<>.,;=+&#".

Definition illegal_char (c : N) : bool :=
  existsb (N.eqb c) illegal_literals || is_space c.

(** [re.sub('[cls]+', repl, s)]: every maximal run of class members is one
    match and is replaced by [repl]; [in_run] tells that the previous code
    point belonged to the match being consumed. *)
Fixpoint re_sub_run (cls : N -> bool) (repl : pystr) (in_run : bool)
    (s : pystr) : pystr :=
  match s with
  | [] => []
  | c :: t =>
      if cls c
      then (if in_run then [] else repl) ++ re_sub_run cls repl true t
      else c :: re_sub_run cls repl false t
  end.

Definition re_sub_class_plus (cls : N -> bool) (repl s : pystr) : pystr :=
  re_sub_run cls repl false s.

(** [format_file_name]: remove illegal characters. *)
Definition format_file_name (path : pystr) : pystr :=
  re_sub_class_plus illegal_char [] path.

(** ** Exceptions and results *)

Inductive ExcClass :=
| Exception
| ValueError
| TypeError
| AssertionError
| NotImplementedError
| AttributeError
| IndexError
| FileNotFoundError
| FileExistsError
| IsADirectoryError
| NotADirectoryError
| LibraryError (name : pystr)  (* raised inside jinja2, requests, PIL, ... *)
| ModelError.                  (* no Python exception: a reference that is not
                                  allocated or an argument of another type than
                                  its annotation, which the typed store cannot
                                  hold *)

Record PyExc := mkExc { exc_class : ExcClass; exc_msg : pystr }.

Inductive Result (A : Type) :=
| Return (a : A)
| Raise (e : PyExc).
Arguments Return {A} a.
Arguments Raise {A} e.

(** ** Paths ([posixpath]) *)

Definition SEP : N := 47.  (* os.sep *)

(** [s.split(sep)] for a one-character separator. *)
Fixpoint split_on (sep : N) (s : pystr) : list pystr :=
  match s with
  | [] => [[]]
  | c :: t =>
      if N.eqb c sep then [] :: split_on sep t
      else match split_on sep t with
           | [] => [[c]]
           | w :: ws => (c :: w) :: ws
           end
  end.

(** [sep.join(parts)]. *)
Fixpoint join_with (sep : pystr) (parts : list pystr) : pystr :=
  match parts with
  | [] => []
  | [p] => p
  | p :: rest => p ++ sep ++ join_with sep rest
  end.

Definition startswith_sep (p : pystr) : bool :=
  match p with
  | c :: _ => N.eqb c SEP
  | [] => false
  end.

Definition endswith_sep (p : pystr) : bool :=
  match rev p with
  | c :: _ => N.eqb c SEP
  | [] => false
  end.

(** [os.path.join(a, p)]. *)
Definition os_path_join (a p : pystr) : pystr :=
  if startswith_sep p then p
  else if bool_decide (a = []) || endswith_sep a then a ++ p
  else a ++ [SEP] ++ p.

(** [os.path.basename(p)]. *)
Definition os_path_basename (p : pystr) : pystr := List.last (split_on SEP p) [].

Definition is_nil {A} (l : list A) : bool :=
  match l with
  | [] => true
  | _ => false
  end.

(** One turn of the component loop of [os.path.normpath]. *)
Definition norm_step (initial_slashes : bool) (new_comps : list pystr)
    (comp : pystr) : list pystr :=
  if pystr_eqb comp [] || pystr_eqb comp (py ".") then new_comps
  else if negb (pystr_eqb comp (py ".."))
          || (negb initial_slashes && is_nil new_comps)
          || (negb (is_nil new_comps)
              && pystr_eqb (List.last new_comps []) (py ".."))
  then new_comps ++ [comp]
  else removelast new_comps.

(** Number of leading slashes [normpath] keeps: two only for exactly two. *)
Definition initial_slashes (path : pystr) : nat :=
  match path with
  | a :: b :: c :: _ =>
      if N.eqb a SEP
      then if N.eqb b SEP && negb (N.eqb c SEP) then 2%nat else 1%nat
      else 0%nat
  | [a; b] => if N.eqb a SEP then if N.eqb b SEP then 2%nat else 1%nat else 0%nat
  | [a] => if N.eqb a SEP then 1%nat else 0%nat
  | [] => 0%nat
  end.

(** [os.path.normpath(path)]. *)
Definition os_path_normpath (path : pystr) : pystr :=
  if is_nil path then py "."
  else
    let n := initial_slashes path in
    let new_comps :=
      fold_left (norm_step (negb (Nat.eqb n 0))) (split_on SEP path) [] in
    let p := repeat SEP n ++ join_with [SEP] new_comps in
    if is_nil p then py "." else p.

(** [str(pathlib.PurePosixPath(s))]: repeated slashes and [.] components
    are dropped when the path is parsed. *)
Definition Path (s : pystr) : pystr :=
  let parts :=
    List.filter (fun c => negb (pystr_eqb c [] || pystr_eqb c (py ".")))
                (split_on SEP s) in
  let p := repeat SEP (initial_slashes s) ++ join_with [SEP] parts in
  if is_nil p then py "." else p.

(** [a / b] on paths, as strings. *)
Definition path_div (a b : pystr) : pystr := Path (os_path_join a b).

(** ** The file system *)

Definition bytes := list Byte.byte.

Inductive Compression := ZIP_STORED | ZIP_DEFLATED.

(** A member of a ZIP archive: [ZipInfo.filename], [ZipInfo.compress_type]
    and the member's data. *)
Record ZipMember (D : Type) := mkZipMember {
  filename : pystr;
  compress_type : Compression;
  member_data : D
}.
Arguments mkZipMember {D}.
Arguments filename {D}.
Arguments compress_type {D}.
Arguments member_data {D}.

(** What a file holds: text written through a utf-8 text handle is kept as
    the [str] that was written, an archive as its members. *)
Inductive FileData :=
| Text (s : pystr)
| Binary (b : bytes)
| Archive (members : list (ZipMember FileData)).

(** A directory lists its entries in the order [os.scandir] reports them. *)
Inductive Node :=
| File (d : FileData)
| Dir (entries : list (pystr * Node)).

Fixpoint dir_get (name : pystr) (es : list (pystr * Node)) : option Node :=
  match es with
  | [] => None
  | (k, v) :: t => if pystr_eqb k name then Some v else dir_get name t
  end.

(** A new entry goes to the end of the listing: the order in which a
    directory reports its entries is here the order in which they were
    made. *)
Fixpoint dir_put (name : pystr) (n : Node) (es : list (pystr * Node))
    : list (pystr * Node) :=
  match es with
  | [] => [(name, n)]
  | (k, v) :: t =>
      if pystr_eqb k name then (k, n) :: t else (k, v) :: dir_put name n t
  end.

(** The node at a list of components below [n]. *)
Fixpoint node_at (comps : list pystr) (n : Node) : option Node :=
  match comps with
  | [] => Some n
  | c :: rest =>
      match n with
      | Dir es =>
          match dir_get c es with
          | Some child => node_at rest child
          | None => None
          end
      | File _ => None
      end
  end.

(** Put [new] at [comps] below [n]; the parent directory has to exist. *)
Fixpoint node_put (comps : list pystr) (new : Node) (n : Node) : option Node :=
  match comps with
  | [] => Some new
  | [c] =>
      match n with
      | Dir es => Some (Dir (dir_put c new es))
      | File _ => None
      end
  | c :: rest =>
      match n with
      | Dir es =>
          match dir_get c es with
          | Some child =>
              match node_put rest new child with
              | Some child' => Some (Dir (dir_put c child' es))
              | None => None
              end
          | None => None
          end
      | File _ => None
      end
  end.

(** The components of a path below the root: relative paths start at the
    working directory; [.] and empty components vanish and [..] steps up.
    This is done on the text of the path, before anything is looked up: a
    component followed by [..] is dropped whether or not it names a
    directory, and a separator at the end is ignored. *)
Definition path_components (cwd path : pystr) : list pystr :=
  let abs := if startswith_sep path then path else os_path_join cwd path in
  fold_left (norm_step true) (split_on SEP abs) [].

Definition dirnames (es : list (pystr * Node)) : list pystr :=
  map fst (List.filter (fun e => match snd e with Dir _ => true | File _ => false end) es).

Definition filenames (es : list (pystr * Node)) : list pystr :=
  map fst (List.filter (fun e => match snd e with Dir _ => false | File _ => true end) es).

(** [os.walk(top)], top-down: one [(root, dirs, files)] triple per directory,
    a directory before its sub-directories. *)
Fixpoint os_walk (top : pystr) (n : Node)
    : list (pystr * list pystr * list pystr) :=
  match n with
  | File _ => []
  | Dir es =>
      (top, dirnames es, filenames es)
      :: (fix walk_dirs (l : list (pystr * Node)) :=
            match l with
            | [] => []
            | (name, child) :: l' =>
                os_walk (os_path_join top name) child ++ walk_dirs l'
            end) es
  end.

(** ** Objects *)

(** The [dict] built for a sub-chapter in [EbookUtil.headings]. *)
Module SubHeading.
Record t := mk {
  title : pystr;
  play_order : Z;
  file_name : pystr
}.
End SubHeading.

(** The [dict] built for a top-level chapter in [EbookUtil.headings]. *)
Module Heading.
Record t := mk {
  title : pystr;
  play_order : Z;
  file_name : pystr;
  sub_headings : list SubHeading.t
}.
End Heading.

(** The context [dict] handed to a template; a key that is not passed is
    [None]. *)
Module Context.
Record t := mk {
  headings : list Heading.t;
  title : option pystr;
  author : option pystr
}.
End Context.

(** State of a [Chapter] instance.  [_content] starts as the placeholder
    [Optional[None]], which is no [str]: it is [None] here. *)
Module chapter.
Record t := mk {
  title : pystr;
  _ebook : nat;
  _level : Z;
  _content : option pystr;
  _static_files : list pystr;
  sub_chapters : list nat
}.

(** The properties that read the instance alone. *)
Definition dest_file_path (c : t) : pystr :=
  Path (format_file_name (title c) ++ py ".html").
Definition content (c : t) : option pystr := _content c.
Definition is_top_chapter (c : t) : bool := _level c =? 1.

(** Assignments to one attribute. *)
Definition with_content (v : option pystr) (c : t) : t :=
  mk (title c) (_ebook c) (_level c) v (_static_files c) (sub_chapters c).
Definition with_static_files (v : list pystr) (c : t) : t :=
  mk (title c) (_ebook c) (_level c) (_content c) v (sub_chapters c).
Definition with_sub_chapters (v : list nat) (c : t) : t :=
  mk (title c) (_ebook c) (_level c) (_content c) (_static_files c) v.
End chapter.

(** State of an [EbookUtil] instance; its [_templates_env] is the template
    loader of the environment below. *)
Module ebook_util.
Record t := mk {
  _ebook : nat;
  _headings : option (list Heading.t)
}.
End ebook_util.

(** State of an [Ebook] instance. *)
Module ebook.
Record t := mk {
  title : pystr;
  author : option pystr;
  format : pystr;
  auto_download_img : bool;
  cover_path : option pystr;
  cover_content : option bytes;
  _tempdir : pystr;
  chapter_list : list nat;
  _eu : nat
}.

(** The properties of the class. *)
Definition tmpdir (e : t) : pystr := _tempdir e.
Definition dest_file_path (e : t) : pystr :=
  Path (format_file_name (title e) ++ py "." ++ format e).
Definition full_dest_file_path (e : t) : pystr :=
  path_div (tmpdir e) (dest_file_path e).

(** Assignments to the cover attributes and to the chapter list. *)
Definition with_cover (path : option pystr) (content : option bytes)
    (e : t) : t :=
  mk (title e) (author e) (format e) (auto_download_img e) path content
     (_tempdir e) (chapter_list e) (_eu e).
Definition with_chapter_list (v : list nat) (e : t) : t :=
  mk (title e) (author e) (format e) (auto_download_img e) (cover_path e)
     (cover_content e) (_tempdir e) v (_eu e).
End ebook.

(** ** The world *)

(** What the program asks of its host and of its collaborators: the
    template engine (jinja2), processes (the converter, the viewer) and
    [download_image] with [requests] and PIL behind it.  A process or a
    download may change the file system and may fail. *)
Record Env := mkEnv {
  tempfile_gettempdir : pystr;        (* tempfile.gettempdir() *)
  time_time : nat -> pystr;           (* str(time.time()), reading by reading *)
  module_dir : pystr;                 (* str(pathlib.Path(__file__).parent) *)
  kindlegen : pystr;                  (* kindle_maker.kindlegen.kindlegen *)
  os_getcwd : pystr;
  platform_system : pystr;
  get_template : pystr -> option (Context.t -> Result pystr);
  subprocess_call : list pystr -> Node -> Result Z * Node;
  os_startfile : pystr -> Node -> Result unit * Node;
  download_image : pystr -> pystr -> Node -> Result pystr * Node
}.

(** The store of objects, the file system from its root, the number of
    clock readings made so far, and the environment. *)
Record World := mkWorld {
  chapters : list chapter.t;
  ebooks : list ebook.t;
  utils : list ebook_util.t;
  fs : Node;
  clock : nat;
  env : Env
}.

Definition set_chapters (l : list chapter.t) (w : World) : World :=
  mkWorld l (ebooks w) (utils w) (fs w) (clock w) (env w).
Definition set_ebooks (l : list ebook.t) (w : World) : World :=
  mkWorld (chapters w) l (utils w) (fs w) (clock w) (env w).
Definition set_utils (l : list ebook_util.t) (w : World) : World :=
  mkWorld (chapters w) (ebooks w) l (fs w) (clock w) (env w).
Definition set_fs (n : Node) (w : World) : World :=
  mkWorld (chapters w) (ebooks w) (utils w) n (clock w) (env w).

(** ** Computations: state and exceptions *)

Definition M (A : Type) : Type := World -> Result A * World.

Definition ret {A} (a : A) : M A := fun w => (Return a, w).

Definition raise {A} (cls : ExcClass) (msg : pystr) : M A :=
  fun w => (Raise (mkExc cls msg), w).

Definition bind {A B} (m : M A) (k : A -> M B) : M B :=
  fun w =>
    match m w with
    | (Return a, w') => k a w'
    | (Raise e, w') => (Raise e, w')
    end.

Declare Scope py_scope.
Delimit Scope py_scope with py.
Notation "x <- m ;; k" := (bind m (fun x => k))
  (at level 20, m at level 99, k at level 200, only parsing) : py_scope.
Notation "m ;; k" := (bind m (fun _ => k))
  (at level 100, k at level 200, right associativity, only parsing) : py_scope.
Local Open Scope py_scope.

Definition ask {A} (f : World -> A) : M A := fun w => (Return (f w), w).

Definition deref {A} (heap : World -> list A) (r : nat) : M A :=
  fun w =>
    match heap w !! r with
    | Some a => (Return a, w)
    | None => (Raise (mkExc ModelError (py "dangling reference")), w)
    end.

Definition get_chapter : nat -> M chapter.t := deref chapters.
Definition get_ebook : nat -> M ebook.t := deref ebooks.
Definition get_util : nat -> M ebook_util.t := deref utils.

Definition put_chapter (r : nat) (c : chapter.t) : M unit :=
  fun w => (Return tt, set_chapters (<[r := c]> (chapters w)) w).
Definition put_ebook (r : nat) (e : ebook.t) : M unit :=
  fun w => (Return tt, set_ebooks (<[r := e]> (ebooks w)) w).
Definition put_util (r : nat) (u : ebook_util.t) : M unit :=
  fun w => (Return tt, set_utils (<[r := u]> (utils w)) w).

Definition new_chapter (c : chapter.t) : M nat :=
  fun w => (Return (length (chapters w)), set_chapters (chapters w ++ [c]) w).

(** [str(time.time())]: the next reading of the clock. *)
Definition read_clock : M pystr :=
  fun w =>
    (Return (time_time (env w) (clock w)),
     mkWorld (chapters w) (ebooks w) (utils w) (fs w) (S (clock w)) (env w)).

(** [for x in xs: body(x)]. *)
Fixpoint for_each {A} (xs : list A) (body : A -> M unit) : M unit :=
  match xs with
  | [] => ret tt
  | x :: xs' => body x;; for_each xs' body
  end.

(** ** File operations *)

Definition resolve (path : pystr) : M (option Node) :=
  ask (fun w => node_at (path_components (os_getcwd (env w)) path) (fs w)).

Definition store (path : pystr) (n : Node) : M unit :=
  fun w =>
    match node_put (path_components (os_getcwd (env w)) path) n (fs w) with
    | Some root => (Return tt, set_fs root w)
    | None => (Raise (mkExc FileNotFoundError path), w)
    end.

(** [pathlib.Path(f).is_file()]. *)
Definition is_file (path : pystr) : M bool :=
  n <- resolve path;;
  ret (match n with Some (File _) => true | _ => false end).

(** [open(path, 'w')]: the file is created or truncated.  Every name is
    taken, also one with a NUL. *)
Definition open_w (path : pystr) : M unit :=
  n <- resolve path;;
  match n with
  | Some (Dir _) => raise IsADirectoryError path
  | _ => store path (File (Text []))
  end.

Definition read_file (path : pystr) : M FileData :=
  n <- resolve path;;
  match n with
  | Some (File d) => ret d
  | Some (Dir _) => raise IsADirectoryError path
  | None => raise FileNotFoundError path
  end.

(** [pathlib.Path.mkdir()]. *)
Definition mkdir (path : pystr) : M unit :=
  n <- resolve path;;
  match n with
  | Some _ => raise FileExistsError path
  | None => store path (Dir [])
  end.

(** [shutil.copy(src, dst)]: into [dst] when it is a directory, else onto
    it. *)
Definition shutil_copy (src dst : pystr) : M unit :=
  d <- resolve dst;;
  let dst :=
    match d with
    | Some (Dir _) => os_path_join dst (os_path_basename src)
    | _ => dst
    end in
  s <- resolve src;;
  cwd <- ask (fun w => os_getcwd (env w));;
  if bool_decide (is_Some s)
     && bool_decide (path_components cwd src = path_components cwd dst)
  then raise (LibraryError (py "shutil.SameFileError")) src
  else
    data <- read_file src;;
    t <- resolve dst;;
    match t with
    | Some (Dir _) => raise IsADirectoryError dst
    | _ => store dst (File data)
    end.

(** A process or a download of the environment, run on the file system. *)
Definition external {A} (f : Env -> Node -> Result A * Node) : M A :=
  fun w => let (r, n) := f (env w) (fs w) in (r, set_fs n w).

(** ** Calling a Python function *)

(** The values that occur as arguments in this program. *)
Inductive PyVal :=
| VNone
| VStr (s : pystr)
| VInt (z : Z)
| VEbook (r : nat).

(** A signature of positional-or-keyword parameters ([self] left out); the
    parameters with a default are the last ones. *)
Record Signature := mkSignature {
  fn_name : string;
  params : list string;
  defaults : list (string * PyVal)
}.

Definition assoc {A} (k : string) (l : list (string * A)) : option A :=
  match List.find (fun p => String.eqb (fst p) k) l with
  | Some p => Some (snd p)
  | None => None
  end.

Definition type_error (fn msg : string) : PyExc :=
  mkExc TypeError (py (fn ++ "() " ++ msg)).

Definition quoted (name : string) : string := "'" ++ name ++ "'".

(** The names of a [TypeError] for missing arguments: [a], [a and b] or
    [a, b, and c]. *)
Fixpoint name_list (names : list string) : string :=
  match names with
  | [] => ""
  | [a] => quoted a
  | [a; b] => quoted a ++ " and " ++ quoted b
  | a :: rest =>
      quoted a ++ ", "
      ++ match rest with
         | [b; c] => quoted b ++ ", and " ++ quoted c
         | _ => name_list rest
         end
  end.

Definition decimal (n : nat) : string := NilZero.string_of_uint (Nat.to_uint n).

Definition plural (n : nat) (word : string) : string :=
  if Nat.eqb n 1 then word else word ++ "s".

(** The messages of CPython 3.8 and 3.9; [self] counts as an argument. *)
Definition too_many_positional (sg : Signature) (given : nat) : PyExc :=
  let most := S (length (params sg)) in
  let least := (most - length (defaults sg))%nat in
  type_error (fn_name sg)
    ("takes "
     ++ (if Nat.eqb least most then decimal most
         else "from " ++ decimal least ++ " to " ++ decimal most)
     ++ " positional " ++ plural most "argument" ++ " but "
     ++ decimal (S given) ++ " were given").

Definition missing_arguments (sg : Signature) (names : list string) : PyExc :=
  type_error (fn_name sg)
    ("missing " ++ decimal (length names) ++ " required positional "
     ++ plural (length names) "argument" ++ ": " ++ name_list names).

(** Positional arguments fill the parameters from the left; those beyond
    the last parameter are left over. *)
Definition bind_positional (ps : list string) (args : list PyVal)
    : list (string * PyVal) :=
  combine ps args.

(** A keyword argument has to name a parameter that is still unbound. *)
Fixpoint bind_keywords (sg : Signature) (bound : list (string * PyVal))
    (kwargs : list (string * PyVal)) : PyExc + list (string * PyVal) :=
  match kwargs with
  | [] => inr bound
  | (k, v) :: kwargs' =>
      if negb (existsb (String.eqb k) (params sg))
      then inl (type_error (fn_name sg)
                  ("got an unexpected keyword argument " ++ quoted k))
      else if bool_decide (is_Some (assoc k bound))
      then inl (type_error (fn_name sg)
                  ("got multiple values for argument " ++ quoted k))
      else bind_keywords sg (bound ++ [(k, v)]) kwargs'
  end.

(** Unbound parameters take their default. *)
Definition with_defaults (sg : Signature) (bound : list (string * PyVal))
    : list (string * option PyVal) :=
  map (fun p =>
         (p, match assoc p bound with
             | Some v => Some v
             | None => assoc p (defaults sg)
             end))
      (params sg).

(** Argument binding of a call with positional and keyword arguments, in
    the order of the interpreter: positional arguments, keywords, the check
    for too many positional arguments, defaults, the check for missing
    arguments. *)
Definition bind_arguments (sg : Signature) (args : list PyVal)
    (kwargs : list (string * PyVal)) : PyExc + list (string * PyVal) :=
  match bind_keywords sg (bind_positional (params sg) args) kwargs with
  | inl e => inl e
  | inr bound =>
      if (length (params sg) <? length args)%nat
      then inl (too_many_positional sg (length args))
      else
        let filled := with_defaults sg bound in
        let missing :=
          map fst (List.filter (fun b => negb (bool_decide (is_Some (snd b))))
                               filled) in
        if is_nil missing
        then inr (omap (fun b => match snd b with
                                 | Some v => Some (fst b, v)
                                 | None => None
                                 end) filled)
        else inl (missing_arguments sg missing)
  end.

(** ** [class Chapter] *)

Module Chapter.

Definition max_level : Z := 2.

(** [__init__(self, title, ebook, level=1)]. *)
Definition __init__ (title : pystr) (ebook : nat) (level : Z) : M nat :=
  new_chapter (chapter.mk title ebook level None [] []).

Definition signature : Signature :=
  mkSignature "__init__" ["title"; "ebook"; "level"]%string
              [("level"%string, VInt 1)].

(** The call [Chapter(...)]: the arguments are bound to the parameters of
    [__init__], then the instance is made. *)
Definition new (args : list PyVal) (kwargs : list (string * PyVal)) : M nat :=
  match bind_arguments signature args kwargs with
  | inl e => fun w => (Raise e, w)
  | inr b =>
      match assoc "title" b, assoc "ebook" b, assoc "level" b with
      | Some (VStr title), Some (VEbook ebook), Some (VInt level) =>
          __init__ title ebook level
      | _, _, _ => raise ModelError (py "argument of another type")
      end
  end.

Definition dest_file_path (self : nat) : M pystr :=
  c <- get_chapter self;;
  ret (chapter.dest_file_path c).

Definition full_dest_file_path (self : nat) : M pystr :=
  c <- get_chapter self;;
  e <- get_ebook (chapter._ebook c);;
  ret (path_div (ebook.tmpdir e) (chapter.dest_file_path c)).

Definition is_top_chapter (self : nat) : M bool :=
  c <- get_chapter self;;
  ret (chapter.is_top_chapter c).

Definition set_content (self : nat) (content : pystr) : M nat :=
  c <- get_chapter self;;
  put_chapter self (chapter.with_content (Some content) c);;
  ret self.

(** Every path is asserted to be a file, then all of them are attached. *)
Definition add_static_files (self : nat) (file_path : list pystr) : M nat :=
  for_each file_path (fun f =>
    ok <- is_file f;;
    if ok then ret tt else raise AssertionError (f ++ py " is not a file"));;
  c <- get_chapter self;;
  put_chapter self
    (chapter.with_static_files (chapter._static_files c ++ file_path) c);;
  ret self.

(** The constructor is called with three positional arguments, the third
    being [chapter_file_path], and with the keyword [level]. *)
Definition create_subchapter (self : nat) (chapter_title : pystr)
    (chapter_file_path : option pystr) : M nat :=
  c <- get_chapter self;;
  if max_level <=? chapter._level c
  then raise Exception
         (py "chapter level is great than the max level num: "
          ++ str_of_int max_level)
  else
    ct <- new [VStr chapter_title; VEbook (chapter._ebook c);
               match chapter_file_path with
               | Some p => VStr p
               | None => VNone
               end]
              [("level"%string, VInt (chapter._level c + 1))];;
    c <- get_chapter self;;
    put_chapter self
      (chapter.with_sub_chapters (chapter.sub_chapters c ++ [ct]) c);;
    ret ct.

Definition save (self : nat) : M unit :=
  c <- get_chapter self;;
  e <- get_ebook (chapter._ebook c);;
  (if ebook.auto_download_img e
   then
     match chapter.content c with
     | None => raise TypeError (py "expected string or bytes-like object")
     | Some s =>
         s' <- external (fun v => download_image v s (ebook.tmpdir e));;
         put_chapter self (chapter.with_content (Some s') c)
     end
   else ret tt);;
  dest_file_path <- full_dest_file_path self;;
  open_w dest_file_path;;
  c <- get_chapter self;;
  match chapter.content c with
  | None => raise TypeError (py "write() argument must be str, not type")
  | Some s => store dest_file_path (File (Text s))
  end;;
  for_each (chapter._static_files c) (fun f =>
    shutil_copy f (ebook.tmpdir e)).

End Chapter.

(** ** [zipfile.ZipFile], opened for writing *)

Record ZipFile := mkZipFile {
  zip_filename : pystr;
  compression : Compression;
  filelist : list (ZipMember FileData)
}.

(** The loop of [ZipInfo.from_file] that strips leading separators; it
    indexes the name and so fails on an empty one. *)
Fixpoint strip_leading_seps (arcname : pystr) : option pystr :=
  match arcname with
  | [] => None
  | c :: t => if N.eqb c SEP then strip_leading_seps t else Some arcname
  end.

(** The member name [ZipFile.write(filename)] derives when no [arcname] is
    given: the normalised file name without its leading separators. *)
Definition zip_arcname (filename : pystr) : option pystr :=
  strip_leading_seps (os_path_normpath filename).

Definition ZipFile_open (file : pystr) (compression : Compression) : M ZipFile :=
  n <- resolve file;;
  match n with
  | Some (Dir _) => raise IsADirectoryError file
  | _ => store file (File (Archive []))
  end;;
  ret (mkZipFile file compression []).

(** [zipf.write(filename)]: the file is read and becomes a member with the
    compression of the archive.  The packager hands it the files of
    [os.walk] only; the directory entry that [zipfile] would make for a
    directory is not modelled, and a directory is refused. *)
Definition ZipFile_write (zipf : ZipFile) (filename : pystr) : M ZipFile :=
  data <- read_file filename;;
  match zip_arcname filename with
  | None => raise IndexError (py "string index out of range")
  | Some arcname =>
      ret (mkZipFile (zip_filename zipf) (compression zipf)
             (filelist zipf ++ [mkZipMember arcname (compression zipf) data]))
  end.

(** [zipf.close()]: the archive with its directory of members is on disk. *)
Definition ZipFile_close (zipf : ZipFile) : M unit :=
  store (zip_filename zipf) (File (Archive (filelist zipf))).

(** ** [class EbookUtil] *)

Module EbookUtil.

Definition __init__ (ebook : nat) : M nat :=
  fun w => (Return (length (utils w)),
            set_utils (utils w ++ [ebook_util.mk ebook None]) w).

(** The inner loop of [headings]: the entries of one chapter's
    sub-chapters, numbered on from [order]. *)
Fixpoint sub_headings_loop (scs : list nat) (order : Z)
    (sub_headings : list SubHeading.t) : M (Z * list SubHeading.t) :=
  match scs with
  | [] => ret (order, sub_headings)
  | sc :: scs' =>
      let order := order + 1 in
      s <- get_chapter sc;;
      file_name <- Chapter.dest_file_path sc;;
      sub_headings_loop scs' order
        (sub_headings ++ [SubHeading.mk (chapter.title s) order file_name])
  end.

(** The outer loop of [headings]. *)
Fixpoint headings_loop (cs : list nat) (order : Z) (hs : list Heading.t)
    : M (Z * list Heading.t) :=
  match cs with
  | [] => ret (order, hs)
  | c :: cs' =>
      let order := order + 1 in
      ch <- get_chapter c;;
      file_name <- Chapter.dest_file_path c;;
      r <- sub_headings_loop (chapter.sub_chapters ch) order [];;
      headings_loop cs' (fst r)
        (hs ++ [Heading.mk (chapter.title ch) order file_name (snd r)])
  end.

(** The [headings] property: a cached, non-empty index is returned as it
    is, else the index is built, cached and returned. *)
Definition headings (self : nat) : M (list Heading.t) :=
  u <- get_util self;;
  match ebook_util._headings u with
  | Some (h :: hs') => ret (h :: hs')
  | _ =>
      e <- get_ebook (ebook_util._ebook u);;
      r <- headings_loop (ebook.chapter_list e) 1 [];;
      put_util self (ebook_util.mk (ebook_util._ebook u) (Some (snd r)));;
      ret (snd r)
  end.

Definition _render_file (self : nat) (template_name : pystr)
    (context : Context.t) (to_filename : pystr) : M unit :=
  loader <- ask (fun w => get_template (env w));;
  match loader template_name with
  | None => raise (LibraryError (py "jinja2.TemplateNotFound")) template_name
  | Some template =>
      u <- get_util self;;
      e <- get_ebook (ebook_util._ebook u);;
      let path := path_div (ebook.tmpdir e) to_filename in
      open_w path;;
      match template context with
      | Raise exc => fun w => (Raise exc, w)
      | Return text => store path (File (Text text))
      end
  end.

(** [self._ebook.author or 'jachinlin.github.io']. *)
Definition author_or_default (author : option pystr) : pystr :=
  match author with
  | Some (c :: a) => c :: a
  | _ => py "jachinlin.github.io"
  end.

Definition _render_toc_ncx (self : nat) : M pystr :=
  let ncx := py "toc.ncx" in
  hs <- headings self;;
  u <- get_util self;;
  e <- get_ebook (ebook_util._ebook u);;
  _render_file self (py "toc.xml")
    (Context.mk hs (Some (ebook.title e))
       (Some (author_or_default (ebook.author e))))
    ncx;;
  ret ncx.

Definition _render_toc_html (self : nat) : M pystr :=
  let toc := py "toc.html" in
  hs <- headings self;;
  _render_file self toc (Context.mk hs None None) toc;;
  ret toc.

Definition _render_opf (self : nat) : M pystr :=
  u <- get_util self;;
  e <- get_ebook (ebook_util._ebook u);;
  let opf_file := format_file_name (ebook.title e) ++ py ".opf" in
  hs <- headings self;;
  _render_file self (py "opf.xml")
    (Context.mk hs (Some (ebook.title e))
       (Some (author_or_default (ebook.author e))))
    opf_file;;
  ret opf_file.

Definition default_cover (v : Env) : pystr :=
  path_div (module_dir v) (py "templates/cover.jpg").

Definition _save_cover (self : nat) : M unit :=
  u <- get_util self;;
  e <- get_ebook (ebook_util._ebook u);;
  if truthy (ebook.cover_path e)
  then
    match ebook.cover_path e with
    | Some cover_path => shutil_copy cover_path (ebook.tmpdir e)
    | None => ret tt
    end
  else if truthy (ebook.cover_content e)
  then raise NotImplementedError []
  else
    cover <- ask (fun w => default_cover (env w));;
    shutil_copy cover (ebook.tmpdir e).

Definition _save_chapters (self : nat) : M unit :=
  u <- get_util self;;
  e <- get_ebook (ebook_util._ebook u);;
  for_each (ebook.chapter_list e) (fun c =>
    Chapter.save c;;
    ch <- get_chapter c;;
    for_each (chapter.sub_chapters ch) Chapter.save).

Definition _generate_all_files (self : nat) : M pystr :=
  _render_toc_ncx self;;
  _render_toc_html self;;
  opf_file <- _render_opf self;;
  _save_cover self;;
  _save_chapters self;;
  ret opf_file.

Definition _create_mobi (self : nat) : M unit :=
  opf_file <- _generate_all_files self;;
  u <- get_util self;;
  e <- get_ebook (ebook_util._ebook u);;
  rc <- external (fun v =>
          subprocess_call v
            [kindlegen v; py "-dont_append_source";
             path_div (ebook.tmpdir e) opf_file]);;
  if negb (rc =? 0) then ret tt else ret tt.

(** The two nested loops of [_create_epub] over the triples of [os.walk]. *)
Fixpoint zip_files (zipf : ZipFile) (root : pystr) (files : list pystr)
    : M ZipFile :=
  match files with
  | [] => ret zipf
  | file :: files' =>
      zipf' <- ZipFile_write zipf (os_path_join root file);;
      zip_files zipf' root files'
  end.

Fixpoint zip_walk (zipf : ZipFile)
    (walk : list (pystr * list pystr * list pystr)) : M ZipFile :=
  match walk with
  | [] => ret zipf
  | (root, _, files) :: walk' =>
      zipf' <- zip_files zipf root files;;
      zip_walk zipf' walk'
  end.

Definition _create_epub (self : nat) : M unit :=
  _generate_all_files self;;
  u <- get_util self;;
  e <- get_ebook (ebook_util._ebook u);;
  zipf <- ZipFile_open (ebook.dest_file_path e) ZIP_DEFLATED;;
  top <- resolve (ebook.tmpdir e);;
  let walk :=
    match top with
    | Some n => os_walk (ebook.tmpdir e) n
    | None => []
    end in
  zipf <- zip_walk zipf walk;;
  ZipFile_close zipf.

(** [getattr(self, '_create_{}'.format(self._ebook.format))()]. *)
Definition create (self : nat) : M unit :=
  u <- get_util self;;
  e <- get_ebook (ebook_util._ebook u);;
  if pystr_eqb (ebook.format e) (py "mobi") then _create_mobi self
  else if pystr_eqb (ebook.format e) (py "epub") then _create_epub self
  else raise AttributeError
         (py "'EbookUtil' object has no attribute '_create_"
          ++ ebook.format e ++ py "'").

End EbookUtil.

(** ** [class Ebook] *)

Module Ebook.

(** [__init__(self, title, author=None, ebook_format='mobi',
    auto_download_img=False)]: the staging directory is made and the
    book gets its own [EbookUtil]. *)
Definition __init__ (title : pystr) (author : option pystr)
    (ebook_format : pystr) (auto_download_img : bool) : M nat :=
  now <- read_clock;;
  tempdir <- ask (fun w => path_div (Path (tempfile_gettempdir (env w))) now);;
  mkdir tempdir;;
  self <- ask (fun w => length (ebooks w));;
  eu <- EbookUtil.__init__ self;;
  (fun w =>
     (Return tt,
      set_ebooks
        (ebooks w ++ [ebook.mk title author ebook_format auto_download_img
                        None None tempdir [] eu]) w));;
  ret self.

Definition set_cover (self : nat) (cover_path : option pystr)
    (cover_content : option bytes) : M nat :=
  if truthy cover_path
  then
    e <- get_ebook self;;
    put_ebook self (ebook.with_cover cover_path None e);;
    ret self
  else if truthy cover_content
  then
    e <- get_ebook self;;
    put_ebook self (ebook.with_cover None cover_content e);;
    ret self
  else raise ValueError (py "img_path and img_content are both empty").

Definition add_chapter (self : nat) (chapter : nat) : M nat :=
  top <- Chapter.is_top_chapter chapter;;
  if negb top
  then raise ValueError (py "only chapters with level 1 are accepted")
  else
    e <- get_ebook self;;
    put_ebook self
      (ebook.with_chapter_list (ebook.chapter_list e ++ [chapter]) e);;
    ret self.

Definition create_chapter (self : nat) (chapter_title : pystr) : M nat :=
  ct <- Chapter.new [VStr chapter_title; VEbook self] [];;
  add_chapter self ct;;
  ret ct.

Definition _create (self : nat) : M unit :=
  e <- get_ebook self;;
  if is_nil (ebook.chapter_list e)
  then raise ValueError (py "chapter list is empty")
  else EbookUtil.create (ebook._eu e).

(** A destination is a [str] given by the caller or the [Path] of
    [dest_file_path]; a [str] never equals a [Path]. *)
Inductive StrOrPath :=
| AsStr (s : pystr)
| AsPath (p : pystr).

Definition eqb (a b : StrOrPath) : bool :=
  match a, b with
  | AsStr x, AsStr y => pystr_eqb x y
  | AsPath x, AsPath y => pystr_eqb x y
  | _, _ => false
  end.

Definition fspath (a : StrOrPath) : pystr :=
  match a with
  | AsStr s => s
  | AsPath p => p
  end.

Definition save (self : nat) (file_path : option pystr) : M unit :=
  _create self;;
  e <- get_ebook self;;
  let file_path :=
    match file_path with
    | Some (c :: s) => AsStr (c :: s)
    | _ => AsPath (ebook.dest_file_path e)
    end in
  let src_file_path :=
    if pystr_eqb (ebook.format e) (py "mobi")
    then AsPath (ebook.full_dest_file_path e)
    else AsPath (ebook.dest_file_path e) in
  if eqb file_path src_file_path
  then ret tt
  else shutil_copy (fspath src_file_path) (fspath file_path).

Definition show (self : nat) : M (option Z) :=
  _create self;;
  e <- get_ebook self;;
  system <- ask (fun w => platform_system (env w));;
  if pystr_eqb system (py "Linux")
  then
    rc <- external (fun v =>
            subprocess_call v [py "xdg-open"; ebook.full_dest_file_path e]);;
    ret (Some rc)
  else if pystr_eqb system (py "Darwin")
  then
    rc <- external (fun v =>
            subprocess_call v [py "open"; ebook.full_dest_file_path e]);;
    ret (Some rc)
  else
    external (fun v => os_startfile v (ebook.full_dest_file_path e));;
    ret None.

End Ebook.


(** ** A small host and the book of the specification's example *)

(** The clock reads 1.5, 2.5, ...; the templates render to a fixed text,
    every process exits with status 1 and touches nothing, and downloads
    leave the content as it is. *)
Definition demo_env : Env :=
  mkEnv (py "/tmp") (fun n => str_of_int (Z.of_nat (S n)) ++ py ".5")
        (py "/pkg") (py "kindlegen") (py "/home/u")
        (py "Linux")
        (fun name => Some (fun _ => Return (py "rendered " ++ name)))
        (fun _ n => (Return 1, n))
        (fun _ n => (Return tt, n))
        (fun s _ n => (Return s, n)).

Definition demo_fs : Node :=
  Dir [(py "tmp", Dir []);
       (py "pkg", Dir [(py "templates",
                        Dir [(py "cover.jpg", File (Binary []))])]);
       (py "home", Dir [(py "u", Dir [(py "style.css", File (Text []))])])].

Definition demo_start : World := mkWorld [] [] [] demo_fs 0 demo_env.

(** A book titled T in the given format with one chapter C1 whose content
    is [<p>hi</p>]; the book is reference 0 and so is the chapter. *)
Definition demo_book (ebook_format : pystr) : World :=
  snd ((book <- Ebook.__init__ (py "T") None ebook_format false;;
        c <- Ebook.create_chapter book (py "C1");;
        Chapter.set_content c (py "<p>hi</p>")) demo_start).

(** ** Notions used to state the properties *)

(** The path names a regular file in this world. *)
Definition is_file_in (w : World) (f : pystr) : bool :=
  match node_at (path_components (os_getcwd (env w)) f) (fs w) with
  | Some (File _) => true
  | _ => false
  end.

(** [start, start + 1, ...], [n] numbers. *)
Fixpoint zseq (start : Z) (n : nat) : list Z :=
  match n with
  | O => []
  | S n' => start :: zseq (start + 1) n'
  end.

(** The play orders of a heading index read in pre-order: every entry,
    followed by the entries of its sub-headings. *)
Definition play_orders (hs : list Heading.t) : list Z :=
  flat_map (fun h =>
    Heading.play_order h
    :: map SubHeading.play_order (Heading.sub_headings h)) hs.

(** The entry [sh] is the one of the sub-chapter [r]: its title and its
    sanitised file name. *)
Definition sub_entry_of (w : World) (sh : SubHeading.t) (r : nat) : Prop :=
  exists sc : chapter.t,
    chapters w !! r = Some sc
    /\ SubHeading.title sh = chapter.title sc
    /\ SubHeading.file_name sh
       = format_file_name (chapter.title sc) ++ py ".html".

(** The entry [h] is the one of the chapter [r], and its sub-headings are
    those of the chapter's sub-chapters, in the order of that list. *)
Definition entry_of (w : World) (h : Heading.t) (r : nat) : Prop :=
  exists c : chapter.t,
    chapters w !! r = Some c
    /\ Heading.title h = chapter.title c
    /\ Heading.file_name h = format_file_name (chapter.title c) ++ py ".html"
    /\ Forall2 (sub_entry_of w) (Heading.sub_headings h)
               (chapter.sub_chapters c).

(** The references of a chapter tree name objects of the store, which is so
    for every reference a Python program holds. *)
Definition tree_allocated (w : World) (cs : list nat) : Prop :=
  Forall (fun r =>
    exists c : chapter.t,
      chapters w !! r = Some c
      /\ Forall (fun sr => is_Some (chapters w !! sr)) (chapter.sub_chapters c))
    cs.

(** The example book with two sub-chapters put under C1 and a second
    chapter C2, as a caller can arrange them through the public
    [sub_chapters] attribute. *)
Definition demo_tree : World :=
  set_ebooks
    [ebook.mk (py "T") None (py "epub") false None None (py "/tmp/1.5")
       [0; 3]%nat 0%nat]
    (set_chapters
       [chapter.mk (py "C1") 0 1 (Some (py "<p>hi</p>")) [] [1; 2]%nat;
        chapter.mk (py "S 1") 0 2 (Some (py "a")) [] [];
        chapter.mk (py "S/2") 0 2 (Some (py "b")) [] [];
        chapter.mk (py "C2") 0 1 (Some (py "c")) [] []]
       (demo_book (py "epub"))).

(** The files below a directory, each as the list of names that leads to it
    from that directory, in the order [os.walk] meets them: the files of a
    directory first, then those of its sub-directories. *)
Fixpoint files_below (n : Node) : list (list pystr) :=
  match n with
  | File _ => []
  | Dir es =>
      map (fun name => [name]) (filenames es)
      ++ (fix below_dirs (l : list (pystr * Node)) :=
            match l with
            | [] => []
            | (name, child) :: l' =>
                map (cons name) (files_below child) ++ below_dirs l'
            end) es
  end.

(** The path string of a file below [top]: the names joined on, one by
    one. *)
Definition path_below (top : pystr) (rel : list pystr) : pystr :=
  fold_left os_path_join rel top.

(** The relative path of such a file, as the specification means it. *)
Definition relative_path (rel : list pystr) : pystr := join_with [SEP] rel.

(** The paths [_create_epub] hands to [zipf.write], in order. *)
Definition walk_paths (walk : list (pystr * list pystr * list pystr))
    : list pystr :=
  flat_map (fun t => map (os_path_join (fst (fst t))) (snd t)) walk.

(** [w'] is [w] after steps that leave the environment and the books alone
    and keep every [EbookUtil] bound to its book. *)
Definition evolves (w w' : World) : Prop :=
  env w' = env w
  /\ ebooks w' = ebooks w
  /\ forall r u, utils w !! r = Some u ->
       exists u', utils w' !! r = Some u'
                  /\ ebook_util._ebook u' = ebook_util._ebook u.

(** A computation all of whose runs are such steps. *)
Definition framed {A} (m : M A) : Prop := forall w, evolves w (snd (m w)).

(** The members of the archive at [path], if there is one. *)
Definition archive_at (w : World) (path : pystr)
    : option (list (ZipMember FileData)) :=
  match node_at (path_components (os_getcwd (env w)) path) (fs w) with
  | Some (File (Archive members)) => Some members
  | _ => None
  end.

(** [m] is the member that [ZipFile.write(path)] makes in world [w] for an
    archive opened with the compression [c]: named by [zip_arcname], holding
    what the file at [path] holds, compressed with [c]. *)
Definition member_of (w : World) (c : Compression) (m : ZipMember FileData)
    (path : pystr) : Prop :=
  zip_arcname path = Some (filename m)
  /\ read_file path w = (Return (member_data m), w)
  /\ compress_type m = c.

(** A name as a directory lists it: not empty, without a separator, and
    neither [.] nor [..]. *)
Definition plain_name (c : pystr) : Prop :=
  c <> [] /\ Forall (fun x => x <> SEP) c /\ c <> py "." /\ c <> py "..".

(** ** The rest of the module *)

(** *** Images *)

(** The file name under which [download_image] saves the image of [url]:
    the sanitised URL, with the default format appended when it has no
    dot. *)
Definition image_local_name (url : pystr) : pystr :=
  let url_local := format_file_name url in
  if negb (existsb (N.eqb 46) url_local)
  then url_local ++ py ".png"
  else url_local.

(** *** What a build may change *)

(** A computation that changes nothing but the file system. *)
Definition fs_only {A} (m : M A) : Prop :=
  forall w, exists n, snd (m w) = set_fs n w.

(** No book of the store downloads images. *)
Definition downloads_off (w : World) : Prop :=
  Forall (fun e => ebook.auto_download_img e = false) (ebooks w).

(** A computation that, started where no book downloads images, leaves every
    chapter and every book as it is. *)
Definition keeps_objects {A} (m : M A) : Prop :=
  forall w, downloads_off w ->
    chapters (snd (m w)) = chapters w /\ ebooks (snd (m w)) = ebooks w.

(** *** Directories and their entries *)

(** The directory /d1/../dk exists in [w] and lists [es]. *)
Definition dir_at (w : World) (comps : list pystr)
    (es : list (pystr * Node)) : Prop :=
  node_at comps (fs w) = Some (Dir es).

(** The path string of the directory /d1/../dk, as [pathlib] prints it. *)
Definition abs_path (comps : list pystr) : pystr :=
  SEP :: join_with [SEP] comps.

(** No sub-directory of that name among the entries. *)
Definition not_a_dir (es : list (pystr * Node)) (name : pystr) : Prop :=
  forall l, dir_get name es <> Some (Dir l).

(** *** The deprecated interface: a book from a directory *)

(** [str.strip()] without argument: the white space at both ends goes. *)
Fixpoint lstrip (s : pystr) : pystr :=
  match s with
  | c :: s' => if is_space c then lstrip s' else s
  | [] => []
  end.

Definition rstrip (s : pystr) : pystr := rev (lstrip (rev s)).

Definition strip (s : pystr) : pystr := rstrip (lstrip s).

Definition startswith (prefix s : pystr) : bool :=
  bool_decide (take (length prefix) s = prefix).

Definition endswith (suffix s : pystr) : bool :=
  bool_decide (drop (length s - length suffix) s = suffix).

Definition LF : N := 10.
Definition CR : N := 13.

(** Reading in text mode with universal newlines: a carriage return, alone
    or before a line feed, is read as a line feed. *)
Fixpoint universal_newlines (s : pystr) : pystr :=
  match s with
  | [] => []
  | c :: s' =>
      if (c =? CR)%N
      then LF :: match s' with
                 | c' :: s'' =>
                     if (c' =? LF)%N
                     then universal_newlines s''
                     else universal_newlines s'
                 | [] => []
                 end
      else c :: universal_newlines s'
  end.

(** The lines of a text, each with its line feed; [cur] is the line read so
    far. *)
Fixpoint lines_from (cur s : pystr) : list pystr :=
  match s with
  | [] => if is_nil cur then [] else [cur]
  | c :: s' =>
      if (c =? LF)%N
      then (cur ++ [c]) :: lines_from [] s'
      else lines_from (cur ++ [c]) s'
  end.

(** [io.open(path, mode='r', encoding='utf-8')] followed by [readlines()].
    The file system keeps a text file as the [str] written to it; the bytes
    of the other files are not part of the model, and neither is their
    decoding. *)
Definition readlines (path : pystr) : M (list pystr) :=
  d <- read_file path;;
  match d with
  | Text s => ret (lines_from [] (universal_newlines s))
  | _ => raise ModelError (py "decoding of a file that holds no text")
  end.

(** [os.listdir]. *)
Definition os_listdir (path : pystr) : M (list pystr) :=
  n <- resolve path;;
  match n with
  | Some (Dir es) => ret (map fst es)
  | Some (File _) => raise NotADirectoryError path
  | None => raise FileNotFoundError path
  end.

(** The entries of [headers_info]: a dict with the keys [title] and
    [next_headers], the latter a list of dicts with the one key [title]. *)
Module sub_header.
Record t := mk { title : pystr }.
End sub_header.

Module header.
Record t := mk {
  title : pystr;
  next_headers : list sub_header.t
}.
End header.

(** The [while] loop that looks for the title: the line is indexed before
    the index is compared with the number of lines.  The loop makes at most
    one step per line, [fuel] bounds the steps. *)
Fixpoint title_loop (fuel : nat) (headers : list pystr) (title_line : nat)
    : M nat :=
  match fuel with
  | O => raise ModelError (py "out of fuel")
  | S fuel' =>
      match headers !! title_line with
      | None => raise IndexError (py "list index out of range")
      | Some h =>
          if is_nil (strip h) && (title_line <? length headers)%nat
          then title_loop fuel' headers (S title_line)
          else ret title_line
      end
  end.

(** [headers_info[-1]['next_headers'].append(..)]. *)
Definition append_next_header (sh : sub_header.t)
    (headers_info : list header.t) : M (list header.t) :=
  match List.last (map Some headers_info) None with
  | None => raise IndexError (py "list index out of range")
  | Some h =>
      ret (<[Nat.pred (length headers_info) :=
               header.mk (header.title h) (header.next_headers h ++ [sh])]>
             headers_info)
  end.

(** The [for] loop over the lines after the title.  What the dead branch
    writes to [sys.stderr] is outside the model. *)
Fixpoint parse_loop (headers rest : list pystr)
    (headers_info : list header.t) : M (list header.t) :=
  match rest with
  | [] => ret headers_info
  | h :: rest' =>
      let headers_info :=
        if startswith (py "# ") h
        then headers_info ++ [header.mk (strip (drop 2 h)) []]
        else headers_info in
      if startswith (py "## ") h
      then
        if (length headers =? 0)%nat
        then parse_loop headers rest' headers_info
        else
          headers_info <- append_next_header
                            (sub_header.mk (strip (drop 2 h))) headers_info;;
          parse_loop headers rest' headers_info
      else parse_loop headers rest' headers_info
  end.

(** The body of the [with] block, on the lines read. *)
Definition parse_lines (headers : list pystr) : M (pystr * list header.t) :=
  if is_nil headers
  then raise ValueError (py "invalid toc md file: title is empty")
  else
    title_line <- title_loop (S (length headers)) headers 0;;
    if (title_line =? length headers)%nat
    then raise ValueError (py "invalid toc md file:  title is empty")
    else
      match headers !! title_line with
      | None => raise IndexError (py "list index out of range")
      | Some t =>
          let title := strip t in
          headers_info <- parse_loop headers (drop (S title_line) headers) [];;
          if is_nil headers_info
          then raise ValueError (py "invalid toc md file: headings is empty")
          else ret (title, headers_info)
      end.

Definition _parse_headers (toc_file_name : pystr)
    : M (pystr * list header.t) :=
  isfile <- is_file toc_file_name;;
  if negb isfile
  then raise ValueError (py "toc.md file not exists:" ++ toc_file_name)
  else
    headers <- readlines toc_file_name;;
    parse_lines headers.

(** The call [ebook.create_chapter(..)] with positional arguments. *)
Definition create_chapter_signature : Signature :=
  mkSignature "create_chapter" ["chapter_title"]%string [].

Definition call_create_chapter (self : nat) (args : list PyVal) : M nat :=
  match bind_arguments create_chapter_signature args [] with
  | inl e => fun w => (Raise e, w)
  | inr b =>
      match assoc "chapter_title" b with
      | Some (VStr chapter_title) => Ebook.create_chapter self chapter_title
      | _ => raise ModelError (py "argument of another type")
      end
  end.

(** [make_ebook(source_dir, output_dir=None)].  The warning goes to
    [sys.stderr], outside the model. *)
Definition make_ebook (source_dir : pystr) (output_dir : option pystr)
    : M pystr :=
  let toc_file_name := os_path_join source_dir (py "toc.md") in
  th <- _parse_headers toc_file_name;;
  let title := fst th in
  let headers := snd th in
  ebook <- Ebook.__init__ title None (py "mobi") false;;
  let cover := os_path_join source_dir (py "cover.jpg") in
  has_cover <- is_file cover;;
  (if has_cover
   then Ebook.set_cover ebook (Some cover) None;; ret tt
   else ret tt);;
  for_each headers (fun h =>
    c <- call_create_chapter ebook
           [VStr (header.title h);
            VStr (os_path_join source_dir (header.title h ++ py ".html"))];;
    for_each (header.next_headers h) (fun sh =>
      Chapter.create_subchapter c (sub_header.title sh)
        (Some (os_path_join source_dir (sub_header.title sh ++ py ".html")));;
      ret tt));;
  src_files <- os_listdir source_dir;;
  e <- get_ebook ebook;;
  for_each src_files (fun fn =>
    let full_fn := os_path_join source_dir fn in
    isfile <- is_file full_fn;;
    if isfile && negb (endswith (py "html") fn)
    then shutil_copy full_fn (ebook.tmpdir e)
    else ret tt);;
  match output_dir with
  | None =>
      raise TypeError
        (py "expected str, bytes or os.PathLike object, not NoneType")
  | Some output_dir =>
      let fn := os_path_join output_dir (title ++ py ".mobi") in
      Ebook.save ebook (Some fn);;
      ret fn
  end.

(** *** Inputs of the deprecated interface *)

(** A title as [strip] leaves it, on one line. *)
Definition clean_title (s : pystr) : Prop :=
  strip s = s /\ Forall (fun c => c <> LF /\ c <> CR) s.

(** The text of a table of contents: the title, then one line [# title] per
    heading, each followed by one line [## title] per sub-heading. *)
Definition toc_lines (hs : list header.t) : list pystr :=
  flat_map (fun h =>
              (py "# " ++ header.title h ++ [LF])
              :: map (fun sh => py "## " ++ sub_header.title sh ++ [LF])
                     (header.next_headers h)) hs.

Definition toc_text (title : pystr) (hs : list header.t) : pystr :=
  concat ((title ++ [LF]) :: toc_lines hs).

Definition clean_header (h : header.t) : Prop :=
  clean_title (header.title h)
  /\ Forall (fun sh => clean_title (sub_header.title sh))
            (header.next_headers h).

(** A world with a source directory /src whose table of contents holds
    [s]. *)
Definition demo_toc (s : pystr) : World :=
  mkWorld [] [] []
    (Dir [(py "tmp", Dir []);
          (py "src", Dir [(py "toc.md", File (Text s))])])
    0 demo_env.

Definition demo_source : World :=
  demo_toc (toc_text (py "Book")
              [header.mk (py "One") [sub_header.mk (py "One.1")];
               header.mk (py "Two") []]).

(** The file under [path] is a text file that holds [s]. *)
Definition text_at (w : World) (path s : pystr) : Prop :=
  node_at (path_components (os_getcwd (env w)) path) (fs w)
  = Some (File (Text s)).

(** A line of white space only. *)
Definition blank (s : pystr) : Prop := Forall (fun c => is_space c = true) s.

(** The titles of an entry of [headers_info] are stripped. *)
Definition stripped_header (h : header.t) : Prop :=
  strip (header.title h) = header.title h
  /\ Forall (fun sh => strip (sub_header.title sh) = sub_header.title sh)
            (header.next_headers h).

Definition index_error : PyExc :=
  mkExc IndexError (py "list index out of range").

(** The file under [path] is a text file that reads as [lines]. *)
Definition lines_at (w : World) (path : pystr) (lines : list pystr) : Prop :=
  exists s, text_at w path s /\ lines_from [] (universal_newlines s) = lines.

(** The message of the check that follows the search for the title. *)
Definition title_is_empty : PyExc :=
  mkExc ValueError (py "invalid toc md file:  title is empty").

(** *** Paths and texts a write accepts *)



(** * Properties *)

(** ** Examples of the path and string functions *)

Example format_file_name_ex :
  format_file_name (py "a b/c: d.e") = py "abcde".
Proof. reflexivity. Qed.

Example normpath_ex1 :
  os_path_normpath (py "/tmp//1.5/./a/../toc.ncx") = py "/tmp/1.5/toc.ncx".
Proof. reflexivity. Qed.

Example normpath_ex2 : os_path_normpath (py "../a/..") = py "..".
Proof. reflexivity. Qed.

(** ** Reasoning about computations *)

Lemma bind_Return {A B} (m : M A) (k : A -> M B) w a w' :
  m w = (Return a, w') -> bind m k w = k a w'.
Proof. intros H. unfold bind. now rewrite H. Qed.

Lemma bind_Raise {A B} (m : M A) (k : A -> M B) w e w' :
  m w = (Raise e, w') -> bind m k w = (Raise e, w').
Proof. intros H. unfold bind. now rewrite H. Qed.

Lemma bind_Return_inv {A B} (m : M A) (k : A -> M B) w b w' :
  bind m k w = (Return b, w') ->
  exists a w1, m w = (Return a, w1) /\ k a w1 = (Return b, w').
Proof.
  unfold bind. destruct (m w) as [[a|e] w1]; intros H.
  - exists a, w1. split; [reflexivity | exact H].
  - discriminate H.
Qed.

Lemma deref_Some {A} (heap : World -> list A) r w a :
  heap w !! r = Some a -> deref heap r w = (Return a, w).
Proof. intros H. unfold deref. now rewrite H. Qed.

(** ** Sanitising a file name *)

Section ReSub.
Variable cls : N -> bool.

(** With the empty replacement, [re.sub] keeps exactly the code points
    outside the class. *)
Lemma re_sub_run_filter (in_run : bool) (s : pystr) :
  re_sub_run cls [] in_run s = List.filter (fun c => negb (cls c)) s.
Proof.
  revert in_run. induction s as [|c t IH]; intros in_run; simpl.
  - reflexivity.
  - destruct (cls c); simpl.
    + destruct in_run; apply IH.
    + f_equal. apply IH.
Qed.

Lemma filter_twice (f : N -> bool) (s : pystr) :
  List.filter f (List.filter f s) = List.filter f s.
Proof.
  induction s as [|c t IH]; simpl; [reflexivity|].
  destruct (f c) eqn:E; simpl; [rewrite E; f_equal|]; exact IH.
Qed.
End ReSub.

Lemma format_file_name_filter (s : pystr) :
  format_file_name s = List.filter (fun c => negb (illegal_char c)) s.
Proof. apply re_sub_run_filter. Qed.

Lemma format_file_name_legal (s : pystr) :
  Forall (fun c => illegal_char c = false) (format_file_name s).
Proof.
  rewrite format_file_name_filter. apply List.Forall_forall. intros c Hc.
  apply List.filter_In in Hc. destruct Hc as [_ Hc].
  now apply negb_true_iff in Hc.
Qed.

(** C9: sanitising is idempotent: a sanitised name is left as it is. *)
Theorem format_file_name_idempotent (s : pystr) :
  format_file_name (format_file_name s) = format_file_name s.
Proof. rewrite !format_file_name_filter. apply filter_twice. Qed.

(** ** Attaching chapters to the book *)

(** C4: a chapter whose level is not 1 is refused with a [ValueError] and
    nothing changes, the chapter list included; a chapter of level 1 is
    appended at the end of the chapter list and the book is returned. *)
Theorem add_chapter_top_level_only (w : World) (self chapter : nat)
    (c : chapter.t) :
  chapters w !! chapter = Some c ->
  (chapter._level c <> 1 ->
   Ebook.add_chapter self chapter w
   = (Raise (mkExc ValueError (py "only chapters with level 1 are accepted")),
      w))
  /\ (chapter._level c = 1 ->
      forall e : ebook.t, ebooks w !! self = Some e ->
      Ebook.add_chapter self chapter w
      = (Return self,
         set_ebooks
           (<[self := ebook.with_chapter_list
                        (ebook.chapter_list e ++ [chapter]) e]> (ebooks w))
           w)).
Proof.
  intros Hc. split.
  - intros Hl. unfold Ebook.add_chapter, Chapter.is_top_chapter.
    rewrite (bind_Return _ _ w (chapter.is_top_chapter c) w).
    + unfold chapter.is_top_chapter.
      destruct (Z.eqb_spec (chapter._level c) 1) as [E|E]; [contradiction|].
      reflexivity.
    + rewrite (bind_Return _ _ w c w); [reflexivity|].
      now apply deref_Some.
  - intros Hl e He. unfold Ebook.add_chapter, Chapter.is_top_chapter.
    rewrite (bind_Return _ _ w (chapter.is_top_chapter c) w).
    + unfold chapter.is_top_chapter. rewrite Hl. simpl.
      rewrite (bind_Return _ _ w e w); [reflexivity|].
      now apply deref_Some.
    + rewrite (bind_Return _ _ w c w); [reflexivity|].
      now apply deref_Some.
Qed.

Lemma add_chapter_top_level_only_witness :
  let c := chapter.mk (py "Sub") 0 2 None [] [] in
  let w := set_chapters [c] (demo_book (py "epub")) in
  Ebook.add_chapter 0 0 w
  = (Raise (mkExc ValueError (py "only chapters with level 1 are accepted")), w).
Proof.
  intros c w.
  apply (proj1 (add_chapter_top_level_only w 0%nat 0%nat c eq_refl)).
  discriminate.
Defined.

(** ** The guard of the build *)

Lemma create_empty (w : World) (self : nat) (e : ebook.t) :
  ebooks w !! self = Some e ->
  ebook.chapter_list e = [] ->
  Ebook._create self w
  = (Raise (mkExc ValueError (py "chapter list is empty")), w).
Proof.
  intros He Hl. unfold Ebook._create.
  rewrite (bind_Return _ _ w e w) by now apply deref_Some.
  now rewrite Hl.
Qed.

(** C5: with an empty chapter list [save] and [show] raise a [ValueError]
    and leave the world as it was: no file is rendered, copied or packed
    and no process is started.  With a chapter in the list [_create] hands
    over to the packager. *)
Theorem build_needs_a_chapter (w : World) (self : nat) (e : ebook.t) :
  ebooks w !! self = Some e ->
  (ebook.chapter_list e = [] ->
   (forall file_path,
      Ebook.save self file_path w
      = (Raise (mkExc ValueError (py "chapter list is empty")), w))
   /\ Ebook.show self w
      = (Raise (mkExc ValueError (py "chapter list is empty")), w))
  /\ (ebook.chapter_list e <> [] ->
      Ebook._create self w = EbookUtil.create (ebook._eu e) w).
Proof.
  intros He. split.
  - intros Hl. split.
    + intros file_path. unfold Ebook.save.
      apply bind_Raise. now apply create_empty with e.
    + unfold Ebook.show. apply bind_Raise. now apply create_empty with e.
  - intros Hl. unfold Ebook._create.
    rewrite (bind_Return _ _ w e w) by now apply deref_Some.
    destruct (ebook.chapter_list e); [contradiction | reflexivity].
Qed.

Lemma build_needs_a_chapter_witness :
  let w := snd (Ebook.__init__ (py "T") None (py "mobi") false demo_start) in
  Ebook.show 0 w = (Raise (mkExc ValueError (py "chapter list is empty")), w).
Proof.
  intros w.
  refine (proj2 (proj1 (build_needs_a_chapter w 0%nat
            (ebook.mk (py "T") None (py "mobi") false None None (py "/tmp/1.5")
               [] 0%nat) _) _)); reflexivity.
Defined.

(** ** The cover *)


Lemma set_cover_content (w : World) (self : nat) (e : ebook.t) cover_path
    cover_content :
  ebooks w !! self = Some e ->
  truthy cover_path = false ->
  truthy cover_content = true ->
  Ebook.set_cover self cover_path cover_content w
  = (Return self,
     set_ebooks (<[self := ebook.with_cover None cover_content e]> (ebooks w))
       w).
Proof.
  intros He Hp Hc. unfold Ebook.set_cover. rewrite Hp, Hc.
  rewrite (bind_Return _ _ w e w) by now apply deref_Some.
  reflexivity.
Qed.

Lemma set_cover_neither (w : World) (self : nat) cover_path cover_content :
  truthy cover_path = false ->
  truthy cover_content = false ->
  Ebook.set_cover self cover_path cover_content w
  = (Raise (mkExc ValueError (py "img_path and img_content are both empty")),
     w).
Proof. intros Hp Hc. unfold Ebook.set_cover. now rewrite Hp, Hc. Qed.

Lemma lookup_set_ebooks (w : World) (self : nat) (e e' : ebook.t) :
  ebooks w !! self = Some e ->
  ebooks (set_ebooks (<[self := e']> (ebooks w)) w) !! self = Some e'.
Proof.
  intros He. simpl. apply list_lookup_insert_eq.
  now apply lookup_lt_Some with e.
Qed.


Lemma save_cover_raw (w : World) (eu : nat) (u : ebook_util.t) (e : ebook.t) :
  utils w !! eu = Some u ->
  ebooks w !! ebook_util._ebook u = Some e ->
  truthy (ebook.cover_path e) = false ->
  truthy (ebook.cover_content e) = true ->
  EbookUtil._save_cover eu w = (Raise (mkExc NotImplementedError []), w).
Proof.
  intros Hu He Hp Hc. unfold EbookUtil._save_cover.
  rewrite (bind_Return _ _ w u w) by now apply deref_Some.
  rewrite (bind_Return _ _ w e w) by now apply deref_Some.
  rewrite Hp, Hc. reflexivity.
Qed.

Lemma init_Return_inv title author ebook_format auto w self w' :
  Ebook.__init__ title author ebook_format auto w = (Return self, w') ->
  exists tempdir eu,
    ebooks w' !! self
    = Some (ebook.mk title author ebook_format auto None None tempdir [] eu).
Proof.
  unfold Ebook.__init__. intros H.
  apply bind_Return_inv in H. destruct H as (now & w0 & _ & H).
  apply bind_Return_inv in H. destruct H as (tempdir & w1 & _ & H).
  apply bind_Return_inv in H. destruct H as ([] & w2 & _ & H).
  apply bind_Return_inv in H. destruct H as (r & w3 & Hr & H).
  apply bind_Return_inv in H. destruct H as (eu & w4 & Heu & H).
  apply bind_Return_inv in H. destruct H as ([] & w5 & Hput & H).
  unfold ask in Hr. inversion Hr; subst r w3; clear Hr.
  unfold EbookUtil.__init__ in Heu. inversion Heu; subst eu w4; clear Heu.
  inversion Hput; subst w5; clear Hput.
  unfold ret in H. inversion H; subst self w'; clear H.
  exists tempdir, (length (utils w2)). simpl.
  rewrite lookup_app_r by lia. now rewrite Nat.sub_diag.
Qed.



(** C8: with raw bytes as the cover and no cover path, staging the cover
    raises [NotImplementedError] and touches nothing, in every book in that
    state and so after every [set_cover] that took content. *)
Theorem raw_cover_fails_loudly (w : World) (eu : nat) (u : ebook_util.t)
    (e : ebook.t) :
  utils w !! eu = Some u ->
  ebooks w !! ebook_util._ebook u = Some e ->
  (truthy (ebook.cover_path e) = false ->
   truthy (ebook.cover_content e) = true ->
   EbookUtil._save_cover eu w = (Raise (mkExc NotImplementedError []), w))
  /\ (forall cover_path cover_content r w',
        truthy cover_path = false ->
        Ebook.set_cover (ebook_util._ebook u) cover_path cover_content w
        = (Return r, w') ->
        EbookUtil._save_cover eu w'
        = (Raise (mkExc NotImplementedError []), w')).
Proof.
  intros Hu He. split.
  - now apply save_cover_raw with u.
  - intros cover_path cover_content r w' Hp H.
    destruct (truthy cover_content) eqn:Hc.
    + rewrite (set_cover_content w _ e) in H by assumption.
      inversion H; subst r w'; clear H.
      apply save_cover_raw
        with (u := u) (e := ebook.with_cover None cover_content e).
      * exact Hu.
      * now apply lookup_set_ebooks with e.
      * reflexivity.
      * exact Hc.
    + rewrite set_cover_neither in H by assumption. discriminate H.
Qed.

Lemma raw_cover_fails_loudly_witness :
  let w := snd (Ebook.set_cover 0 None (Some [Byte.x89; Byte.x50])
                  (demo_book (py "epub"))) in
  EbookUtil._save_cover 0 w = (Raise (mkExc NotImplementedError []), w).
Proof.
  intros w.
  refine (proj1 (raw_cover_fails_loudly w 0%nat (ebook_util.mk 0 None)
            (ebook.mk (py "T") None (py "epub") false None
               (Some [Byte.x89; Byte.x50]) (py "/tmp/1.5") [0%nat] 0%nat)
            _ _) _ _); reflexivity.
Defined.

(** ** Static files *)

Lemma is_file_eq (w : World) (f : pystr) :
  is_file f w = (Return (is_file_in w f), w).
Proof. reflexivity. Qed.

(** The loop of assertions either passes and changes nothing, or stops at
    the first path that is no file, having changed nothing. *)
Lemma assert_files_loop (w : World) (file_path : list pystr) :
  let check := fun f : pystr =>
    bind (is_file f) (fun ok : bool =>
      if ok then ret tt else raise AssertionError (f ++ py " is not a file")) in
  (Forall (fun f => is_file_in w f = true) file_path
   /\ for_each file_path check w = (Return tt, w))
  \/ (exists f, In f file_path /\ is_file_in w f = false
      /\ for_each file_path check w
         = (Raise (mkExc AssertionError (f ++ py " is not a file")), w)).
Proof.
  intros check. induction file_path as [|f fs IH]; simpl.
  - left. split; [constructor | reflexivity].
  - destruct (is_file_in w f) eqn:Hf.
    + rewrite (bind_Return _ _ w tt w).
      * destruct IH as [[Hall Hrun] | (g & Hin & Hg & Hrun)].
        -- left. split; [now constructor | exact Hrun].
        -- right. exists g. auto.
      * unfold check. rewrite (bind_Return _ _ w true w); [reflexivity|].
        rewrite is_file_eq. now rewrite Hf.
    + right. exists f. split; [now left|]. split; [exact Hf|].
      apply bind_Raise. unfold check.
      rewrite (bind_Return _ _ w false w); [reflexivity|].
      rewrite is_file_eq. now rewrite Hf.
Qed.

(** C10: when some path of the call names no file, [add_static_files] fails
    with the [AssertionError] of such a path and the world is as before, so
    no path of the call was attached; when all are files, all are attached
    at the end of the list, in order. *)
Theorem add_static_files_atomic (w : World) (self : nat)
    (file_path : list pystr) :
  (Exists (fun f => is_file_in w f = false) file_path ->
   exists f,
     In f file_path /\ is_file_in w f = false
     /\ Chapter.add_static_files self file_path w
        = (Raise (mkExc AssertionError (f ++ py " is not a file")), w))
  /\ (Forall (fun f => is_file_in w f = true) file_path ->
      forall c : chapter.t, chapters w !! self = Some c ->
      Chapter.add_static_files self file_path w
      = (Return self,
         set_chapters
           (<[self := chapter.with_static_files
                        (chapter._static_files c ++ file_path) c]>
              (chapters w)) w)).
Proof.
  split.
  - intros Hex. unfold Chapter.add_static_files.
    destruct (assert_files_loop w file_path)
      as [[Hall _] | (f & Hin & Hf & Hrun)].
    + exfalso. apply List.Exists_exists in Hex. destruct Hex as (g & Hg & Hn).
      rewrite List.Forall_forall in Hall. specialize (Hall g Hg). congruence.
    + exists f. split; [exact Hin|]. split; [exact Hf|].
      apply bind_Raise. exact Hrun.
  - intros Hall c Hc. unfold Chapter.add_static_files.
    destruct (assert_files_loop w file_path)
      as [[_ Hrun] | (f & Hin & Hf & _)].
    + rewrite (bind_Return _ _ w tt w) by exact Hrun.
      rewrite (bind_Return _ _ w c w) by now apply deref_Some.
      reflexivity.
    + exfalso. rewrite List.Forall_forall in Hall. specialize (Hall f Hin).
      congruence.
Qed.

Lemma add_static_files_atomic_witness :
  let w := demo_book (py "epub") in
  exists f,
    In f [py "style.css"; py "missing.png"] /\ is_file_in w f = false
    /\ Chapter.add_static_files 0 [py "style.css"; py "missing.png"] w
       = (Raise (mkExc AssertionError (f ++ py " is not a file")), w).
Proof.
  intros w.
  apply (proj1 (add_static_files_atomic w 0%nat
                  [py "style.css"; py "missing.png"])).
  apply List.Exists_cons_tl. apply List.Exists_cons_hd. reflexivity.
Defined.

(** ** Sub-chapters *)

Lemma create_subchapter_max_level (w : World) (self : nat) (c : chapter.t)
    chapter_title chapter_file_path :
  chapters w !! self = Some c ->
  Chapter.max_level <= chapter._level c ->
  Chapter.create_subchapter self chapter_title chapter_file_path w
  = (Raise (mkExc Exception
              (py "chapter level is great than the max level num: 2")), w).
Proof.
  intros Hc Hl. unfold Chapter.create_subchapter.
  rewrite (bind_Return _ _ w c w) by now apply deref_Some.
  destruct (Z.leb_spec Chapter.max_level (chapter._level c)); [|lia].
  reflexivity.
Qed.

(** Below the maximum level the constructor call is reached, and its
    arguments do not bind: the third positional argument and the keyword
    both give [level]. *)
Lemma create_subchapter_below_max (w : World) (self : nat) (c : chapter.t)
    chapter_title chapter_file_path :
  chapters w !! self = Some c ->
  chapter._level c < Chapter.max_level ->
  Chapter.create_subchapter self chapter_title chapter_file_path w
  = (Raise (mkExc TypeError
              (py "__init__() got multiple values for argument 'level'")), w).
Proof.
  intros Hc Hl. unfold Chapter.create_subchapter.
  rewrite (bind_Return _ _ w c w) by now apply deref_Some.
  destruct (Z.leb_spec Chapter.max_level (chapter._level c)); [lia|].
  apply bind_Raise. reflexivity.
Qed.

(** C3: the specification has [create_subchapter] succeed on every
    top-level chapter.  On the top-level chapter C1 of the example book the
    call raises a [TypeError] instead, and the chapter gets no child. *)
Theorem create_subchapter_on_top_level_chapter :
  let w := demo_book (py "epub") in
  Chapter.create_subchapter 0 (py "S1") None w
  = (Raise (mkExc TypeError
              (py "__init__() got multiple values for argument 'level'")), w).
Proof.
  intros w.
  apply create_subchapter_below_max
    with (c := chapter.mk (py "C1") 0 1 (Some (py "<p>hi</p>")) [] []);
    reflexivity.
Qed.

(** ** The heading index *)

Lemma legal_not_sep (c : N) : illegal_char c = false -> c <> SEP.
Proof. intros H E. subst c. discriminate H. Qed.

Lemma split_on_plain (s : pystr) :
  Forall (fun c => c <> SEP) s -> split_on SEP s = [s].
Proof.
  induction 1 as [|c t Hc _ IH]; simpl; [reflexivity|].
  destruct (N.eqb_spec c SEP); [contradiction|]. now rewrite IH.
Qed.

(** A name without a separator that is neither empty nor a single dot is
    one component, and [Path] keeps it. *)
Lemma Path_plain (s : pystr) :
  Forall (fun c => c <> SEP) s -> (2 <= length s)%nat -> Path s = s.
Proof.
  intros Hs Hlen. unfold Path. rewrite split_on_plain by assumption.
  assert (H0 : initial_slashes s = 0%nat).
  { destruct s as [|a t]; [reflexivity|].
    inversion Hs as [|? ? Ha _]; subst.
    destruct (N.eqb_spec a SEP) as [E|E]; [contradiction|].
    destruct t as [|b [|c t]]; simpl;
      destruct (N.eqb_spec a SEP); try contradiction; reflexivity. }
  rewrite H0. simpl.
  unfold pystr_eqb.
  rewrite (bool_decide_eq_false_2 (s = []))
    by (intros E; subst s; simpl in Hlen; lia).
  rewrite (bool_decide_eq_false_2 (s = py "."))
    by (intros E; subst s; simpl in Hlen; lia).
  simpl. destruct s; [simpl in Hlen; lia | reflexivity].
Qed.

Lemma chapter_dest_file_path (c : chapter.t) :
  chapter.dest_file_path c = format_file_name (chapter.title c) ++ py ".html".
Proof.
  unfold chapter.dest_file_path. apply Path_plain.
  - apply List.Forall_app. split.
    + eapply List.Forall_impl; [|apply format_file_name_legal].
      intros a Ha. now apply legal_not_sep.
    + repeat constructor; discriminate.
  - rewrite length_app. simpl. lia.
Qed.

Lemma zseq_length (a : Z) (n : nat) : length (zseq a n) = n.
Proof. revert a. induction n; intros a; simpl; [|rewrite IHn]; reflexivity. Qed.

Lemma zseq_app (a : Z) (n m : nat) :
  zseq a (n + m) = zseq a n ++ zseq (a + Z.of_nat n) m.
Proof.
  revert a. induction n as [|n IH]; intros a.
  - simpl. now rewrite Z.add_0_r.
  - cbn [Nat.add zseq app]. rewrite IH. do 3 f_equal. lia.
Qed.

Lemma zseq_lower (a : Z) (n : nat) : Forall (fun x => a <= x) (zseq a n).
Proof.
  revert a. induction n as [|n IH]; intros a; cbn; constructor; [lia|].
  eapply List.Forall_impl; [|apply IH]. cbn. intros x Hx. lia.
Qed.

Lemma zseq_increasing (a : Z) (n : nat) : StronglySorted Z.lt (zseq a n).
Proof.
  revert a. induction n as [|n IH]; intros a; cbn; constructor; [apply IH|].
  eapply List.Forall_impl; [|apply zseq_lower]. cbn. intros x Hx. lia.
Qed.

Lemma play_orders_app (hs1 hs2 : list Heading.t) :
  play_orders (hs1 ++ hs2) = play_orders hs1 ++ play_orders hs2.
Proof. unfold play_orders. apply List.flat_map_app. Qed.

(** The inner loop reads the store and numbers the sub-chapters on from
    [order]. *)
Lemma sub_headings_loop_spec (w : World) (scs : list nat) :
  Forall (fun sr => is_Some (chapters w !! sr)) scs ->
  forall order acc,
  exists subs,
    EbookUtil.sub_headings_loop scs order acc w
    = (Return (order + Z.of_nat (length scs), acc ++ subs), w)
    /\ Forall2 (sub_entry_of w) subs scs
    /\ map SubHeading.play_order subs = zseq (order + 1) (length scs).
Proof.
  induction 1 as [|sc scs [s Hs] _ IH]; intros order acc.
  - exists []. cbn. rewrite Z.add_0_r, app_nil_r. repeat split. constructor.
  - cbn [EbookUtil.sub_headings_loop].
    rewrite (bind_Return _ _ w s w) by now apply deref_Some.
    rewrite (bind_Return _ _ w (chapter.dest_file_path s) w).
    2:{ unfold Chapter.dest_file_path.
        rewrite (bind_Return _ _ w s w) by now apply deref_Some.
        reflexivity. }
    destruct (IH (order + 1)
                (acc ++ [SubHeading.mk (chapter.title s) (order + 1)
                           (chapter.dest_file_path s)]))
      as (subs & Hrun & Hrel & Hord).
    exists (SubHeading.mk (chapter.title s) (order + 1)
              (chapter.dest_file_path s) :: subs).
    split; [|split].
    + rewrite Hrun. rewrite <- app_assoc. cbn [app length].
      replace (order + Z.of_nat (S (length scs)))
        with (order + 1 + Z.of_nat (length scs)) by lia.
      reflexivity.
    + constructor; [|exact Hrel].
      exists s. cbn. auto using chapter_dest_file_path.
    + cbn. now rewrite Hord.
Qed.

(** The outer loop: the entries follow the chapter list, and the numbering
    runs on through chapters and sub-chapters alike. *)
Lemma headings_loop_spec (w : World) (cs : list nat) :
  tree_allocated w cs ->
  forall order hs,
  exists new,
    EbookUtil.headings_loop cs order hs w
    = (Return (order + Z.of_nat (length (play_orders new)), hs ++ new), w)
    /\ Forall2 (entry_of w) new cs
    /\ play_orders new = zseq (order + 1) (length (play_orders new)).
Proof.
  induction 1 as [|c cs (ch & Hch & Hsubs) _ IH]; intros order hs.
  - exists []. cbn. rewrite Z.add_0_r, app_nil_r. repeat split. constructor.
  - cbn [EbookUtil.headings_loop].
    rewrite (bind_Return _ _ w ch w) by now apply deref_Some.
    rewrite (bind_Return _ _ w (chapter.dest_file_path ch) w).
    2:{ unfold Chapter.dest_file_path.
        rewrite (bind_Return _ _ w ch w) by now apply deref_Some.
        reflexivity. }
    destruct (sub_headings_loop_spec w _ Hsubs (order + 1) [])
      as (subs & Hrun & Hrel & Hord).
    rewrite (bind_Return _ _ w _ w Hrun). cbn [fst snd app].
    set (h := Heading.mk (chapter.title ch) (order + 1)
                (chapter.dest_file_path ch) subs).
    destruct (IH (order + 1 + Z.of_nat (length (chapter.sub_chapters ch)))
                (hs ++ [h]))
      as (new & Hrun' & Hrel' & Hord').
    assert (Hph : play_orders [h]
                  = (order + 1) :: zseq (order + 1 + 1)
                                     (length (chapter.sub_chapters ch))).
    { unfold h. cbn. now rewrite app_nil_r, Hord. }
    assert (Hlh : length (play_orders [h])
                  = S (length (chapter.sub_chapters ch))).
    { rewrite Hph. cbn. now rewrite zseq_length. }
    exists (h :: new). change (h :: new) with ([h] ++ new).
    rewrite play_orders_app, length_app, Hlh. split; [|split].
    + rewrite Hrun'. rewrite <- app_assoc.
      replace (order + Z.of_nat
                 (S (length (chapter.sub_chapters ch))
                  + length (play_orders new)))
        with (order + 1 + Z.of_nat (length (chapter.sub_chapters ch))
              + Z.of_nat (length (play_orders new))) by lia.
      reflexivity.
    + constructor; [|exact Hrel'].
      exists ch. cbn. auto using chapter_dest_file_path.
    + rewrite zseq_app. f_equal.
      * exact Hph.
      * rewrite Hord' at 1. f_equal. lia.
Qed.

(** C1: on an index that is not cached yet, [headings] returns one entry per
    top-level chapter in the order of the chapter list, each with the
    chapter's title, its sanitised file name and the entries of its
    sub-chapters in their order; read in pre-order, a chapter before its
    sub-chapters, the play orders are 2, 3, 4, ...: strictly increasing,
    without a gap and without a restart at the next chapter. *)
Theorem headings_preorder (w : World) (self : nat) (u : ebook_util.t)
    (e : ebook.t) :
  utils w !! self = Some u ->
  ebook_util._headings u = None \/ ebook_util._headings u = Some [] ->
  ebooks w !! ebook_util._ebook u = Some e ->
  tree_allocated w (ebook.chapter_list e) ->
  exists hs : list Heading.t,
    EbookUtil.headings self w
    = (Return hs,
       set_utils
         (<[self := ebook_util.mk (ebook_util._ebook u) (Some hs)]> (utils w))
         w)
    /\ Forall2 (entry_of w) hs (ebook.chapter_list e)
    /\ play_orders hs = zseq 2 (length (play_orders hs))
    /\ StronglySorted Z.lt (play_orders hs).
Proof.
  intros Hu Hcache He Htree.
  destruct (headings_loop_spec w _ Htree 1 []) as (hs & Hrun & Hrel & Hord).
  exists hs. split; [|split; [assumption | split; [assumption|]]].
  2:{ rewrite Hord. apply zseq_increasing. }
  unfold EbookUtil.headings.
  rewrite (bind_Return _ _ w u w) by now apply deref_Some.
  assert (Hgo :
    bind (get_ebook (ebook_util._ebook u)) (fun e0 =>
      bind (EbookUtil.headings_loop (ebook.chapter_list e0) 1 []) (fun r =>
        bind (put_util self
                (ebook_util.mk (ebook_util._ebook u) (Some (snd r))))
             (fun _ => ret (snd r)))) w
    = (Return hs,
       set_utils
         (<[self := ebook_util.mk (ebook_util._ebook u) (Some hs)]> (utils w))
         w)).
  { rewrite (bind_Return _ _ w e w) by now apply deref_Some.
    rewrite (bind_Return _ _ w _ w Hrun). reflexivity. }
  destruct Hcache as [Hc | Hc]; rewrite Hc; exact Hgo.
Qed.

Lemma headings_preorder_witness :
  exists hs : list Heading.t,
    EbookUtil.headings 0 demo_tree
    = (Return hs,
       set_utils (<[0%nat := ebook_util.mk 0 (Some hs)]> (utils demo_tree))
         demo_tree)
    /\ Forall2 (entry_of demo_tree) hs [0; 3]%nat
    /\ play_orders hs = zseq 2 (length (play_orders hs))
    /\ StronglySorted Z.lt (play_orders hs).
Proof.
  refine (headings_preorder demo_tree 0%nat (ebook_util.mk 0 None)
            (ebook.mk (py "T") None (py "epub") false None None (py "/tmp/1.5")
               [0; 3]%nat 0%nat) _ _ _ _).
  - reflexivity.
  - left. reflexivity.
  - reflexivity.
  - repeat first [ apply List.Forall_cons | apply List.Forall_nil
                 | eexists; split; [reflexivity|] | eexists; reflexivity ].
Defined.

Example headings_demo_tree :
  map (fun h => (Heading.play_order h, Heading.file_name h,
                 map (fun s => (SubHeading.play_order s,
                                SubHeading.file_name s))
                     (Heading.sub_headings h)))
      match fst (EbookUtil.headings 0 demo_tree) with
      | Return hs => hs
      | Raise _ => []
      end
  = [(2, py "C1.html", [(3, py "S1.html"); (4, py "S2.html")]);
     (5, py "C2.html", [])].
Proof. reflexivity. Qed.

(** A cached index with an entry is returned as it is, whatever the chapter
    list has become. *)
Lemma headings_cached (w : World) (self : nat) (u : ebook_util.t) h hs :
  utils w !! self = Some u ->
  ebook_util._headings u = Some (h :: hs) ->
  EbookUtil.headings self w = (Return (h :: hs), w).
Proof.
  intros Hu Hc. unfold EbookUtil.headings.
  rewrite (bind_Return _ _ w u w) by now apply deref_Some.
  now rewrite Hc.
Qed.

(** ** What a build leaves alone *)

Lemma evolves_refl (w : World) : evolves w w.
Proof. repeat split. intros r u H. eauto. Qed.

Lemma evolves_trans (w1 w2 w3 : World) :
  evolves w1 w2 -> evolves w2 w3 -> evolves w1 w3.
Proof.
  intros (He1 & Hb1 & Hu1) (He2 & Hb2 & Hu2). repeat split.
  - congruence.
  - congruence.
  - intros r u H. destruct (Hu1 r u H) as (u' & H' & E').
    destruct (Hu2 r u' H') as (u'' & H'' & E''). exists u''. split; congruence.
Qed.

Lemma evolves_set_fs (w : World) (n : Node) : evolves w (set_fs n w).
Proof. repeat split. intros r u H. eauto. Qed.

Lemma evolves_set_chapters (w : World) l : evolves w (set_chapters l w).
Proof. repeat split. intros r u H. eauto. Qed.

Lemma framed_ret {A} (a : A) : framed (ret a).
Proof. intros w. apply evolves_refl. Qed.

Lemma framed_raise {A} cls msg : framed (@raise A cls msg).
Proof. intros w. apply evolves_refl. Qed.

Lemma framed_fail {A} (e : PyExc) : framed (fun w => (@Raise A e, w)).
Proof. intros w. apply evolves_refl. Qed.

Lemma framed_ask {A} (f : World -> A) : framed (ask f).
Proof. intros w. apply evolves_refl. Qed.

Lemma framed_deref {A} (heap : World -> list A) r : framed (deref heap r).
Proof. intros w. unfold deref. destruct (heap w !! r); apply evolves_refl. Qed.

Lemma framed_bind {A B} (m : M A) (k : A -> M B) :
  framed m -> (forall a, framed (k a)) -> framed (bind m k).
Proof.
  intros Hm Hk w. unfold bind. specialize (Hm w).
  destruct (m w) as [[a|e] w1]; simpl in *.
  - eapply evolves_trans; [exact Hm | apply Hk].
  - exact Hm.
Qed.

Lemma framed_for_each {A} (xs : list A) (body : A -> M unit) :
  (forall x, framed (body x)) -> framed (for_each xs body).
Proof.
  intros Hb. induction xs as [|x xs IH]; simpl.
  - apply framed_ret.
  - apply framed_bind; [apply Hb | intros _; exact IH].
Qed.

Lemma framed_put_chapter r c : framed (put_chapter r c).
Proof. intros w. apply evolves_set_chapters. Qed.

Lemma framed_store path n : framed (store path n).
Proof.
  intros w. unfold store.
  destruct (node_put _ n (fs w)); [apply evolves_set_fs | apply evolves_refl].
Qed.

Lemma framed_external {A} (f : Env -> Node -> Result A * Node) :
  framed (external f).
Proof.
  intros w. unfold external. destruct (f (env w) (fs w)).
  apply evolves_set_fs.
Qed.

(** Goals of the form [framed m] for a composite [m], by the shape of [m]. *)
Ltac framed_step :=
  match goal with
  | |- framed (bind _ _) => apply framed_bind; [|intros ?]
  | |- framed (ret _) => apply framed_ret
  | |- framed (raise _ _) => apply framed_raise
  | |- framed (ask _) => apply framed_ask
  | |- framed (deref _ _) => apply framed_deref
  | |- framed (get_chapter _) => apply framed_deref
  | |- framed (get_ebook _) => apply framed_deref
  | |- framed (get_util _) => apply framed_deref
  | |- framed (put_chapter _ _) => apply framed_put_chapter
  | |- framed (store _ _) => apply framed_store
  | |- framed (external _) => apply framed_external
  | |- framed (for_each _ _) => apply framed_for_each; intros ?
  | |- framed (fun w => (Raise _, w)) => apply framed_fail
  | |- framed (if ?b then _ else _) => destruct b
  | |- framed (match ?x with _ => _ end) => destruct x
  | |- framed (let _ := _ in _) => cbv zeta
  end.

Ltac framed := repeat framed_step.

Lemma framed_resolve path : framed (resolve path).
Proof. unfold resolve. framed. Qed.

Lemma framed_open_w path : framed (open_w path).
Proof. unfold open_w. framed; apply framed_resolve. Qed.

Lemma framed_read_file path : framed (read_file path).
Proof. unfold read_file. framed; apply framed_resolve. Qed.

Lemma framed_shutil_copy src dst : framed (shutil_copy src dst).
Proof.
  unfold shutil_copy. framed;
    first [apply framed_resolve | apply framed_read_file].
Qed.

Lemma framed_Chapter_save self : framed (Chapter.save self).
Proof.
  unfold Chapter.save, Chapter.full_dest_file_path. framed;
    first [apply framed_open_w | apply framed_shutil_copy].
Qed.

(** The loops of [headings] read the store and change nothing. *)
Lemma sub_headings_loop_pure scs : forall order acc w,
  snd (EbookUtil.sub_headings_loop scs order acc w) = w.
Proof.
  induction scs as [|sc scs IH]; intros order acc w; [reflexivity|].
  cbn [EbookUtil.sub_headings_loop]. unfold bind, get_chapter, deref.
  destruct (chapters w !! sc); [|reflexivity].
  unfold Chapter.dest_file_path, bind, get_chapter, deref.
  destruct (chapters w !! sc); [|reflexivity]. cbn. apply IH.
Qed.

Lemma headings_loop_pure cs : forall order hs w,
  snd (EbookUtil.headings_loop cs order hs w) = w.
Proof.
  induction cs as [|c cs IH]; intros order hs w; [reflexivity|].
  cbn [EbookUtil.headings_loop]. unfold bind at 1. unfold get_chapter, deref.
  destruct (chapters w !! c) as [ch|]; [|reflexivity].
  unfold bind at 1. unfold Chapter.dest_file_path, bind at 1.
  unfold get_chapter, deref.
  destruct (chapters w !! c) as [ch'|]; [|reflexivity]. cbn [ret].
  unfold bind at 1.
  pose proof (sub_headings_loop_pure (chapter.sub_chapters ch) (order + 1) [] w)
    as Hp.
  destruct (EbookUtil.sub_headings_loop _ _ _ w) as [[r|e] w1];
    simpl in Hp; subst w1; [apply IH | reflexivity].
Qed.

Lemma framed_headings self : framed (EbookUtil.headings self).
Proof.
  intros w. unfold EbookUtil.headings, bind at 1. unfold get_util, deref.
  destruct (utils w !! self) as [u|] eqn:Hu; [|apply evolves_refl].
  assert (Hgo : evolves w (snd (
    bind (get_ebook (ebook_util._ebook u)) (fun e0 =>
      bind (EbookUtil.headings_loop (ebook.chapter_list e0) 1 []) (fun r =>
        bind (put_util self
                (ebook_util.mk (ebook_util._ebook u) (Some (snd r))))
             (fun _ => ret (snd r)))) w))).
  { unfold bind at 1. unfold get_ebook, deref.
    destruct (ebooks w !! ebook_util._ebook u) as [e0|]; [|apply evolves_refl].
    unfold bind at 1.
    pose proof (headings_loop_pure (ebook.chapter_list e0) 1 [] w) as Hp.
    destruct (EbookUtil.headings_loop _ _ _ w) as [[r|e] w1];
      simpl in Hp; subst w1; [|apply evolves_refl].
    cbn. repeat split. intros r0 u0 H0. unfold set_utils. cbn [utils].
    destruct (decide (r0 = self)) as [->|Hne].
    - eexists. split.
      + apply list_lookup_insert_eq. now apply lookup_lt_Some with u0.
      + cbn. congruence.
    - exists u0. split; [|reflexivity].
      rewrite list_lookup_insert_ne by congruence. exact H0. }
  destruct (ebook_util._headings u) as [[|h hs]|];
    [exact Hgo | apply evolves_refl | exact Hgo].
Qed.

Lemma framed_render_file self name ctx to :
  framed (EbookUtil._render_file self name ctx to).
Proof. unfold EbookUtil._render_file. framed; apply framed_open_w. Qed.

Lemma framed_generate_all_files self :
  framed (EbookUtil._generate_all_files self).
Proof.
  unfold EbookUtil._generate_all_files, EbookUtil._render_toc_ncx,
    EbookUtil._render_toc_html, EbookUtil._render_opf, EbookUtil._save_cover,
    EbookUtil._save_chapters.
  framed;
    first [ apply framed_headings | apply framed_render_file
          | apply framed_shutil_copy | apply framed_Chapter_save ].
Qed.

(** After the files are generated the book is the one it was and the
    [EbookUtil] is still bound to it. *)
Lemma generate_all_files_keeps (w : World) (self : nat) (u : ebook_util.t)
    (e : ebook.t) r w1 :
  utils w !! self = Some u ->
  ebooks w !! ebook_util._ebook u = Some e ->
  EbookUtil._generate_all_files self w = (r, w1) ->
  env w1 = env w
  /\ ebooks w1 !! ebook_util._ebook u = Some e
  /\ exists u1, utils w1 !! self = Some u1
                /\ ebook_util._ebook u1 = ebook_util._ebook u.
Proof.
  intros Hu He Hrun.
  pose proof (framed_generate_all_files self w) as (Hv & Hb & Hk).
  rewrite Hrun in *. simpl in *. split; [exact Hv|]. split.
  - now rewrite Hb.
  - apply Hk. exact Hu.
Qed.

(** ** Packaging as MOBI *)

Lemma create_mobi_ignores_status (w : World) (self : nat) (u : ebook_util.t)
    (e : ebook.t) (opf_file : pystr) (w1 : World) (rc : Z) (n : Node) :
  utils w !! self = Some u ->
  ebooks w !! ebook_util._ebook u = Some e ->
  EbookUtil._generate_all_files self w = (Return opf_file, w1) ->
  subprocess_call (env w)
    [kindlegen (env w); py "-dont_append_source";
     path_div (ebook.tmpdir e) opf_file] (fs w1) = (Return rc, n) ->
  EbookUtil._create_mobi self w = (Return tt, set_fs n w1).
Proof.
  intros Hu He Hgen Hcall.
  destruct (generate_all_files_keeps w self u e _ _ Hu He Hgen)
    as (Hv & He1 & u1 & Hu1 & Hb1).
  unfold EbookUtil._create_mobi.
  rewrite (bind_Return _ _ w _ w1 Hgen).
  rewrite (bind_Return _ _ w1 u1 w1) by now apply deref_Some.
  rewrite (bind_Return _ _ w1 e w1)
    by (apply deref_Some; now rewrite Hb1).
  rewrite (bind_Return _ _ w1 rc (set_fs n w1)).
  - now destruct (negb (rc =? 0)).
  - unfold external. rewrite Hv, Hcall. reflexivity.
Qed.

(** C6: for a book in the mobi format, when the files are generated and the
    converter then exits with a status other than 0, the packager returns
    normally: no exception, and the world is the one the converter left. So
    does [Ebook._create] of a book with a chapter. *)
Theorem mobi_converter_failure_swallowed (w : World) (self : nat)
    (u : ebook_util.t) (e : ebook.t) (opf_file : pystr) (w1 : World) (rc : Z)
    (n : Node) :
  utils w !! self = Some u ->
  ebooks w !! ebook_util._ebook u = Some e ->
  ebook.format e = py "mobi" ->
  EbookUtil._generate_all_files self w = (Return opf_file, w1) ->
  subprocess_call (env w)
    [kindlegen (env w); py "-dont_append_source";
     path_div (ebook.tmpdir e) opf_file] (fs w1) = (Return rc, n) ->
  rc <> 0 ->
  EbookUtil.create self w = (Return tt, set_fs n w1)
  /\ (ebook._eu e = self -> ebook.chapter_list e <> [] ->
      Ebook._create (ebook_util._ebook u) w = (Return tt, set_fs n w1)).
Proof.
  intros Hu He Hf Hgen Hcall _.
  assert (Hc : EbookUtil.create self w = (Return tt, set_fs n w1)).
  { unfold EbookUtil.create.
    rewrite (bind_Return _ _ w u w) by now apply deref_Some.
    rewrite (bind_Return _ _ w e w) by now apply deref_Some.
    rewrite Hf. change (pystr_eqb (py "mobi") (py "mobi")) with true.
    cbv iota.
    now apply create_mobi_ignores_status with u e opf_file rc. }
  split; [exact Hc|].
  intros Heu Hl. unfold Ebook._create.
  rewrite (bind_Return _ _ w e w) by now apply deref_Some.
  destruct (ebook.chapter_list e); [contradiction|].
  cbn [is_nil]. now rewrite Heu.
Qed.

Lemma mobi_converter_failure_swallowed_witness :
  let w := demo_book (py "mobi") in
  let w1 := snd (EbookUtil._generate_all_files 0 w) in
  Ebook._create 0 w = (Return tt, set_fs (fs w1) w1).
Proof.
  intros w w1.
  refine (proj2 (mobi_converter_failure_swallowed w 0%nat
            (ebook_util.mk 0 None)
            (ebook.mk (py "T") None (py "mobi") false None None (py "/tmp/1.5")
               [0%nat] 0%nat)
            (py "T.opf") w1 1 (fs w1) _ _ _ _ _ _) _ _).
  - reflexivity.
  - reflexivity.
  - reflexivity.
  - vm_compute. reflexivity.
  - vm_compute. reflexivity.
  - discriminate.
  - reflexivity.
  - discriminate.
Defined.

(** What comes after the build is another matter: the converter of the
    example host leaves no T.mobi behind, and the copy at the end of [save]
    then fails. *)
Example save_after_failed_converter :
  fst (Ebook.save 0 None (demo_book (py "mobi")))
  = Raise (mkExc FileNotFoundError (py "/tmp/1.5/T.mobi")).
Proof. vm_compute. reflexivity. Qed.

(** ** Packaging as EPUB *)

(** Induction on a directory tree. *)
Lemma Node_tree_ind (P : Node -> Prop) :
  (forall d, P (File d)) ->
  (forall es, Forall (fun e => P (snd e)) es -> P (Dir es)) ->
  forall n, P n.
Proof.
  intros Hf Hd. fix IH 1. intros [d|es].
  - apply Hf.
  - apply Hd. induction es as [|[name child] es IHes].
    + constructor.
    + constructor; [apply IH | exact IHes].
Qed.

Lemma walk_paths_app walk1 walk2 :
  walk_paths (walk1 ++ walk2) = walk_paths walk1 ++ walk_paths walk2.
Proof. unfold walk_paths. apply List.flat_map_app. Qed.

(** The paths handed to [zipf.write] are those of the files below the
    directory that is walked, each joined onto the path of that directory. *)
Lemma walk_paths_files_below (n : Node) : forall top,
  walk_paths (os_walk top n) = map (path_below top) (files_below n).
Proof.
  induction n as [d|es IH] using Node_tree_ind; intros top; [reflexivity|].
  cbn [os_walk files_below].
  change (walk_paths ((top, dirnames es, filenames es) :: ?l))
    with (map (os_path_join top) (filenames es) ++ walk_paths l).
  rewrite List.map_app, List.map_map. f_equal.
  induction IH as [|[name child] es Hchild _ IHes]; [reflexivity|].
  rewrite walk_paths_app, List.map_app, IHes. f_equal.
  cbn [snd] in Hchild. rewrite Hchild, List.map_map. reflexivity.
Qed.

Lemma read_file_pure path w r w' : read_file path w = (r, w') -> w' = w.
Proof.
  unfold read_file, resolve, bind, ask.
  destruct (node_at _ (fs w)) as [[d|es]|]; intros H; inversion H; reflexivity.
Qed.

Lemma ZipFile_write_inv zipf path w zipf' w' :
  ZipFile_write zipf path w = (Return zipf', w') ->
  w' = w
  /\ exists m,
       member_of w (compression zipf) m path
       /\ zipf' = mkZipFile (zip_filename zipf) (compression zipf)
                    (filelist zipf ++ [m]).
Proof.
  unfold ZipFile_write. intros H.
  apply bind_Return_inv in H. destruct H as (data & w1 & Hread & H).
  pose proof (read_file_pure _ _ _ _ Hread) as ->.
  destruct (zip_arcname path) as [arcname|] eqn:Harc; [|discriminate H].
  inversion H; subst. split; [reflexivity|].
  exists (mkZipMember arcname (compression zipf) data).
  repeat split; assumption.
Qed.

Lemma zip_files_spec root files : forall zipf w zipf' w',
  EbookUtil.zip_files zipf root files w = (Return zipf', w') ->
  w' = w
  /\ zip_filename zipf' = zip_filename zipf
  /\ compression zipf' = compression zipf
  /\ exists ms,
       filelist zipf' = filelist zipf ++ ms
       /\ Forall2 (member_of w (compression zipf)) ms
                  (map (os_path_join root) files).
Proof.
  induction files as [|file files IH]; intros zipf w zipf' w' H.
  - inversion H; subst. repeat split. exists []. rewrite app_nil_r.
    split; [reflexivity | constructor].
  - cbn [EbookUtil.zip_files] in H.
    apply bind_Return_inv in H. destruct H as (z1 & w1 & Hw & H).
    apply ZipFile_write_inv in Hw. destruct Hw as (-> & m & Hm & ->).
    apply IH in H. cbn in H. destruct H as (-> & Hn & Hc & ms & Hl & Hms).
    repeat split; try assumption.
    exists (m :: ms). split.
    + rewrite Hl, <- app_assoc. reflexivity.
    + constructor; assumption.
Qed.

Lemma zip_walk_spec walk : forall zipf w zipf' w',
  EbookUtil.zip_walk zipf walk w = (Return zipf', w') ->
  w' = w
  /\ zip_filename zipf' = zip_filename zipf
  /\ compression zipf' = compression zipf
  /\ exists ms,
       filelist zipf' = filelist zipf ++ ms
       /\ Forall2 (member_of w (compression zipf)) ms (walk_paths walk).
Proof.
  induction walk as [|[[root dirs] files] walk IH]; intros zipf w zipf' w' H.
  - inversion H; subst. repeat split. exists []. rewrite app_nil_r.
    split; [reflexivity | constructor].
  - cbn [EbookUtil.zip_walk] in H.
    apply bind_Return_inv in H. destruct H as (z1 & w1 & Hf & H).
    apply zip_files_spec in Hf. destruct Hf as (-> & Hn1 & Hc1 & ms1 & Hl1 & H1).
    apply IH in H. destruct H as (-> & Hn & Hc & ms & Hl & Hms).
    repeat split; try congruence.
    exists (ms1 ++ ms). split.
    + rewrite Hl, Hl1, <- app_assoc. reflexivity.
    + change (walk_paths ((root, dirs, files) :: walk))
        with (map (os_path_join root) files ++ walk_paths walk).
      apply Forall2_app; [exact H1|]. now rewrite <- Hc1.
Qed.

Lemma dir_get_put (name : pystr) (n : Node) es :
  dir_get name (dir_put name n es) = Some n.
Proof.
  induction es as [|[k v] es IH]; cbn.
  - unfold pystr_eqb. now rewrite bool_decide_eq_true_2.
  - destruct (pystr_eqb k name) eqn:E; cbn; rewrite E; [reflexivity | exact IH].
Qed.

(** What is put at a path is found there. *)
Lemma node_at_put comps new : forall n n',
  node_put comps new n = Some n' -> node_at comps n' = Some new.
Proof.
  induction comps as [|c rest IH]; intros n n' H.
  - inversion H. reflexivity.
  - destruct rest as [|c2 rest].
    + cbn [node_put] in H. destruct n as [d|es]; [discriminate H|].
      inversion H; subst. cbn. now rewrite dir_get_put.
    + destruct n as [d|es]; [discriminate H|].
      change (match dir_get c es with
              | Some child =>
                  match node_put (c2 :: rest) new child with
                  | Some child' => Some (Dir (dir_put c child' es))
                  | None => None
                  end
              | None => None
              end = Some n') in H.
      destruct (dir_get c es) as [child|]; [|discriminate H].
      destruct (node_put (c2 :: rest) new child) as [child'|] eqn:E;
        [|discriminate H].
      inversion H; subst. cbn [node_at]. rewrite dir_get_put.
      now apply IH with child.
Qed.

Lemma ZipFile_open_inv file c w zipf w' :
  ZipFile_open file c w = (Return zipf, w') -> zipf = mkZipFile file c [].
Proof.
  unfold ZipFile_open. intros H.
  apply bind_Return_inv in H. destruct H as (n & w1 & _ & H).
  apply bind_Return_inv in H. destruct H as ([] & w2 & _ & H).
  now inversion H.
Qed.

Lemma ZipFile_close_inv zipf w w' :
  ZipFile_close zipf w = (Return tt, w') ->
  archive_at w' (zip_filename zipf) = Some (filelist zipf).
Proof.
  unfold ZipFile_close, store, archive_at.
  destruct (node_put _ _ (fs w)) as [root|] eqn:E; intros H; inversion H; subst.
  cbn. now rewrite (node_at_put _ _ _ _ E).
Qed.

(** *** The name of a member *)

Lemma split_on_app_sep (p s : pystr) :
  Forall (fun x => x <> SEP) p ->
  split_on SEP (p ++ SEP :: s) = p :: split_on SEP s.
Proof.
  induction 1 as [|c p Hc _ IH]; [reflexivity|].
  cbn [app split_on]. destruct (N.eqb_spec c SEP); [contradiction|].
  now rewrite IH.
Qed.

Lemma join_with_cons (p : pystr) (rest : list pystr) :
  rest <> [] ->
  join_with [SEP] (p :: rest) = p ++ SEP :: join_with [SEP] rest.
Proof. destruct rest; [contradiction | reflexivity]. Qed.

Lemma join_with_snoc (comps : list pystr) (c : pystr) :
  comps <> [] ->
  join_with [SEP] (comps ++ [c]) = join_with [SEP] comps ++ SEP :: c.
Proof.
  induction comps as [|p rest IH]; [contradiction|]. intros _.
  destruct rest as [|q rest]; [reflexivity|].
  change ((p :: q :: rest) ++ [c]) with (p :: ((q :: rest) ++ [c])).
  rewrite (join_with_cons p ((q :: rest) ++ [c])) by (cbn; discriminate).
  rewrite IH by discriminate.
  rewrite (join_with_cons p (q :: rest)) by discriminate.
  now rewrite <- app_assoc.
Qed.

Lemma split_on_join (comps : list pystr) :
  comps <> [] -> Forall plain_name comps ->
  split_on SEP (join_with [SEP] comps) = comps.
Proof.
  induction comps as [|p rest IH]; [contradiction|]. intros _ Hall.
  inversion Hall as [|? ? (_ & Hp & _) Hrest]; subst.
  destruct rest as [|q rest].
  - now apply split_on_plain.
  - rewrite join_with_cons by discriminate.
    rewrite split_on_app_sep by assumption.
    now rewrite IH.
Qed.

Lemma norm_step_plain (b : bool) (acc : list pystr) (c : pystr) :
  plain_name c -> norm_step b acc c = acc ++ [c].
Proof.
  intros (Hne & _ & Hdot & Hdd). unfold norm_step, pystr_eqb.
  rewrite !bool_decide_eq_false_2 by assumption. reflexivity.
Qed.

Lemma fold_norm_step_plain (b : bool) (comps : list pystr) :
  Forall plain_name comps ->
  forall acc, fold_left (norm_step b) comps acc = acc ++ comps.
Proof.
  induction 1 as [|c comps Hc _ IH]; intros acc; cbn [fold_left].
  - now rewrite app_nil_r.
  - rewrite norm_step_plain by assumption. rewrite IH, <- app_assoc.
    reflexivity.
Qed.

Lemma endswith_sep_snoc (s : pystr) (x : N) :
  x <> SEP -> endswith_sep (s ++ [x]) = false.
Proof.
  intros Hx. unfold endswith_sep. rewrite rev_app_distr. cbn.
  now destruct (N.eqb_spec x SEP).
Qed.

Lemma plain_name_last (c : pystr) :
  plain_name c -> exists c' x, c = c' ++ [x] /\ x <> SEP.
Proof.
  intros (Hne & Hsep & _). destruct (exists_last Hne) as (c' & x & ->).
  exists c', x. split; [reflexivity|].
  apply List.Forall_app in Hsep. destruct Hsep as [_ Hx].
  now inversion Hx.
Qed.

Lemma join_last (comps : list pystr) :
  comps <> [] -> Forall plain_name comps ->
  exists s x, join_with [SEP] comps = s ++ [x] /\ x <> SEP.
Proof.
  induction comps as [|p rest IH]; [contradiction|]. intros _ Hall.
  inversion Hall as [|? ? Hp Hrest]; subst.
  destruct rest as [|q rest].
  - now apply plain_name_last.
  - destruct IH as (s & x & Hs & Hx); [discriminate | assumption |].
    rewrite join_with_cons by discriminate. rewrite Hs.
    exists (p ++ SEP :: s), x. split; [|exact Hx].
    now rewrite <- app_assoc.
Qed.

Lemma plain_name_head (c : pystr) :
  plain_name c -> exists x c', c = x :: c' /\ x <> SEP.
Proof.
  intros (Hne & Hsep & _). destruct c as [|x c']; [contradiction|].
  exists x, c'. split; [reflexivity|]. now inversion Hsep.
Qed.

Lemma join_head (comps : list pystr) :
  comps <> [] -> Forall plain_name comps ->
  exists x s, join_with [SEP] comps = x :: s /\ x <> SEP.
Proof.
  destruct comps as [|p rest]; [contradiction|]. intros _ Hall.
  inversion Hall as [|? ? Hp _]; subst.
  destruct (plain_name_head p Hp) as (x & c' & -> & Hx).
  exists x. destruct rest; eexists; (split; [reflexivity | exact Hx]).
Qed.

(** Joining a plain name onto an absolute path of plain names. *)
Lemma os_path_join_plain (comps : list pystr) (c : pystr) :
  comps <> [] -> Forall plain_name comps -> plain_name c ->
  os_path_join (SEP :: join_with [SEP] comps) c
  = SEP :: join_with [SEP] (comps ++ [c]).
Proof.
  intros Hne Hall Hc. unfold os_path_join.
  destruct (plain_name_head c Hc) as (x & c' & -> & Hx).
  cbn [startswith_sep]. destruct (N.eqb_spec x SEP); [contradiction|].
  rewrite bool_decide_eq_false_2 by discriminate.
  assert (He : endswith_sep (SEP :: join_with [SEP] comps) = false).
  { destruct (join_last comps Hne Hall) as (s & y & Hs & Hy).
    rewrite Hs. change (SEP :: s ++ [y]) with ((SEP :: s) ++ [y]).
    now apply endswith_sep_snoc. }
  rewrite He. cbn [orb].
  rewrite join_with_snoc by assumption. reflexivity.
Qed.

Lemma path_below_plain (rel : list pystr) : forall comps,
  comps <> [] -> Forall plain_name comps -> Forall plain_name rel ->
  path_below (SEP :: join_with [SEP] comps) rel
  = SEP :: join_with [SEP] (comps ++ rel).
Proof.
  induction rel as [|c rel IH]; intros comps Hne Hall Hrel.
  - now rewrite app_nil_r.
  - inversion Hrel; subst. unfold path_below. cbn [fold_left].
    rewrite os_path_join_plain by assumption.
    change (fold_left os_path_join rel ?t) with (path_below t rel).
    rewrite IH.
    + now rewrite <- app_assoc.
    + destruct comps; cbn; discriminate.
    + apply List.Forall_app. split; [assumption | now constructor].
    + assumption.
Qed.

Lemma normpath_plain (comps : list pystr) :
  comps <> [] -> Forall plain_name comps ->
  os_path_normpath (SEP :: join_with [SEP] comps)
  = SEP :: join_with [SEP] comps.
Proof.
  intros Hne Hall. unfold os_path_normpath. cbn [is_nil].
  destruct (join_head comps Hne Hall) as (x & s & Hj & Hx).
  assert (Hn : initial_slashes (SEP :: join_with [SEP] comps) = 1%nat).
  { rewrite Hj. destruct s as [|y s]; cbn;
      destruct (N.eqb_spec x SEP); try contradiction; reflexivity. }
  rewrite Hn. cbn [Nat.eqb negb repeat app].
  change (split_on SEP (SEP :: ?t)) with ([] :: split_on SEP t).
  rewrite split_on_join by assumption.
  cbn [fold_left]. change (norm_step true [] []) with (@nil pystr).
  rewrite fold_norm_step_plain by assumption. reflexivity.
Qed.

(** The member name of a file below an absolute staging directory: the
    names of the directory and the names leading to the file, joined by
    separators, with no leading separator. *)
Lemma zip_arcname_below (comps rel : list pystr) :
  comps <> [] -> Forall plain_name comps -> Forall plain_name rel ->
  zip_arcname (path_below (SEP :: join_with [SEP] comps) rel)
  = Some (join_with [SEP] (comps ++ rel)).
Proof.
  intros Hne Hall Hrel. unfold zip_arcname.
  assert (Hne' : comps ++ rel <> [])
    by (destruct comps; [contradiction | cbn; discriminate]).
  assert (Hall' : Forall plain_name (comps ++ rel))
    by (apply List.Forall_app; now split).
  rewrite path_below_plain, normpath_plain by assumption.
  destruct (join_head _ Hne' Hall') as (x & s & Hj & Hx).
  rewrite Hj. cbn. destruct (N.eqb_spec x SEP); [contradiction|].
  reflexivity.
Qed.

Lemma join_with_app (comps rel : list pystr) :
  comps <> [] -> rel <> [] ->
  join_with [SEP] (comps ++ rel)
  = join_with [SEP] comps ++ SEP :: join_with [SEP] rel.
Proof.
  intros Hc Hr. induction comps as [|p rest IH]; [contradiction|].
  destruct rest as [|q rest].
  - cbn [app]. now apply join_with_cons.
  - change ((p :: q :: rest) ++ rel) with (p :: ((q :: rest) ++ rel)).
    rewrite (join_with_cons p ((q :: rest) ++ rel)) by (cbn; discriminate).
    rewrite IH by discriminate.
    rewrite (join_with_cons p (q :: rest)) by discriminate.
    now rewrite <- app_assoc.
Qed.

(** What [_create_epub] leaves: the archive with a member for each file
    below the staging directory at the time of the walk. *)
Lemma create_epub_members (w : World) (self : nat) (u : ebook_util.t)
    (e : ebook.t) (w' : World) :
  utils w !! self = Some u ->
  ebooks w !! ebook_util._ebook u = Some e ->
  EbookUtil._create_epub self w = (Return tt, w') ->
  exists (w2 : World) (members : list (ZipMember FileData)),
    (exists opf_file w1 zipf,
       EbookUtil._generate_all_files self w = (Return opf_file, w1)
       /\ ZipFile_open (ebook.dest_file_path e) ZIP_DEFLATED w1
          = (Return zipf, w2))
    /\ archive_at w' (ebook.dest_file_path e) = Some members
    /\ forall top : Node,
         node_at (path_components (os_getcwd (env w2)) (ebook.tmpdir e))
                 (fs w2) = Some top ->
         Forall2 (member_of w2 ZIP_DEFLATED) members
                 (map (path_below (ebook.tmpdir e)) (files_below top)).
Proof.
  intros Hu He H. unfold EbookUtil._create_epub in H.
  apply bind_Return_inv in H. destruct H as (opf_file & w1 & Hgen & H).
  destruct (generate_all_files_keeps w self u e _ _ Hu He Hgen)
    as (Hv & He1 & u1 & Hu1 & Hb1).
  rewrite (bind_Return _ _ w1 u1 w1) in H by now apply deref_Some.
  rewrite (bind_Return _ _ w1 e w1) in H
    by (apply deref_Some; now rewrite Hb1).
  apply bind_Return_inv in H. destruct H as (zipf & w2 & Hopen & H).
  pose proof (ZipFile_open_inv _ _ _ _ _ Hopen) as Hz.
  apply bind_Return_inv in H. destruct H as (top & w3 & Htop & H).
  unfold resolve, ask in Htop. inversion Htop; subst top w3; clear Htop.
  apply bind_Return_inv in H. destruct H as (zipf' & w4 & Hwalk & Hclose).
  apply zip_walk_spec in Hwalk.
  destruct Hwalk as (-> & Hn & Hc & ms & Hl & Hms).
  apply ZipFile_close_inv in Hclose.
  rewrite Hn, Hl in Hclose. subst zipf. cbn in Hclose, Hms.
  exists w2, ms. split; [|split].
  - exists opf_file, w1, (mkZipFile (ebook.dest_file_path e) ZIP_DEFLATED []).
    split; assumption.
  - exact Hclose.
  - intros top Htop. rewrite Htop in Hms.
    now rewrite walk_paths_files_below in Hms.
Qed.

(** C2, as the code packs: for a book in the epub format, when the build
    returns, the archive at the book's [dest_file_path] has one member for
    each file that is below the staging directory when the walk starts, in
    the order of the walk; each is compressed with deflate, holds what the
    file holds, and is named as [zipfile] names the path it was read under.
    For a staging directory /d1/../dk and a file r1/../rn below it that name
    is d1/../dk/r1/../rn: the relative path comes after the path of the
    staging directory, not at the root of the archive. *)
Theorem epub_members_named_by_full_path (w : World) (self : nat)
    (u : ebook_util.t) (e : ebook.t) (w' : World) :
  utils w !! self = Some u ->
  ebooks w !! ebook_util._ebook u = Some e ->
  ebook.format e = py "epub" ->
  EbookUtil.create self w = (Return tt, w') ->
  exists (w2 : World) (members : list (ZipMember FileData)),
    (exists opf_file w1 zipf,
       EbookUtil._generate_all_files self w = (Return opf_file, w1)
       /\ ZipFile_open (ebook.dest_file_path e) ZIP_DEFLATED w1
          = (Return zipf, w2))
    /\ archive_at w' (ebook.dest_file_path e) = Some members
    /\ (forall top : Node,
          node_at (path_components (os_getcwd (env w2)) (ebook.tmpdir e))
                  (fs w2) = Some top ->
          Forall2 (member_of w2 ZIP_DEFLATED) members
                  (map (path_below (ebook.tmpdir e)) (files_below top)))
    /\ (forall comps rel : list pystr,
          ebook.tmpdir e = SEP :: join_with [SEP] comps ->
          comps <> [] -> rel <> [] ->
          Forall plain_name comps -> Forall plain_name rel ->
          zip_arcname (path_below (ebook.tmpdir e) rel)
          = Some (join_with [SEP] comps ++ [SEP] ++ relative_path rel)).
Proof.
  intros Hu He Hf H. unfold EbookUtil.create in H.
  rewrite (bind_Return _ _ w u w) in H by now apply deref_Some.
  rewrite (bind_Return _ _ w e w) in H by now apply deref_Some.
  rewrite Hf in H.
  change (pystr_eqb (py "epub") (py "mobi")) with false in H.
  change (pystr_eqb (py "epub") (py "epub")) with true in H.
  cbv iota in H.
  destruct (create_epub_members w self u e w' Hu He H)
    as (w2 & members & Hsteps & Harch & Hmem).
  exists w2, members. repeat split; try assumption.
  intros comps rel Htmp Hc Hr Hpc Hpr. rewrite Htmp.
  rewrite zip_arcname_below by assumption.
  now rewrite join_with_app.
Qed.

Lemma epub_members_named_by_full_path_witness :
  let w := demo_book (py "epub") in
  let w' := snd (EbookUtil.create 0 w) in
  exists (w2 : World) (members : list (ZipMember FileData)),
    (exists opf_file w1 zipf,
       EbookUtil._generate_all_files 0 w = (Return opf_file, w1)
       /\ ZipFile_open (py "T.epub") ZIP_DEFLATED w1 = (Return zipf, w2))
    /\ archive_at w' (py "T.epub") = Some members
    /\ (forall top : Node,
          node_at (path_components (os_getcwd (env w2)) (py "/tmp/1.5"))
                  (fs w2) = Some top ->
          Forall2 (member_of w2 ZIP_DEFLATED) members
                  (map (path_below (py "/tmp/1.5")) (files_below top)))
    /\ (forall comps rel : list pystr,
          py "/tmp/1.5" = SEP :: join_with [SEP] comps ->
          comps <> [] -> rel <> [] ->
          Forall plain_name comps -> Forall plain_name rel ->
          zip_arcname (path_below (py "/tmp/1.5") rel)
          = Some (join_with [SEP] comps ++ [SEP] ++ relative_path rel)).
Proof.
  intros w w'.
  refine (epub_members_named_by_full_path w 0%nat (ebook_util.mk 0 None)
            (ebook.mk (py "T") None (py "epub") false None None (py "/tmp/1.5")
               [0%nat] 0%nat) w' _ _ _ _).
  - reflexivity.
  - reflexivity.
  - reflexivity.
  - vm_compute. reflexivity.
Defined.

(** C2, as the specification states it, fails on the example book: after
    [save] the staging directory /tmp/1.5 holds C1.html, the archive T.epub
    is written, and it has no member named C1.html: its members carry the
    path of the staging directory in their names. *)
Lemma epub_layout_not_at_archive_root :
  let w := demo_book (py "epub") in
  let w' := snd (Ebook.save 0 None w) in
  fst (Ebook.save 0 None w) = Return tt
  /\ node_at [py "tmp"; py "1.5"; py "C1.html"] (fs w')
     = Some (File (Text (py "<p>hi</p>")))
  /\ exists members,
       archive_at w' (py "T.epub") = Some members
       /\ map filename members
          = [py "tmp/1.5/toc.ncx"; py "tmp/1.5/toc.html"; py "tmp/1.5/T.opf";
             py "tmp/1.5/cover.jpg"; py "tmp/1.5/C1.html"]
       /\ ~ In (relative_path [py "C1.html"]) (map filename members).
Proof.
  intros w w'. split; [vm_compute; reflexivity|].
  split; [vm_compute; reflexivity|].
  eexists. split; [vm_compute; reflexivity|].
  split; [vm_compute; reflexivity|].
  vm_compute. intros H.
  repeat (destruct H as [H|H]; [discriminate H|]). exact H.
Qed.

(** * Further properties *)

(** ** More on sanitising *)

Lemma filter_all_true {A} (f : A -> bool) (l : list A) :
  Forall (fun x => f x = true) l -> List.filter f l = l.
Proof.
  induction 1 as [|x l Hx _ IH]; cbn; [reflexivity|]. now rewrite Hx, IH.
Qed.

(** X1: [format_file_name] removes every illegal code point and nothing
    else: what is left are the legal code points of the input in their
    order, so no illegal code point is left and the name is not longer than
    the input. *)
Theorem format_file_name_keeps_legal (s : pystr) :
  format_file_name s = List.filter (fun c => negb (illegal_char c)) s
  /\ Forall (fun c => illegal_char c = false) (format_file_name s)
  /\ (length (format_file_name s) <= length s)%nat.
Proof.
  split; [apply format_file_name_filter|]. split.
  - apply format_file_name_legal.
  - rewrite format_file_name_filter. apply List.filter_length_le.
Qed.

(** X2: the names [format_file_name] leaves as they are are exactly those
    without an illegal code point. *)
Theorem format_file_name_fixed_points (s : pystr) :
  format_file_name s = s <-> Forall (fun c => illegal_char c = false) s.
Proof.
  split.
  - intros H. rewrite <- H. apply format_file_name_legal.
  - intros H. rewrite format_file_name_filter. apply filter_all_true.
    eapply List.Forall_impl; [|exact H]. cbn. intros c Hc. now rewrite Hc.
Qed.

Lemma format_file_name_fixed_points_witness :
  format_file_name (py "toc") = py "toc".
Proof.
  apply (proj2 (format_file_name_fixed_points (py "toc"))).
  repeat constructor.
Defined.

(** X3: sanitising goes through concatenation, whatever the pieces end and
    start with. *)
Theorem format_file_name_app (a b : pystr) :
  format_file_name (a ++ b) = format_file_name a ++ format_file_name b.
Proof. rewrite !format_file_name_filter. apply List.filter_app. Qed.

(** X4: the sanitised URL never has a dot, so [download_image] saves every
    image under the sanitised URL followed by [.png], whatever the format
    the URL names. *)
Theorem image_local_name_png (url : pystr) :
  image_local_name url = format_file_name url ++ py ".png".
Proof.
  unfold image_local_name.
  assert (H : existsb (N.eqb 46) (format_file_name url) = false).
  { apply not_true_is_false. intros H. apply List.existsb_exists in H.
    destruct H as (c & Hin & Hc). apply N.eqb_eq in Hc. subst c.
    pose proof (format_file_name_legal url) as Hl.
    rewrite List.Forall_forall in Hl. specialize (Hl _ Hin). discriminate Hl. }
  now rewrite H.
Qed.

(** ** File names derived from titles *)

Lemma plain_name_sanitised (title ext : pystr) :
  Forall (fun x => x <> SEP) ext -> (3 <= length ext)%nat ->
  plain_name (format_file_name title ++ ext).
Proof.
  intros Hext Hlen.
  assert (Hl : (3 <= length (format_file_name title ++ ext))%nat)
    by (rewrite length_app; lia).
  repeat split.
  - intros E. rewrite E in Hl. cbn in Hl. lia.
  - apply List.Forall_app. split; [|exact Hext].
    eapply List.Forall_impl; [|apply format_file_name_legal].
    intros a Ha. now apply legal_not_sep.
  - intros E. rewrite E in Hl. cbn in Hl. lia.
  - intros E. rewrite E in Hl. cbn in Hl. lia.
Qed.

Lemma Path_plain_name (s : pystr) :
  plain_name s -> (2 <= length s)%nat -> Path s = s.
Proof. intros (_ & Hs & _) Hl. now apply Path_plain. Qed.

Lemma dest_file_path_plain_helper :
  (forall c : chapter.t, plain_name (chapter.dest_file_path c))
  /\ (forall title ext : pystr,
        Forall (fun x => x <> SEP) ext -> (3 <= length ext)%nat ->
        Path (format_file_name title ++ ext) = format_file_name title ++ ext).
Proof.
  split.
  - intros c. rewrite chapter_dest_file_path.
    apply plain_name_sanitised; [repeat constructor; discriminate | cbn; lia].
  - intros title ext Hext Hlen.
    apply Path_plain_name; [now apply plain_name_sanitised|].
    rewrite length_app. lia.
Qed.

Lemma ebook_dest_file_path_plain (e : ebook.t) :
  ebook.format e = py "mobi" \/ ebook.format e = py "epub" ->
  plain_name (ebook.dest_file_path e)
  /\ ebook.dest_file_path e
     = format_file_name (ebook.title e) ++ py "." ++ ebook.format e.
Proof.
  intros Hf.
  assert (Hext : Forall (fun x => x <> SEP) (py "." ++ ebook.format e)
                 /\ (3 <= length (py "." ++ ebook.format e))%nat).
  { destruct Hf as [-> | ->]; split; try (cbn; lia);
      repeat constructor; discriminate. }
  destruct Hext as [Hsep Hlen].
  rewrite <- (proj2 dest_file_path_plain_helper _ _ Hsep Hlen).
  split; [|reflexivity].
  unfold ebook.dest_file_path.
  rewrite (proj2 dest_file_path_plain_helper _ _ Hsep Hlen).
  now apply plain_name_sanitised.
Qed.

(** X5: whatever the title, the file name of a chapter is one path
    component: not empty, without a separator, and neither [.] nor [..]; so
    is the name of the packaged book in the formats mobi and epub.  A title
    cannot name a file outside the directory it is joined to. *)
Theorem dest_file_path_plain :
  (forall c : chapter.t, plain_name (chapter.dest_file_path c))
  /\ (forall e : ebook.t,
        ebook.format e = py "mobi" \/ ebook.format e = py "epub" ->
        plain_name (ebook.dest_file_path e)
        /\ ebook.dest_file_path e
           = format_file_name (ebook.title e) ++ py "." ++ ebook.format e).
Proof.
  split.
  - apply dest_file_path_plain_helper.
  - apply ebook_dest_file_path_plain.
Qed.

Lemma dest_file_path_plain_witness :
  plain_name (ebook.dest_file_path
                (ebook.mk (py "../../etc/passwd") None (py "epub") false None
                   None (py "/tmp/1.5") [] 0%nat))
  /\ ebook.dest_file_path
       (ebook.mk (py "../../etc/passwd") None (py "epub") false None
          None (py "/tmp/1.5") [] 0%nat)
     = py "etcpasswd.epub".
Proof.
  apply (proj2 dest_file_path_plain
           (ebook.mk (py "../../etc/passwd") None (py "epub") false None
              None (py "/tmp/1.5") [] 0%nat)).
  right. reflexivity.
Defined.

(** ** Making chapters *)

Lemma Chapter_new_two (title : pystr) (ebook : nat) :
  Chapter.new [VStr title; VEbook ebook] [] = Chapter.__init__ title ebook 1.
Proof. reflexivity. Qed.

Lemma add_chapter_level_1 (w : World) (self chapter : nat) (c : chapter.t)
    (e : ebook.t) :
  chapters w !! chapter = Some c ->
  chapter._level c = 1 ->
  ebooks w !! self = Some e ->
  Ebook.add_chapter self chapter w
  = (Return self,
     set_ebooks
       (<[self := ebook.with_chapter_list
                    (ebook.chapter_list e ++ [chapter]) e]> (ebooks w))
       w).
Proof.
  intros Hc Hl He. unfold Ebook.add_chapter, Chapter.is_top_chapter.
  rewrite (bind_Return _ _ w (chapter.is_top_chapter c) w).
  - unfold chapter.is_top_chapter. rewrite Hl. cbn [Z.eqb Pos.eqb negb].
    rewrite (bind_Return _ _ w e w) by now apply deref_Some.
    reflexivity.
  - rewrite (bind_Return _ _ w c w) by now apply deref_Some.
    reflexivity.
Qed.

(** X6: on a book of the store [create_chapter] always succeeds: it makes a
    new chapter of level 1 with the title, no content, no static files and
    no sub-chapters, appends it at the end of the book's chapter list, and
    returns it; nothing else changes. *)
Theorem create_chapter_appends (w : World) (self : nat) (e : ebook.t)
    (chapter_title : pystr) :
  ebooks w !! self = Some e ->
  Ebook.create_chapter self chapter_title w
  = (Return (length (chapters w)),
     set_ebooks
       (<[self := ebook.with_chapter_list
                    (ebook.chapter_list e ++ [length (chapters w)]) e]>
          (ebooks w))
       (set_chapters
          (chapters w ++ [chapter.mk chapter_title self 1 None [] []]) w)).
Proof.
  intros He. unfold Ebook.create_chapter. rewrite Chapter_new_two.
  set (c := chapter.mk chapter_title self 1 None [] []).
  set (w1 := set_chapters (chapters w ++ [c]) w).
  rewrite (bind_Return _ _ w (length (chapters w)) w1) by reflexivity.
  assert (Hc : chapters w1 !! length (chapters w) = Some c).
  { unfold w1. cbn. rewrite lookup_app_r by lia. now rewrite Nat.sub_diag. }
  rewrite (bind_Return _ _ w1 self _
             (add_chapter_level_1 w1 self _ c e Hc eq_refl He)).
  reflexivity.
Qed.

Lemma create_chapter_appends_witness :
  let w := demo_book (py "epub") in
  let e := ebook.mk (py "T") None (py "epub") false None None (py "/tmp/1.5")
             [0%nat] 0%nat in
  Ebook.create_chapter 0 (py "C2") w
  = (Return 1%nat,
     set_ebooks (<[0%nat := ebook.with_chapter_list [0; 1]%nat e]> (ebooks w))
       (set_chapters
          (chapters w ++ [chapter.mk (py "C2") 0 1 None [] []]) w)).
Proof.
  intros w e. apply (create_chapter_appends w 0%nat e (py "C2")). reflexivity.
Defined.

(** ** The format of the book *)

(** X7: the format is looked at first when the book is built.  For a book
    with a chapter whose format is neither mobi nor epub, [save] and [show]
    raise an [AttributeError] naming the missing method, and nothing has
    been staged: the world is as before. *)
Theorem unknown_format_fails_at_build (w : World) (self : nat) (e : ebook.t)
    (u : ebook_util.t) :
  ebooks w !! self = Some e ->
  utils w !! ebook._eu e = Some u ->
  ebook_util._ebook u = self ->
  ebook.chapter_list e <> [] ->
  ebook.format e <> py "mobi" ->
  ebook.format e <> py "epub" ->
  let exc := mkExc AttributeError
               (py "'EbookUtil' object has no attribute '_create_"
                ++ ebook.format e ++ py "'") in
  (forall file_path, Ebook.save self file_path w = (Raise exc, w))
  /\ Ebook.show self w = (Raise exc, w).
Proof.
  intros He Hu Hb Hl Hm Hp exc.
  assert (Hc : Ebook._create self w = (Raise exc, w)).
  { unfold Ebook._create.
    rewrite (bind_Return _ _ w e w) by now apply deref_Some.
    destruct (ebook.chapter_list e); [contradiction|]. cbn [is_nil].
    unfold EbookUtil.create.
    rewrite (bind_Return _ _ w u w) by now apply deref_Some.
    rewrite (bind_Return _ _ w e w) by (apply deref_Some; now rewrite Hb).
    unfold pystr_eqb. rewrite !bool_decide_eq_false_2 by assumption.
    reflexivity. }
  split.
  - intros file_path. unfold Ebook.save. now apply bind_Raise.
  - unfold Ebook.show. now apply bind_Raise.
Qed.

Lemma unknown_format_fails_at_build_witness :
  let w := demo_book (py "pdf") in
  Ebook.show 0 w
  = (Raise (mkExc AttributeError
              (py "'EbookUtil' object has no attribute '_create_pdf'")), w).
Proof.
  intros w.
  refine (proj2 (unknown_format_fails_at_build w 0%nat
            (ebook.mk (py "T") None (py "pdf") false None None (py "/tmp/1.5")
               [0%nat] 0%nat)
            (ebook_util.mk 0 None) _ _ _ _ _ _)); try reflexivity;
    discriminate.
Defined.

(** ** The cache of the heading index *)

Lemma headings_result (w : World) (self : nat) hs w1 :
  EbookUtil.headings self w = (Return hs, w1) ->
  hs <> [] ->
  exists u1, utils w1 !! self = Some u1
             /\ ebook_util._headings u1 = Some hs.
Proof.
  intros H Hne. unfold EbookUtil.headings in H.
  apply bind_Return_inv in H. destruct H as (u & w0 & Hu & H).
  unfold get_util, deref in Hu.
  destruct (utils w !! self) eqn:Hlook; inversion Hu; subst; clear Hu.
  assert (Hgo :
    bind (get_ebook (ebook_util._ebook u)) (fun e0 =>
      bind (EbookUtil.headings_loop (ebook.chapter_list e0) 1 []) (fun r =>
        bind (put_util self
                (ebook_util.mk (ebook_util._ebook u) (Some (snd r))))
             (fun _ => ret (snd r)))) w0
    = (Return hs, w1) ->
    exists u1, utils w1 !! self = Some u1
               /\ ebook_util._headings u1 = Some hs).
  { intros G. apply bind_Return_inv in G. destruct G as (e0 & w2 & He0 & G).
    unfold get_ebook, deref in He0.
    destruct (ebooks w0 !! ebook_util._ebook u); inversion He0; subst.
    apply bind_Return_inv in G. destruct G as (r & w3 & Hr & G).
    pose proof (headings_loop_pure (ebook.chapter_list e0) 1 [] w2) as Hp.
    rewrite Hr in Hp. cbn in Hp. subst w3.
    inversion G; subst. eexists. split.
    - cbn. apply list_lookup_insert_eq. now apply lookup_lt_Some with u.
    - reflexivity. }
  destruct (ebook_util._headings u) as [[|h hs']|] eqn:Hc.
  - now apply Hgo.
  - inversion H; subst. exists u. split; assumption.
  - now apply Hgo.
Qed.

(** X8: once [headings] has returned an index with an entry, every later
    call on the same [EbookUtil] returns that index and changes nothing, as
    long as the cache is there: the index is never brought up to date.  A
    chapter added to the book after the first call is not in the index. *)
Theorem headings_never_refreshed (w : World) (self : nat)
    (hs : list Heading.t) (w1 : World) :
  EbookUtil.headings self w = (Return hs, w1) ->
  hs <> [] ->
  (forall w2, utils w2 !! self = utils w1 !! self ->
     EbookUtil.headings self w2 = (Return hs, w2))
  /\ (forall book chapter r w2,
        Ebook.add_chapter book chapter w1 = (Return r, w2) ->
        EbookUtil.headings self w2 = (Return hs, w2)).
Proof.
  intros H Hne.
  destruct (headings_result w self hs w1 H Hne) as (u1 & Hu1 & Hc1).
  assert (Hall : forall w2, utils w2 !! self = utils w1 !! self ->
                   EbookUtil.headings self w2 = (Return hs, w2)).
  { intros w2 Hsame. destruct hs as [|h hs']; [contradiction|].
    apply headings_cached with u1; [congruence | exact Hc1]. }
  split; [exact Hall|].
  intros book chapter r w2 Hadd. apply Hall.
  unfold Ebook.add_chapter in Hadd.
  apply bind_Return_inv in Hadd. destruct Hadd as (top & w3 & Htop & Hadd).
  unfold Chapter.is_top_chapter in Htop.
  apply bind_Return_inv in Htop. destruct Htop as (c & w4 & Hc & Htop).
  unfold get_chapter, deref in Hc.
  destruct (chapters w1 !! chapter); inversion Hc; subst; clear Hc.
  inversion Htop; subst; clear Htop.
  destruct (negb (chapter.is_top_chapter c)); [discriminate Hadd|].
  apply bind_Return_inv in Hadd. destruct Hadd as (e & w5 & He & Hadd).
  unfold get_ebook, deref in He.
  destruct (ebooks w3 !! book); inversion He; subst; clear He.
  inversion Hadd; subst. reflexivity.
Qed.

Lemma headings_never_refreshed_witness :
  let w := demo_book (py "epub") in
  let w1 := snd (EbookUtil.headings 0 w) in
  let w2 := snd (Ebook.create_chapter 0 (py "C2") w1) in
  let hs := [Heading.mk (py "C1") 2 (py "C1.html") []] in
  ebooks w2 !! 0%nat
  = Some (ebook.mk (py "T") None (py "epub") false None None (py "/tmp/1.5")
            [0; 1]%nat 0%nat)
  /\ EbookUtil.headings 0 w2 = (Return hs, w2).
Proof.
  intros w w1 w2 hs. split; [vm_compute; reflexivity|].
  refine (proj1 (headings_never_refreshed w 0%nat hs w1 _ _) w2 _).
  - vm_compute. reflexivity.
  - discriminate.
  - vm_compute. reflexivity.
Defined.

(** ** What a build leaves alone, continued *)

Lemma set_fs_same (w : World) : set_fs (fs w) w = w.
Proof. now destruct w. Qed.

Lemma fs_only_pure {A} (m : M A) :
  (forall w, snd (m w) = w) -> fs_only m.
Proof. intros H w. exists (fs w). now rewrite H, set_fs_same. Qed.

Lemma fs_only_bind {A B} (m : M A) (k : A -> M B) :
  fs_only m -> (forall a, fs_only (k a)) -> fs_only (bind m k).
Proof.
  intros Hm Hk w. unfold bind. destruct (Hm w) as (n & Hn).
  destruct (m w) as [[a|e] w1]; cbn in Hn; subst w1.
  - destruct (Hk a (set_fs n w)) as (n' & Hn'). exists n'. now rewrite Hn'.
  - now exists n.
Qed.

Lemma fs_only_deref {A} (heap : World -> list A) r : fs_only (deref heap r).
Proof.
  apply fs_only_pure. intros w. unfold deref. now destruct (heap w !! r).
Qed.

Lemma fs_only_store path n : fs_only (store path n).
Proof.
  intros w. unfold store. destruct (node_put _ n (fs w)) as [root|]; cbn.
  - now exists root.
  - exists (fs w). now rewrite set_fs_same.
Qed.

Lemma fs_only_external {A} (f : Env -> Node -> Result A * Node) :
  fs_only (external f).
Proof.
  intros w. unfold external. destruct (f (env w) (fs w)) as [r n]. now exists n.
Qed.

Ltac fs_only_step :=
  match goal with
  | |- fs_only (bind _ _) => apply fs_only_bind; [|intros ?]
  | |- fs_only (ret _) => apply fs_only_pure; reflexivity
  | |- fs_only (raise _ _) => apply fs_only_pure; reflexivity
  | |- fs_only (ask _) => apply fs_only_pure; reflexivity
  | |- fs_only (resolve _) => apply fs_only_pure; reflexivity
  | |- fs_only (fun w => (Raise _, w)) => apply fs_only_pure; reflexivity
  | |- fs_only (deref _ _) => apply fs_only_deref
  | |- fs_only (get_chapter _) => apply fs_only_deref
  | |- fs_only (get_ebook _) => apply fs_only_deref
  | |- fs_only (get_util _) => apply fs_only_deref
  | |- fs_only (store _ _) => apply fs_only_store
  | |- fs_only (external _) => apply fs_only_external
  | |- fs_only (if ?b then _ else _) => destruct b
  | |- fs_only (match ?x with _ => _ end) => destruct x
  | |- fs_only (let _ := _ in _) => cbv zeta
  end.

Lemma fs_only_open_w path : fs_only (open_w path).
Proof. unfold open_w. repeat fs_only_step. Qed.

Lemma fs_only_read_file path : fs_only (read_file path).
Proof. unfold read_file. repeat fs_only_step. Qed.

Lemma fs_only_shutil_copy src dst : fs_only (shutil_copy src dst).
Proof.
  unfold shutil_copy. repeat fs_only_step; apply fs_only_read_file.
Qed.

Lemma fs_only_render_file self name ctx to :
  fs_only (EbookUtil._render_file self name ctx to).
Proof.
  unfold EbookUtil._render_file. repeat fs_only_step; apply fs_only_open_w.
Qed.

Lemma fs_only_save_cover self : fs_only (EbookUtil._save_cover self).
Proof.
  unfold EbookUtil._save_cover. repeat fs_only_step; apply fs_only_shutil_copy.
Qed.

Lemma fs_only_ZipFile_write zipf path : fs_only (ZipFile_write zipf path).
Proof.
  unfold ZipFile_write. repeat fs_only_step; apply fs_only_read_file.
Qed.

Lemma fs_only_zip_files root files : forall zipf,
  fs_only (EbookUtil.zip_files zipf root files).
Proof.
  induction files as [|f files IH]; intros zipf; cbn [EbookUtil.zip_files].
  - apply fs_only_pure. reflexivity.
  - apply fs_only_bind; [apply fs_only_ZipFile_write | intros z; apply IH].
Qed.

Lemma fs_only_zip_walk walk : forall zipf,
  fs_only (EbookUtil.zip_walk zipf walk).
Proof.
  induction walk as [|[[root dirs] files] walk IH]; intros zipf;
    cbn [EbookUtil.zip_walk].
  - apply fs_only_pure. reflexivity.
  - apply fs_only_bind; [apply fs_only_zip_files | intros z; apply IH].
Qed.

Lemma fs_only_ZipFile_open file c : fs_only (ZipFile_open file c).
Proof. unfold ZipFile_open. repeat fs_only_step. Qed.

Lemma fs_only_ZipFile_close zipf : fs_only (ZipFile_close zipf).
Proof. apply fs_only_store. Qed.

Lemma framed_of_fs_only {A} (m : M A) : fs_only m -> framed m.
Proof.
  intros H w. destruct (H w) as (n & ->). repeat split. intros r u Hu. eauto.
Qed.

Lemma keeps_of_fs_only {A} (m : M A) : fs_only m -> keeps_objects m.
Proof. intros H w _. destruct (H w) as (n & ->). now split. Qed.

Lemma keeps_bind {A B} (m : M A) (k : A -> M B) :
  keeps_objects m -> (forall a, keeps_objects (k a)) -> keeps_objects (bind m k).
Proof.
  intros Hm Hk w Hoff. unfold bind. destruct (Hm w Hoff) as (Hc & He).
  destruct (m w) as [[a|e] w1]; cbn in Hc, He.
  - assert (Hoff1 : downloads_off w1) by (unfold downloads_off; now rewrite He).
    destruct (Hk a w1 Hoff1) as (Hc' & He'). split; congruence.
  - now split.
Qed.

Lemma keeps_for_each {A} (xs : list A) (body : A -> M unit) :
  (forall x, keeps_objects (body x)) -> keeps_objects (for_each xs body).
Proof.
  intros Hb. induction xs as [|x xs IH]; cbn [for_each].
  - apply keeps_of_fs_only, fs_only_pure. reflexivity.
  - apply keeps_bind; [apply Hb | intros _; exact IH].
Qed.

(** Where no book downloads images, the book a chapter belongs to does
    not. *)
Lemma keeps_bind_get_ebook {B} (r : nat) (k : ebook.t -> M B) :
  (forall e, ebook.auto_download_img e = false -> keeps_objects (k e)) ->
  keeps_objects (bind (get_ebook r) k).
Proof.
  intros Hk w Hoff. unfold bind, get_ebook, deref.
  destruct (ebooks w !! r) as [e|] eqn:He; [|now split].
  apply Hk; [|exact Hoff].
  unfold downloads_off in Hoff. rewrite List.Forall_forall in Hoff.
  apply Hoff. apply list_elem_of_In. now apply list_elem_of_lookup_2 with r.
Qed.

Lemma fs_only_for_each {A} (xs : list A) (body : A -> M unit) :
  (forall x, fs_only (body x)) -> fs_only (for_each xs body).
Proof.
  intros Hb. induction xs as [|x xs IH]; cbn [for_each].
  - apply fs_only_pure. reflexivity.
  - apply fs_only_bind; [apply Hb | intros _; exact IH].
Qed.

Lemma keeps_Chapter_save self : keeps_objects (Chapter.save self).
Proof.
  unfold Chapter.save.
  apply keeps_bind; [apply keeps_of_fs_only, fs_only_deref | intros c].
  apply keeps_bind_get_ebook. intros e He. rewrite He.
  apply keeps_of_fs_only. unfold Chapter.full_dest_file_path.
  repeat fs_only_step;
    first [ apply fs_only_open_w
          | apply fs_only_for_each; intros f; apply fs_only_shutil_copy ].
Qed.

Lemma set_utils_same (w : World) : set_utils (utils w) w = w.
Proof. now destruct w. Qed.

(** [headings] changes the cache of its [EbookUtil] at most. *)
Lemma headings_utils_only self w :
  exists l, snd (EbookUtil.headings self w) = set_utils l w.
Proof.
  unfold EbookUtil.headings, bind at 1. unfold get_util, deref.
  destruct (utils w !! self) as [u|];
    [|exists (utils w); now rewrite set_utils_same].
  assert (Hgo : exists l, snd (
      bind (get_ebook (ebook_util._ebook u)) (fun e0 =>
        bind (EbookUtil.headings_loop (ebook.chapter_list e0) 1 []) (fun r =>
          bind (put_util self
                  (ebook_util.mk (ebook_util._ebook u) (Some (snd r))))
               (fun _ => ret (snd r)))) w) = set_utils l w).
  { unfold bind at 1. unfold get_ebook, deref.
    destruct (ebooks w !! ebook_util._ebook u) as [e0|];
      [|exists (utils w); now rewrite set_utils_same].
    unfold bind at 1.
    pose proof (headings_loop_pure (ebook.chapter_list e0) 1 [] w) as Hp.
    destruct (EbookUtil.headings_loop _ _ _ w) as [[r|e] w1];
      cbn in Hp; subst w1.
    - eexists. reflexivity.
    - exists (utils w). now rewrite set_utils_same. }
  destruct (ebook_util._headings u) as [[|h hs]|];
    [exact Hgo | exists (utils w); now rewrite set_utils_same | exact Hgo].
Qed.

Lemma keeps_headings self : keeps_objects (EbookUtil.headings self).
Proof.
  intros w _. destruct (headings_utils_only self w) as (l & ->). now split.
Qed.

Ltac keeps_step :=
  match goal with
  | |- keeps_objects (bind _ _) => apply keeps_bind; [|intros ?]
  | |- keeps_objects (EbookUtil.headings _) => apply keeps_headings
  | |- keeps_objects (Chapter.save _) => apply keeps_Chapter_save
  | |- keeps_objects (for_each _ _) => apply keeps_for_each; intros ?
  | |- keeps_objects (if ?b then _ else _) => destruct b
  | |- keeps_objects (match ?x with _ => _ end) => destruct x
  | |- keeps_objects (let _ := _ in _) => cbv zeta
  | |- keeps_objects _ =>
      apply keeps_of_fs_only;
      first [ apply fs_only_render_file | apply fs_only_save_cover
            | apply fs_only_shutil_copy | apply fs_only_ZipFile_open
            | apply fs_only_ZipFile_close | apply fs_only_zip_walk
            | apply fs_only_external | apply fs_only_deref
            | apply fs_only_pure; reflexivity ]
  end.

Lemma keeps_generate_all_files self :
  keeps_objects (EbookUtil._generate_all_files self).
Proof.
  unfold EbookUtil._generate_all_files, EbookUtil._render_toc_ncx,
    EbookUtil._render_toc_html, EbookUtil._render_opf,
    EbookUtil._save_chapters.
  repeat keeps_step.
Qed.

Lemma keeps_create self : keeps_objects (EbookUtil.create self).
Proof.
  unfold EbookUtil.create, EbookUtil._create_mobi, EbookUtil._create_epub.
  repeat first [ apply keeps_generate_all_files | keeps_step ].
Qed.

Lemma keeps_Ebook_create self : keeps_objects (Ebook._create self).
Proof.
  unfold Ebook._create. repeat first [ apply keeps_create | keeps_step ].
Qed.

Lemma framed_create self : framed (EbookUtil.create self).
Proof.
  unfold EbookUtil.create, EbookUtil._create_mobi, EbookUtil._create_epub.
  framed;
    first [ apply framed_generate_all_files
          | apply framed_of_fs_only;
            first [ apply fs_only_ZipFile_open | apply fs_only_ZipFile_close
                  | apply fs_only_zip_walk
                  | apply fs_only_pure; reflexivity ] ].
Qed.

Lemma framed_Ebook_create self : framed (Ebook._create self).
Proof. unfold Ebook._create. framed. apply framed_create. Qed.

(** X9: [save] and [show] never change a book: after them every book of the
    store has the title, format, cover and chapter list it had, and the
    environment is the same.  Where no book downloads images they do not
    change a chapter either: what a build changes is the file system and the
    cache of the heading index. *)
Theorem build_keeps_books_and_chapters (w : World) (self : nat) :
  (forall file_path,
     let w' := snd (Ebook.save self file_path w) in
     ebooks w' = ebooks w
     /\ (downloads_off w -> chapters w' = chapters w))
  /\ (let w' := snd (Ebook.show self w) in
      ebooks w' = ebooks w
      /\ (downloads_off w -> chapters w' = chapters w)).
Proof.
  split.
  - intros file_path w'. split.
    + assert (H : framed (Ebook.save self file_path)).
      { unfold Ebook.save. framed;
          first [apply framed_Ebook_create | apply framed_shutil_copy]. }
      apply H.
    + intros Hoff.
      assert (H : keeps_objects (Ebook.save self file_path)).
      { unfold Ebook.save.
        repeat first [ apply keeps_Ebook_create | keeps_step ]. }
      now apply H.
  - intros w'. split.
    + assert (H : framed (Ebook.show self)).
      { unfold Ebook.show. framed; apply framed_Ebook_create. }
      apply H.
    + intros Hoff.
      assert (H : keeps_objects (Ebook.show self)).
      { unfold Ebook.show.
        repeat first [ apply keeps_Ebook_create | keeps_step ]. }
      now apply H.
Qed.

Lemma build_keeps_books_and_chapters_witness :
  let w := demo_book (py "epub") in
  chapters (snd (Ebook.save 0 None w)) = chapters w.
Proof.
  intros w.
  refine (proj2 (proj1 (build_keeps_books_and_chapters w 0%nat) None) _).
  repeat constructor.
Defined.

(** ** Files in the staging directory *)

Lemma path_components_abs (cwd : pystr) (comps : list pystr) :
  comps <> [] -> Forall plain_name comps ->
  path_components cwd (abs_path comps) = comps.
Proof.
  intros Hne Hall. unfold path_components, abs_path.
  change (startswith_sep (SEP :: ?t)) with true. cbv iota.
  change (split_on SEP (SEP :: ?t)) with ([] :: split_on SEP t).
  rewrite split_on_join by assumption.
  cbn [fold_left]. change (norm_step true [] []) with (@nil pystr).
  now rewrite fold_norm_step_plain.
Qed.

Lemma filter_plain (comps : list pystr) :
  Forall plain_name comps ->
  List.filter (fun c => negb (pystr_eqb c [] || pystr_eqb c (py "."))) comps
  = comps.
Proof.
  intros H. apply filter_all_true. eapply List.Forall_impl; [|exact H].
  cbn. intros c (Hne & _ & Hdot & _). unfold pystr_eqb.
  now rewrite !bool_decide_eq_false_2.
Qed.

Lemma Path_abs_path (comps : list pystr) :
  comps <> [] -> Forall plain_name comps ->
  Path (abs_path comps) = abs_path comps.
Proof.
  intros Hne Hall. unfold Path, abs_path.
  destruct (join_head comps Hne Hall) as (x & s & Hj & Hx).
  assert (Hn : initial_slashes (SEP :: join_with [SEP] comps) = 1%nat).
  { rewrite Hj. destruct s as [|y s]; cbn;
      destruct (N.eqb_spec x SEP); try contradiction; reflexivity. }
  rewrite Hn.
  change (split_on SEP (SEP :: ?t)) with ([] :: split_on SEP t).
  rewrite split_on_join by assumption.
  cbn [List.filter]. change (pystr_eqb [] []) with true. cbn [orb negb].
  rewrite filter_plain by assumption. reflexivity.
Qed.

(** A plain name joined to /d1/../dk gives /d1/../dk/name. *)
Lemma path_div_abs (comps : list pystr) (name : pystr) :
  comps <> [] -> Forall plain_name comps -> plain_name name ->
  path_div (abs_path comps) name = abs_path (comps ++ [name])
  /\ os_path_join (abs_path comps) name = abs_path (comps ++ [name]).
Proof.
  intros Hne Hall Hn. unfold path_div, abs_path.
  rewrite os_path_join_plain by assumption. split; [|reflexivity].
  apply Path_abs_path.
  - destruct comps; cbn; discriminate.
  - apply List.Forall_app. split; [assumption | now constructor].
Qed.

Lemma node_at_app (a b : list pystr) : forall n,
  node_at (a ++ b) n
  = match node_at a n with
    | Some m => node_at b m
    | None => None
    end.
Proof.
  induction a as [|c a IH]; intros n; [reflexivity|].
  cbn [app node_at]. destruct n as [d|es]; [reflexivity|].
  destruct (dir_get c es); [apply IH | reflexivity].
Qed.

Lemma node_put_cons (c : pystr) (rest : list pystr) (new : Node) es :
  rest <> [] ->
  node_put (c :: rest) new (Dir es)
  = match dir_get c es with
    | Some child =>
        match node_put rest new child with
        | Some child' => Some (Dir (dir_put c child' es))
        | None => None
        end
    | None => None
    end.
Proof. destruct rest; [contradiction | reflexivity]. Qed.

(** Putting an entry into an existing directory. *)
Lemma node_put_entry (comps : list pystr) (name : pystr) (new : Node) es :
  forall n,
  node_at comps n = Some (Dir es) ->
  exists n',
    node_put (comps ++ [name]) new n = Some n'
    /\ node_at comps n' = Some (Dir (dir_put name new es)).
Proof.
  induction comps as [|c comps IH]; intros n H.
  - cbn in H. inversion H; subst. eexists. split; reflexivity.
  - cbn [node_at] in H. destruct n as [d|es0]; [discriminate H|].
    destruct (dir_get c es0) as [child|] eqn:Hc; [|discriminate H].
    destruct (IH child H) as (child' & Hput & Hat).
    exists (Dir (dir_put c child' es0)). split.
    + cbn [app]. rewrite node_put_cons by (destruct comps; cbn; discriminate).
      now rewrite Hc, Hput.
    + cbn [node_at]. now rewrite dir_get_put.
Qed.



(** Writing [data] to the file [name] of the directory /d1/../dk: the file
    is opened, which makes or empties it, and then holds [data]. *)
Lemma store_in_dir (w : World) (comps : list pystr) (name : pystr) es
    (new : Node) :
  comps <> [] -> Forall plain_name comps -> plain_name name ->
  dir_at w comps es ->
  exists n',
    store (abs_path (comps ++ [name])) new w = (Return tt, set_fs n' w)
    /\ node_at comps n' = Some (Dir (dir_put name new es)).
Proof.
  intros Hne Hall Hn Hdir. unfold store.
  rewrite path_components_abs.
  - destruct (node_put_entry comps name new es (fs w) Hdir) as (n' & Hput & Hat).
    rewrite Hput. now exists n'.
  - destruct comps; cbn; discriminate.
  - apply List.Forall_app. split; [assumption | now constructor].
Qed.

Lemma resolve_in_dir (w : World) (comps : list pystr) (name : pystr) es :
  comps <> [] -> Forall plain_name comps -> plain_name name ->
  dir_at w comps es ->
  resolve (abs_path (comps ++ [name])) w = (Return (dir_get name es), w).
Proof.
  intros Hne Hall Hn Hdir. unfold resolve, ask.
  rewrite path_components_abs.
  - rewrite node_at_app. unfold dir_at in Hdir. rewrite Hdir. cbn.
    now destruct (dir_get name es).
  - destruct comps; cbn; discriminate.
  - apply List.Forall_app. split; [assumption | now constructor].
Qed.


(** ** Saving a chapter *)









(** ** Making a book *)

Lemma dir_put_new (name : pystr) (v : Node) es :
  dir_get name es = None -> dir_put name v es = es ++ [(name, v)].
Proof.
  induction es as [|[k x] es IH]; cbn; [reflexivity|].
  destruct (pystr_eqb k name); [discriminate|]. intros H. now rewrite IH.
Qed.

Lemma mkdir_in_dir (w : World) (comps : list pystr) (name : pystr) es :
  comps <> [] -> Forall plain_name comps -> plain_name name ->
  dir_at w comps es ->
  mkdir (abs_path (comps ++ [name])) w
  = match dir_get name es with
    | Some _ => (Raise (mkExc FileExistsError (abs_path (comps ++ [name]))), w)
    | None => store (abs_path (comps ++ [name])) (Dir []) w
    end.
Proof.
  intros Hne Hall Hn Hdir. unfold mkdir.
  rewrite (bind_Return _ _ w _ w (resolve_in_dir w comps name es Hne Hall Hn Hdir)).
  now destruct (dir_get name es).
Qed.

(** X13: [Ebook(...)] reads the clock and makes the staging directory named
    after the reading inside the directory of temporary files.  When that
    directory has no entry of the name, the book is made: it is the next
    object of the store, has no cover and no chapter, and owns a new
    [EbookUtil] without a cached index; its staging directory is there and
    empty.  When there is such an entry, as for a second book made at the
    same reading, the call raises [FileExistsError] and only the clock has
    moved. *)
Theorem ebook_init_makes_staging_dir (w : World) (title : pystr)
    (author : option pystr) (ebook_format : pystr) (auto_download_img : bool)
    (comps : list pystr) (es : list (pystr * Node)) :
  tempfile_gettempdir (env w) = abs_path comps ->
  comps <> [] -> Forall plain_name comps ->
  dir_at w comps es ->
  let now := time_time (env w) (clock w) in
  plain_name now ->
  (dir_get now es = None ->
   exists n',
     Ebook.__init__ title author ebook_format auto_download_img w
     = (Return (length (ebooks w)),
        mkWorld (chapters w)
          (ebooks w ++ [ebook.mk title author ebook_format auto_download_img
                          None None (abs_path (comps ++ [now])) []
                          (length (utils w))])
          (utils w ++ [ebook_util.mk (length (ebooks w)) None])
          n' (S (clock w)) (env w))
     /\ node_at comps n' = Some (Dir (es ++ [(now, Dir [])])))
  /\ (dir_get now es <> None ->
      Ebook.__init__ title author ebook_format auto_download_img w
      = (Raise (mkExc FileExistsError (abs_path (comps ++ [now]))),
         mkWorld (chapters w) (ebooks w) (utils w) (fs w) (S (clock w))
           (env w))).
Proof.
  intros Htmp Hne Hall Hdir now Hnow.
  set (w0 := mkWorld (chapters w) (ebooks w) (utils w) (fs w) (S (clock w))
               (env w)).
  assert (Hdir0 : dir_at w0 comps es) by exact Hdir.
  assert (Hstart :
    Ebook.__init__ title author ebook_format auto_download_img w
    = bind (mkdir (abs_path (comps ++ [now]))) (fun _ =>
        bind (ask (fun w => length (ebooks w))) (fun self =>
          bind (EbookUtil.__init__ self) (fun eu =>
            bind (fun w =>
                    (Return tt,
                     set_ebooks
                       (ebooks w ++ [ebook.mk title author ebook_format
                                       auto_download_img None None
                                       (abs_path (comps ++ [now])) [] eu]) w))
                 (fun _ => ret self)))) w0).
  { unfold Ebook.__init__.
    rewrite (bind_Return _ _ w now w0) by reflexivity.
    rewrite (bind_Return _ _ w0 (abs_path (comps ++ [now])) w0);
      [reflexivity|].
    unfold ask. cbn [env w0]. rewrite Htmp, Path_abs_path by assumption.
    now rewrite (proj1 (path_div_abs comps now Hne Hall Hnow)). }
  rewrite Hstart.
  pose proof (mkdir_in_dir w0 comps now es Hne Hall Hnow Hdir0) as Hmk.
  split.
  - intros Hfree. rewrite Hfree in Hmk.
    destruct (store_in_dir w0 comps now es (Dir []) Hne Hall Hnow Hdir0)
      as (n' & Hs & Hat).
    rewrite Hs in Hmk. exists n'. split.
    + rewrite (bind_Return _ _ w0 tt _ Hmk). reflexivity.
    + now rewrite Hat, dir_put_new.
  - intros Hthere. apply bind_Raise.
    destruct (dir_get now es); [exact Hmk | contradiction].
Qed.

Lemma ebook_init_makes_staging_dir_witness :
  let w := demo_book (py "epub") in
  exists n',
    Ebook.__init__ (py "U") None (py "mobi") false w
    = (Return 1%nat,
       mkWorld (chapters w)
         (ebooks w ++ [ebook.mk (py "U") None (py "mobi") false None None
                         (py "/tmp/2.5") [] 1%nat])
         (utils w ++ [ebook_util.mk 1 None]) n' 2 (env w))
    /\ node_at [py "tmp"] n'
       = Some (Dir [(py "1.5", Dir []); (py "2.5", Dir [])]).
Proof.
  intros w.
  refine (proj1 (ebook_init_makes_staging_dir w (py "U") None (py "mobi")
                   false [py "tmp"] [(py "1.5", Dir [])] _ _ _ _ _) _);
    try reflexivity.
  - discriminate.
  - repeat constructor; try discriminate.
  - repeat constructor; try discriminate.
Defined.

(** ** Copying into the staging directory *)

Lemma resolve_eq (path : pystr) (w : World) :
  resolve path w
  = (Return (node_at (path_components (os_getcwd (env w)) path) (fs w)), w).
Proof. reflexivity. Qed.

(** [shutil.copy] of a file into the directory /d1/../dk: the copy is the
    entry named by the base name of the source. *)
Lemma shutil_copy_into_dir (w : World) (src : pystr) (comps : list pystr)
    es (data : FileData) :
  comps <> [] -> Forall plain_name comps ->
  dir_at w comps es ->
  node_at (path_components (os_getcwd (env w)) src) (fs w) = Some (File data) ->
  plain_name (os_path_basename src) ->
  path_components (os_getcwd (env w)) src <> comps ++ [os_path_basename src] ->
  not_a_dir es (os_path_basename src) ->
  exists n',
    shutil_copy src (abs_path comps) w = (Return tt, set_fs n' w)
    /\ node_at comps n'
       = Some (Dir (dir_put (os_path_basename src) (File data) es)).
Proof.
  intros Hne Hall Hdir Hsrc Hb Hdiff Hnd.
  set (b := os_path_basename src) in *.
  assert (Hne' : comps ++ [b] <> []) by (destruct comps; cbn; discriminate).
  assert (Hall' : Forall plain_name (comps ++ [b]))
    by (apply List.Forall_app; split; [assumption | now constructor]).
  unfold shutil_copy.
  rewrite (bind_Return _ _ w (Some (Dir es)) w).
  2:{ rewrite resolve_eq, path_components_abs by assumption.
      unfold dir_at in Hdir. now rewrite Hdir. }
  cbv zeta. fold b.
  rewrite (proj2 (path_div_abs comps b Hne Hall Hb)).
  rewrite (bind_Return _ _ w (Some (File data)) w)
    by (rewrite resolve_eq; now rewrite Hsrc).
  rewrite (bind_Return _ _ w (os_getcwd (env w)) w) by reflexivity.
  rewrite path_components_abs by assumption.
  rewrite (bool_decide_eq_false_2 _ Hdiff), andb_false_r.
  rewrite (bind_Return _ _ w data w).
  2:{ unfold read_file.
      rewrite (bind_Return _ _ w (Some (File data)) w)
        by (rewrite resolve_eq; now rewrite Hsrc).
      reflexivity. }
  rewrite (bind_Return _ _ w _ w (resolve_in_dir w comps b es Hne Hall Hb Hdir)).
  destruct (store_in_dir w comps b es (File data) Hne Hall Hb Hdir)
    as (n' & Hs & Hat).
  exists n'. split; [|exact Hat].
  destruct (dir_get b es) as [[d|l]|] eqn:E; try exact Hs.
  exfalso. now apply (Hnd l).
Qed.

(** X14: a cover given by its path is staged under its own base name: after
    [_save_cover] the staging directory has an entry of that name with what
    the cover file holds, whatever the name; so a cover is cover.jpg in the
    staging directory only when the caller's file is called so. *)
Theorem cover_staged_under_own_name (w : World) (eu : nat)
    (u : ebook_util.t) (e : ebook.t) (cover_path : pystr)
    (comps : list pystr) (es : list (pystr * Node)) (data : FileData) :
  utils w !! eu = Some u ->
  ebooks w !! ebook_util._ebook u = Some e ->
  ebook.cover_path e = Some cover_path ->
  cover_path <> [] ->
  ebook.tmpdir e = abs_path comps ->
  comps <> [] -> Forall plain_name comps ->
  dir_at w comps es ->
  node_at (path_components (os_getcwd (env w)) cover_path) (fs w)
  = Some (File data) ->
  plain_name (os_path_basename cover_path) ->
  path_components (os_getcwd (env w)) cover_path
  <> comps ++ [os_path_basename cover_path] ->
  not_a_dir es (os_path_basename cover_path) ->
  exists n',
    EbookUtil._save_cover eu w = (Return tt, set_fs n' w)
    /\ node_at comps n'
       = Some (Dir (dir_put (os_path_basename cover_path) (File data) es)).
Proof.
  intros Hu He Hp Hne0 Htmp Hne Hall Hdir Hsrc Hb Hdiff Hnd.
  unfold EbookUtil._save_cover.
  rewrite (bind_Return _ _ w u w) by now apply deref_Some.
  rewrite (bind_Return _ _ w e w) by now apply deref_Some.
  rewrite Hp, Htmp. destruct cover_path as [|c p]; [contradiction|].
  cbn [truthy].
  now apply shutil_copy_into_dir.
Qed.

Lemma cover_staged_under_own_name_witness :
  let w := snd (Ebook.set_cover 0 (Some (py "style.css")) None
                  (demo_book (py "epub"))) in
  exists n',
    EbookUtil._save_cover 0 w = (Return tt, set_fs n' w)
    /\ node_at [py "tmp"; py "1.5"] n'
       = Some (Dir [(py "style.css", File (Text []))]).
Proof.
  intros w.
  refine (cover_staged_under_own_name w 0%nat (ebook_util.mk 0 None)
            (ebook.mk (py "T") None (py "epub") false
               (Some (py "style.css")) None (py "/tmp/1.5") [0%nat] 0%nat)
            (py "style.css") [py "tmp"; py "1.5"] [] (Text [])
            _ _ _ _ _ _ _ _ _ _ _ _); try reflexivity.
  - discriminate.
  - discriminate.
  - repeat constructor; try discriminate.
  - repeat constructor; try discriminate.
  - vm_compute. discriminate.
  - intros l. discriminate.
Defined.

(** ** After the build: the copy of [save] *)

Lemma create_keeps_book (w : World) (self : nat) (e : ebook.t) r w1 :
  ebooks w !! self = Some e ->
  Ebook._create self w = (r, w1) ->
  ebooks w1 !! self = Some e /\ env w1 = env w.
Proof.
  intros He Hrun. pose proof (framed_Ebook_create self w) as (Hv & Hb & _).
  rewrite Hrun in *. cbn in *. split; [now rewrite Hb | exact Hv].
Qed.

Lemma save_after_build_helper (w : World) (self : nat) (e : ebook.t)
    (w1 : World) :
  ebooks w !! self = Some e ->
  ebook.format e <> py "mobi" ->
  Ebook._create self w = (Return tt, w1) ->
  Ebook.save self None w = (Return tt, w1)
  /\ (forall file_path : pystr, file_path <> [] ->
      Ebook.save self (Some file_path) w
      = shutil_copy (ebook.dest_file_path e) file_path w1).
Proof.
  intros He Hf Hrun.
  destruct (create_keeps_book w self e _ w1 He Hrun) as (He1 & _).
  assert (Hm : pystr_eqb (ebook.format e) (py "mobi") = false)
    by (unfold pystr_eqb; now rewrite bool_decide_eq_false_2).
  split.
  - unfold Ebook.save. rewrite (bind_Return _ _ w tt w1 Hrun).
    rewrite (bind_Return _ _ w1 e w1) by now apply deref_Some.
    rewrite Hm. cbn [Ebook.eqb]. unfold pystr_eqb.
    now rewrite bool_decide_eq_true_2.
  - intros file_path Hne. destruct file_path as [|c p]; [contradiction|].
    unfold Ebook.save. rewrite (bind_Return _ _ w tt w1 Hrun).
    rewrite (bind_Return _ _ w1 e w1) by now apply deref_Some.
    rewrite Hm. reflexivity.
Qed.

(** X15: for a book whose format is not mobi, [save] without a destination
    is the build and nothing more: the archive stays where the packager
    wrote it, under [dest_file_path] in the working directory.  With a
    destination given as a string, [save] copies the archive there after the
    build; the early return of [save] is not taken for a string. *)
Theorem save_after_build (w : World) (self : nat) (e : ebook.t)
    (w1 : World) :
  ebooks w !! self = Some e ->
  ebook.format e <> py "mobi" ->
  Ebook._create self w = (Return tt, w1) ->
  Ebook.save self None w = (Return tt, w1)
  /\ (forall file_path : pystr, file_path <> [] ->
      Ebook.save self (Some file_path) w
      = shutil_copy (ebook.dest_file_path e) file_path w1).
Proof. apply save_after_build_helper. Qed.

Lemma save_after_build_witness :
  let w := demo_book (py "epub") in
  let w1 := snd (Ebook._create 0 w) in
  Ebook.save 0 None w = (Return tt, w1).
Proof.
  intros w w1.
  refine (proj1 (save_after_build w 0%nat
            (ebook.mk (py "T") None (py "epub") false None None (py "/tmp/1.5")
               [0%nat] 0%nat) w1 _ _ _)).
  - reflexivity.
  - discriminate.
  - vm_compute. reflexivity.
Defined.

(** X16: [save] called with the very name the epub packager writes to does
    not return early, since a string is never equal to a path object: after
    the build it copies the archive onto itself, and [shutil.copy] raises
    [SameFileError]. *)
Theorem save_onto_itself (w : World) (self : nat) (e : ebook.t)
    (u : ebook_util.t) (w1 : World) :
  ebooks w !! self = Some e ->
  utils w !! ebook._eu e = Some u ->
  ebook_util._ebook u = self ->
  ebook.format e = py "epub" ->
  Ebook._create self w = (Return tt, w1) ->
  Ebook.save self (Some (ebook.dest_file_path e)) w
  = (Raise (mkExc (LibraryError (py "shutil.SameFileError"))
              (ebook.dest_file_path e)), w1).
Proof.
  intros He Hu Hself Hf Hrun.
  destruct (ebook_dest_file_path_plain e (or_intror Hf)) as ((Hne & _) & _).
  assert (Hnm : ebook.format e <> py "mobi") by (rewrite Hf; discriminate).
  destruct (create_keeps_book w self e _ w1 He Hrun) as (He1 & Hv1).
  assert (Harch : exists members,
            archive_at w1 (ebook.dest_file_path e) = Some members).
  { unfold Ebook._create in Hrun.
    rewrite (bind_Return _ _ w e w) in Hrun by now apply deref_Some.
    destruct (is_nil (ebook.chapter_list e)); [discriminate Hrun|].
    unfold EbookUtil.create in Hrun.
    rewrite (bind_Return _ _ w u w) in Hrun by now apply deref_Some.
    rewrite (bind_Return _ _ w e w) in Hrun
      by (apply deref_Some; now rewrite Hself).
    rewrite Hf in Hrun.
    change (pystr_eqb (py "epub") (py "mobi")) with false in Hrun.
    change (pystr_eqb (py "epub") (py "epub")) with true in Hrun.
    cbv iota in Hrun.
    assert (He' : ebooks w !! ebook_util._ebook u = Some e)
      by now rewrite Hself.
    destruct (create_epub_members w _ u e w1 Hu He' Hrun)
      as (w2 & members & _ & Ha & _).
    now exists members. }
  destruct Harch as (members & Harch). unfold archive_at in Harch.
  destruct (node_at (path_components (os_getcwd (env w1))
                       (ebook.dest_file_path e)) (fs w1))
    as [[[s|b|ms]|l]|] eqn:Hres; try discriminate Harch.
  rewrite (proj2 (save_after_build_helper w self e w1 He Hnm Hrun)
             (ebook.dest_file_path e) Hne).
  unfold shutil_copy.
  rewrite (bind_Return _ _ w1 (Some (File (Archive ms))) w1)
    by (rewrite resolve_eq; now rewrite Hres).
  cbv zeta.
  rewrite (bind_Return _ _ w1 (Some (File (Archive ms))) w1)
    by (rewrite resolve_eq; now rewrite Hres).
  rewrite (bind_Return _ _ w1 (os_getcwd (env w1)) w1) by reflexivity.
  rewrite !bool_decide_eq_true_2 by first [reflexivity | eauto].
  reflexivity.
Qed.

Lemma save_onto_itself_witness :
  let w := demo_book (py "epub") in
  let w1 := snd (Ebook._create 0 w) in
  Ebook.save 0 (Some (py "T.epub")) w
  = (Raise (mkExc (LibraryError (py "shutil.SameFileError")) (py "T.epub")),
     w1).
Proof.
  intros w w1.
  refine (save_onto_itself w 0%nat
            (ebook.mk (py "T") None (py "epub") false None None (py "/tmp/1.5")
               [0%nat] 0%nat) (ebook_util.mk 0 None) w1 _ _ _ _ _);
    vm_compute; reflexivity.
Defined.

(** ** The deprecated interface *)

(** *** Stripping *)

Lemma lstrip_blank (s : pystr) : blank s -> lstrip s = [].
Proof.
  induction 1 as [|c s Hc _ IH]; [reflexivity|]. cbn. now rewrite Hc.
Qed.

Lemma strip_blank (s : pystr) : blank s -> strip s = [].
Proof. intros H. unfold strip. now rewrite lstrip_blank. Qed.

Lemma lstrip_head (s : pystr) :
  lstrip s = [] \/ exists c r, lstrip s = c :: r /\ is_space c = false.
Proof.
  induction s as [|c s IH]; [now left|].
  cbn. destruct (is_space c) eqn:Hc; [exact IH|].
  right. now exists c, s.
Qed.

Lemma lstrip_snoc (s : pystr) (c : N) :
  is_space c = false -> lstrip (s ++ [c]) = lstrip s ++ [c].
Proof.
  intros Hc. induction s as [|x s IH]; cbn.
  - now rewrite Hc.
  - destruct (is_space x); [exact IH | reflexivity].
Qed.

Lemma rstrip_snoc_space (s : pystr) (c : N) :
  is_space c = true -> rstrip (s ++ [c]) = rstrip s.
Proof.
  intros Hc. unfold rstrip. rewrite rev_app_distr. cbn. now rewrite Hc.
Qed.

Lemma rstrip_cons (c : N) (r : pystr) :
  is_space c = false -> rstrip (c :: r) = c :: rstrip r.
Proof.
  intros Hc. unfold rstrip. cbn [rev].
  rewrite lstrip_snoc by exact Hc. rewrite rev_app_distr. reflexivity.
Qed.

Lemma lstrip_lstrip (s : pystr) : lstrip (lstrip s) = lstrip s.
Proof.
  destruct (lstrip_head s) as [-> | (c & r & -> & Hc)]; [reflexivity|].
  cbn. now rewrite Hc.
Qed.

Lemma rstrip_rstrip (s : pystr) : rstrip (rstrip s) = rstrip s.
Proof. unfold rstrip. now rewrite rev_involutive, lstrip_lstrip. Qed.

(** [strip] is idempotent. *)
Lemma strip_strip (s : pystr) : strip (strip s) = strip s.
Proof.
  unfold strip at 2 3.
  destruct (lstrip_head s) as [-> | (c & r & -> & Hc)]; [reflexivity|].
  rewrite rstrip_cons by exact Hc. unfold strip. cbn [lstrip]. rewrite Hc.
  rewrite rstrip_cons by exact Hc. now rewrite rstrip_rstrip.
Qed.

(** A stripped string is empty or starts with something else than white
    space. *)
Lemma stripped_head (s : pystr) :
  strip s = s ->
  s = [] \/ exists c r, s = c :: r /\ is_space c = false /\ rstrip r = r.
Proof.
  intros Hs. unfold strip in Hs.
  destruct (lstrip_head s) as [H | (c & r & H & Hc)]; rewrite H in Hs.
  - left. now rewrite <- Hs.
  - right. rewrite rstrip_cons in Hs by exact Hc.
    exists c, (rstrip r). rewrite <- Hs. repeat split; [exact Hc|].
    apply rstrip_rstrip.
Qed.

Lemma strip_line (s : pystr) : strip s = s -> strip (s ++ [LF]) = s.
Proof.
  intros Hs. destruct (stripped_head s Hs) as [-> | (c & r & -> & Hc & Hr)].
  - reflexivity.
  - unfold strip. cbn [app lstrip]. rewrite Hc.
    rewrite rstrip_cons by exact Hc.
    rewrite rstrip_snoc_space by reflexivity. now rewrite Hr.
Qed.

Lemma strip_top_line (t : pystr) :
  strip t = t -> strip (drop 2 (py "# " ++ t ++ [LF])) = t.
Proof. intros Ht. cbn [py drop app]. change (strip (t ++ [LF]) = t). now apply strip_line. Qed.

Lemma strip_sub_line (t : pystr) :
  strip t = t -> strip (drop 2 (py "## " ++ t ++ [LF])) = t.
Proof.
  intros Ht. change (strip (32%N :: t ++ [LF]) = t).
  unfold strip. cbn [lstrip]. change (is_space 32) with true. cbv iota.
  now apply strip_line.
Qed.

(** *** Lines *)

Lemma universal_newlines_clean (s : pystr) :
  Forall (fun c => c <> CR) s -> universal_newlines s = s.
Proof.
  induction 1 as [|c s Hc _ IH]; [reflexivity|].
  cbn [universal_newlines]. apply N.eqb_neq in Hc. rewrite Hc.
  now rewrite IH.
Qed.

Lemma lines_from_line (cur body rest : pystr) :
  Forall (fun c => c <> LF) body ->
  lines_from cur (body ++ LF :: rest)
  = (cur ++ body ++ [LF]) :: lines_from [] rest.
Proof.
  intros Hb. revert cur. induction Hb as [|c body Hc _ IH]; intros cur.
  - reflexivity.
  - cbn [app lines_from]. apply N.eqb_neq in Hc. rewrite Hc.
    rewrite IH. now rewrite <- app_assoc.
Qed.

(** The lines of a text made of lines are those lines. *)
Lemma lines_from_concat (bodies : list pystr) :
  Forall (Forall (fun c => c <> LF)) bodies ->
  lines_from [] (concat (map (fun b => b ++ [LF]) bodies))
  = map (fun b => b ++ [LF]) bodies.
Proof.
  induction 1 as [|b bodies Hb _ IH]; [reflexivity|].
  cbn [map concat]. rewrite <- app_assoc. cbn [app].
  rewrite lines_from_line by exact Hb. now rewrite IH.
Qed.

(** Lines of white space only come from a text of white space only, and a
    text that is not empty has a line. *)
Lemma universal_newlines_blank_upto (n : nat) : forall s : pystr,
  (length s <= n)%nat -> blank s -> blank (universal_newlines s).
Proof.
  induction n as [|n IH]; intros [|c s] Hn H; try constructor;
    try (cbn in Hn; lia).
  inversion H as [|? ? Hc Hs]; subst. cbn [universal_newlines].
  cbn [length] in Hn.
  destruct (c =? CR)%N.
  - constructor; [reflexivity|].
    destruct s as [|c' s']; [constructor|].
    inversion Hs; subst. cbn [length] in Hn.
    destruct (c' =? LF)%N; apply IH; try assumption; cbn [length]; lia.
  - constructor; [exact Hc | apply IH; [lia | assumption]].
Qed.

Lemma universal_newlines_blank (s : pystr) :
  blank s -> blank (universal_newlines s).
Proof. now apply (universal_newlines_blank_upto (length s)). Qed.

Lemma universal_newlines_nil (s : pystr) :
  universal_newlines s = [] -> s = [].
Proof.
  destruct s as [|c s]; [reflexivity|]. cbn.
  destruct (c =? CR)%N; discriminate.
Qed.

Lemma lines_from_blank (cur s : pystr) :
  blank cur -> blank s -> Forall blank (lines_from cur s).
Proof.
  intros Hcur Hs. revert cur Hcur.
  induction Hs as [|c s Hc _ IH]; intros cur Hcur; cbn [lines_from].
  - destruct cur; cbn; repeat constructor; inversion Hcur; assumption.
  - assert (Hcur' : blank (cur ++ [c])).
    { apply Forall_app. split; [exact Hcur | repeat constructor; exact Hc]. }
    destruct (c =? LF)%N.
    + constructor; [exact Hcur' | apply IH; constructor].
    + now apply IH.
Qed.

Lemma lines_from_nil (cur s : pystr) :
  lines_from cur s = [] -> cur = [] /\ s = [].
Proof.
  revert cur. induction s as [|c s IH]; intros cur; cbn [lines_from].
  - destruct cur; [now split | discriminate].
  - destruct (c =? LF)%N; [discriminate|].
    intros H. apply IH in H. destruct H as (H & _).
    now destruct cur.
Qed.

(** *** The loop that looks for the title *)

Lemma title_loop_pure fuel headers i w r w' :
  title_loop fuel headers i w = (r, w') -> w' = w.
Proof.
  revert i. induction fuel as [|fuel IH]; intros i; cbn [title_loop].
  - unfold raise. now inversion 1.
  - destruct (headers !! i) as [h|]; [|unfold raise; now inversion 1].
    destruct (is_nil (strip h) && (i <? length headers)%nat).
    + apply IH.
    + unfold ret. now inversion 1.
Qed.

Lemma is_nil_true {A} (l : list A) : is_nil l = true <-> l = [].
Proof. destruct l; cbn; split; intros H; congruence. Qed.

(** When the loop returns, it returns the index of a line that is not
    blank. *)
Lemma title_loop_Return fuel headers i w k w' :
  title_loop fuel headers i w = (Return k, w') ->
  exists t, headers !! k = Some t /\ strip t <> [].
Proof.
  revert i. induction fuel as [|fuel IH]; intros i; cbn [title_loop].
  - unfold raise. discriminate.
  - destruct (headers !! i) as [h|] eqn:Hh; [|unfold raise; discriminate].
    destruct (is_nil (strip h) && (i <? length headers)%nat) eqn:Hc.
    + apply IH.
    + unfold ret. intros H. inversion H; subst. exists h. split; [exact Hh|].
      apply andb_false_iff in Hc. destruct Hc as [Hc | Hc].
      * intros Hn. apply is_nil_true in Hn. congruence.
      * apply lookup_lt_Some in Hh. apply Nat.ltb_ge in Hc. lia.
Qed.

(** Over blank lines only the loop runs off the end of the list. *)
Lemma title_loop_blank (n : nat) : forall fuel headers i w,
  length headers = (i + n)%nat -> (n < fuel)%nat ->
  Forall blank (drop i headers) ->
  title_loop fuel headers i w
  = (Raise (mkExc IndexError (py "list index out of range")), w).
Proof.
  induction n as [|n IH]; intros fuel headers i w Hlen Hfuel Hb;
    (destruct fuel as [|fuel]; [lia|]); cbn [title_loop].
  - rewrite lookup_ge_None_2 by lia. reflexivity.
  - destruct (headers !! i) as [h|] eqn:Hh.
    2:{ apply lookup_ge_None_1 in Hh. lia. }
    rewrite (drop_S _ _ _ Hh) in Hb. inversion Hb as [|? ? Hbh Hrest]; subst.
    rewrite (strip_blank h Hbh). cbn [is_nil andb].
    replace (i <? length headers)%nat with true
      by (symmetry; apply Nat.ltb_lt; lia).
    apply IH; [lia | lia | exact Hrest].
Qed.

(** The loop stops at the first line that is not blank. *)
Lemma title_loop_found (blanks : list pystr) : forall fuel pre t rest w,
  Forall blank blanks -> strip t <> [] ->
  (length blanks < fuel)%nat ->
  title_loop fuel (pre ++ blanks ++ t :: rest) (length pre) w
  = (Return (length pre + length blanks)%nat, w).
Proof.
  induction blanks as [|b blanks IH]; intros fuel pre t rest w Hb Ht Hfuel;
    (destruct fuel as [|fuel]; [cbn in Hfuel; lia|]); cbn [title_loop].
  - cbn [app]. rewrite list_lookup_middle by reflexivity.
    destruct (strip t) eqn:Hs; [contradiction|]. cbn [is_nil andb].
    unfold ret. now rewrite Nat.add_0_r.
  - inversion Hb as [|? ? Hbb Hrest]; subst.
    cbn [app]. rewrite list_lookup_middle by reflexivity.
    rewrite (strip_blank b Hbb). cbn [is_nil andb].
    replace (length pre <? length (pre ++ b :: blanks ++ t :: rest))%nat
      with true
      by (symmetry; apply Nat.ltb_lt; rewrite length_app; cbn; lia).
    specialize (IH fuel (pre ++ [b]) t rest w Hrest Ht).
    rewrite <- app_assoc in IH. cbn [app] in IH.
    rewrite length_app in IH. cbn [length] in IH.
    replace (S (length pre)) with (length pre + 1)%nat by lia.
    rewrite IH by (cbn in Hfuel; lia). cbn [length]. do 2 f_equal. lia.
Qed.

(** *** The loop over the headings *)

Lemma append_next_header_inv sh info w r w' :
  append_next_header sh info w = (r, w') ->
  w' = w
  /\ ((info = [] /\ r = Raise index_error)
      \/ (exists pre h, info = pre ++ [h]
            /\ r = Return (pre ++ [header.mk (header.title h)
                                     (header.next_headers h ++ [sh])]))).
Proof.
  unfold append_next_header.
  destruct info as [|h0 info0] using rev_ind.
  - cbn. unfold raise. inversion 1. split; [reflexivity | now left].
  - clear IHinfo0. rewrite map_app. cbn [map]. rewrite last_last.
    unfold ret. inversion 1. split; [reflexivity|]. right.
    exists info0, h0. split; [reflexivity|]. f_equal.
    rewrite length_app. cbn [length].
    replace (Nat.pred (length info0 + 1)) with (length info0 + 0)%nat by lia.
    now rewrite insert_app_r.
Qed.

Lemma parse_loop_pure headers rest : forall info w r w',
  parse_loop headers rest info w = (r, w') -> w' = w.
Proof.
  induction rest as [|h rest IH]; intros info w r w'; cbn [parse_loop].
  - unfold ret. now inversion 1.
  - cbv zeta. destruct (startswith (py "## ") h); [|apply IH].
    destruct (length headers =? 0)%nat; [apply IH|].
    unfold bind.
    destruct (append_next_header _ _ w) as [[info'|e] w1] eqn:Ha.
    + apply append_next_header_inv in Ha. destruct Ha as (-> & _). apply IH.
    + apply append_next_header_inv in Ha. destruct Ha as (-> & _).
      now inversion 1.
Qed.

(** The loop raises nothing but [IndexError]. *)
Lemma parse_loop_Raise headers rest : forall info w e w',
  parse_loop headers rest info w = (Raise e, w') -> e = index_error.
Proof.
  induction rest as [|h rest IH]; intros info w e w'; cbn [parse_loop].
  - unfold ret. discriminate.
  - cbv zeta. destruct (startswith (py "## ") h); [|apply IH].
    destruct (length headers =? 0)%nat; [apply IH|].
    unfold bind.
    destruct (append_next_header _ _ w) as [[info'|e'] w1] eqn:Ha.
    + apply IH.
    + apply append_next_header_inv in Ha.
      destruct Ha as (_ & [(_ & Hr) | (pre & h' & _ & Hr)]);
        [|discriminate Hr].
      inversion Hr; subst. now inversion 1.
Qed.

Lemma parse_loop_stripped headers rest : forall info w info' w',
  Forall stripped_header info ->
  parse_loop headers rest info w = (Return info', w') ->
  Forall stripped_header info'.
Proof.
  induction rest as [|h rest IH]; intros info w info' w' Hi; cbn [parse_loop].
  - unfold ret. inversion 1; subst. exact Hi.
  - cbv zeta.
    assert (Hi1 : Forall stripped_header
                    (if startswith (py "# ") h
                     then info ++ [header.mk (strip (drop 2 h)) []]
                     else info)).
    { destruct (startswith (py "# ") h); [|exact Hi].
      apply Forall_app. split; [exact Hi|]. repeat constructor.
      apply strip_strip. }
    destruct (startswith (py "## ") h); [|now apply IH].
    destruct (length headers =? 0)%nat; [now apply IH|].
    unfold bind.
    destruct (append_next_header _ _ w) as [[info1|e'] w1] eqn:Ha;
      [|discriminate].
    apply append_next_header_inv in Ha.
    destruct Ha as (_ & [(_ & Hr) | (pre & h' & Hpre & Hr)]);
      [discriminate Hr|].
    inversion Hr; subst info1. apply IH.
    rewrite Hpre in Hi1. apply Forall_app in Hi1. destruct Hi1 as (Hp & Hh).
    apply Forall_app. split; [exact Hp|]. constructor; [|constructor].
    apply Forall_inv in Hh. destruct Hh as (Ht & Hs). split; [exact Ht|].
    cbn. apply Forall_app. split; [exact Hs|]. repeat constructor.
    apply strip_strip.
Qed.

Lemma startswith_top_line (t : pystr) :
  startswith (py "# ") (py "# " ++ t ++ [LF]) = true
  /\ startswith (py "## ") (py "# " ++ t ++ [LF]) = false.
Proof.
  split; [reflexivity|]. unfold startswith. apply bool_decide_eq_false_2.
  cbn. destruct t as [|c t]; cbn; discriminate.
Qed.

Lemma startswith_sub_line (t : pystr) :
  startswith (py "# ") (py "## " ++ t ++ [LF]) = false
  /\ startswith (py "## ") (py "## " ++ t ++ [LF]) = true.
Proof. split; reflexivity. Qed.

Lemma append_next_header_snoc sh acc h w :
  append_next_header sh (acc ++ [h]) w
  = (Return (acc ++ [header.mk (header.title h)
                       (header.next_headers h ++ [sh])]), w).
Proof.
  destruct (append_next_header sh (acc ++ [h]) w) as [r w1] eqn:Ha.
  apply append_next_header_inv in Ha.
  destruct Ha as (-> & [(Hnil & _) | (pre & h' & Hpre & ->)]).
  - destruct acc; discriminate Hnil.
  - apply app_inj_tail in Hpre. destruct Hpre as (<- & <-). reflexivity.
Qed.

(** The lines of sub-headings go to the last heading. *)
Lemma parse_loop_subs headers (subs : list sub_header.t) :
  forall rest acc t ns w,
  headers <> [] ->
  Forall (fun sh => strip (sub_header.title sh) = sub_header.title sh) subs ->
  parse_loop headers
    (map (fun sh => py "## " ++ sub_header.title sh ++ [LF]) subs ++ rest)
    (acc ++ [header.mk t ns]) w
  = parse_loop headers rest (acc ++ [header.mk t (ns ++ subs)]) w.
Proof.
  induction subs as [|sh subs IH]; intros rest acc t ns w Hne Hs.
  - cbn [map app]. now rewrite app_nil_r.
  - inversion Hs as [|? ? Hsh Hrest]; subst.
    cbn [map]. change ((?x :: ?l) ++ rest) with (x :: (l ++ rest)).
    cbn [parse_loop]. cbv zeta.
    destruct (startswith_sub_line (sub_header.title sh)) as (-> & ->).
    destruct headers as [|h0 headers0]; [contradiction|].
    change (length (h0 :: headers0) =? 0)%nat with false. cbv iota.
    rewrite strip_sub_line by exact Hsh.
    rewrite (bind_Return _ _ w _ w (append_next_header_snoc _ _ _ _)).
    cbn [header.title header.next_headers].
    rewrite IH by assumption. rewrite <- app_assoc.
    now destruct sh.
Qed.

(** The lines of a table of contents give back its headings. *)
Lemma parse_loop_toc headers (hs : list header.t) : forall acc w,
  headers <> [] ->
  Forall stripped_header hs ->
  parse_loop headers (toc_lines hs) acc w = (Return (acc ++ hs), w).
Proof.
  induction hs as [|h hs IH]; intros acc w Hne Hs.
  - cbn. now rewrite app_nil_r.
  - inversion Hs as [|? ? (Ht & Hsub) Hrest]; subst.
    unfold toc_lines. cbn [flat_map]. fold (toc_lines hs).
    change ((?x :: ?l) ++ ?r) with (x :: (l ++ r)).
    cbn [parse_loop]. cbv zeta.
    destruct (startswith_top_line (header.title h)) as (-> & ->).
    rewrite strip_top_line by exact Ht.
    rewrite parse_loop_subs by assumption.
    rewrite IH by assumption. rewrite <- app_assoc. cbn [app].
    now destruct h.
Qed.

(** A line of a sub-heading before any heading stops the loop. *)
Lemma parse_loop_sub_first headers (others : list pystr) : forall h rest w,
  headers <> [] ->
  Forall (fun l => startswith (py "# ") l = false) others ->
  startswith (py "# ") h = false ->
  startswith (py "## ") h = true ->
  parse_loop headers (others ++ h :: rest) [] w = (Raise index_error, w).
Proof.
  intros h rest w Hne Ho Hh1 Hh2.
  destruct headers as [|h0 headers0]; [contradiction|].
  induction Ho as [|l others Hl _ IH]; cbn [app parse_loop]; cbv zeta.
  - rewrite Hh1, Hh2. reflexivity.
  - rewrite Hl. destruct (startswith (py "## ") l); [reflexivity | exact IH].
Qed.

(** *** Reading the table of contents *)

Lemma parse_headers_text (path s : pystr) (w : World) :
  text_at w path s ->
  _parse_headers path w = parse_lines (lines_from [] (universal_newlines s)) w.
Proof.
  intros Ht. unfold text_at in Ht. unfold _parse_headers.
  rewrite (bind_Return _ _ w true w)
    by (rewrite is_file_eq; unfold is_file_in; now rewrite Ht).
  cbn [negb]. apply bind_Return. unfold readlines.
  rewrite (bind_Return _ _ w (Text s) w); [reflexivity|].
  unfold read_file. rewrite (bind_Return _ _ w _ w (resolve_eq _ _)).
  now rewrite Ht.
Qed.

Lemma parse_lines_pure headers w r w' : parse_lines headers w = (r, w') -> w' = w.
Proof.
  unfold parse_lines.
  destruct (is_nil headers); [unfold raise; now inversion 1|].
  unfold bind at 1.
  destruct (title_loop _ headers 0 w) as [[k|e] w1] eqn:Hk;
    apply title_loop_pure in Hk; subst w1; [|now inversion 1].
  destruct (k =? length headers)%nat; [unfold raise; now inversion 1|].
  destruct (headers !! k) as [t|]; [|unfold raise; now inversion 1].
  cbv zeta. unfold bind.
  destruct (parse_loop headers _ [] w) as [[info|e] w1] eqn:Hp;
    apply parse_loop_pure in Hp; subst w1; [|now inversion 1].
  destruct (is_nil info); unfold raise, ret; now inversion 1.
Qed.

Lemma parse_headers_pure path w r w' : _parse_headers path w = (r, w') -> w' = w.
Proof.
  unfold _parse_headers. rewrite (bind_Return _ _ w _ w (is_file_eq _ _)).
  destruct (negb (is_file_in w path)); [unfold raise; now inversion 1|].
  unfold bind. destruct (readlines path w) as [[headers|e] w1] eqn:Hr.
  - assert (w1 = w) as ->.
    { unfold readlines, bind in Hr.
      destruct (read_file path w) as [[d|e] w2] eqn:Hd;
        apply read_file_pure in Hd; subst w2; [|now inversion Hr].
      destruct d; unfold ret, raise in Hr; now inversion Hr. }
    apply parse_lines_pure.
  - unfold readlines, bind in Hr.
    destruct (read_file path w) as [[d|e'] w2] eqn:Hd;
      apply read_file_pure in Hd; subst w2; [|inversion Hr; now inversion 1].
    destruct d; unfold ret, raise in Hr; inversion Hr; now inversion 1.
Qed.

Lemma parse_lines_Return headers w title hs w' :
  parse_lines headers w = (Return (title, hs), w') ->
  title <> [] /\ strip title = title /\ hs <> []
  /\ Forall stripped_header hs.
Proof.
  unfold parse_lines.
  destruct (is_nil headers); [unfold raise; discriminate|].
  unfold bind at 1.
  destruct (title_loop _ headers 0 w) as [[k|e] w1] eqn:Hk; [|discriminate].
  destruct (title_loop_Return _ _ _ _ _ _ Hk) as (t & Ht & Hne).
  destruct (k =? length headers)%nat; [unfold raise; discriminate|].
  rewrite Ht. cbv zeta. unfold bind.
  destruct (parse_loop headers _ [] w1) as [[info|e] w2] eqn:Hp;
    [|discriminate].
  destruct (is_nil info) eqn:Hi; [unfold raise; discriminate|].
  unfold ret. inversion 1; subst. repeat split.
  - exact Hne.
  - apply strip_strip.
  - intros ->. discriminate Hi.
  - eapply parse_loop_stripped; [|exact Hp]. constructor.
Qed.

Lemma parse_headers_Return (path : pystr) (w : World) (title : pystr)
    (hs : list header.t) (w' : World) :
  _parse_headers path w = (Return (title, hs), w') ->
  w' = w /\ title <> [] /\ strip title = title /\ hs <> []
  /\ Forall stripped_header hs.
Proof.
  intros H. split; [now apply parse_headers_pure in H|].
  unfold _parse_headers in H.
  rewrite (bind_Return _ _ w _ w (is_file_eq _ _)) in H.
  destruct (negb (is_file_in w path)); [discriminate H|].
  apply bind_Return_inv in H. destruct H as (headers & w1 & _ & H).
  now apply parse_lines_Return in H.
Qed.

(** X17: when [_parse_headers] returns, it has changed nothing, the title is
    not empty and has no white space at either end, there is at least one
    heading, and the titles of all headings and sub-headings are
    stripped. *)
Theorem parse_headers_result (path : pystr) (w : World) (title : pystr)
    (hs : list header.t) (w' : World) :
  _parse_headers path w = (Return (title, hs), w') ->
  w' = w /\ title <> [] /\ strip title = title /\ hs <> []
  /\ Forall stripped_header hs.
Proof. apply parse_headers_Return. Qed.

Lemma parse_headers_result_witness :
  let hs := [header.mk (py "One") [sub_header.mk (py "One.1")];
             header.mk (py "Two") []] in
  py "Book" <> [] /\ strip (py "Book") = py "Book" /\ hs <> []
  /\ Forall stripped_header hs.
Proof.
  intros hs.
  refine (proj2 (parse_headers_result (py "/src/toc.md") demo_source
                   (py "Book") hs demo_source _)).
  vm_compute. reflexivity.
Defined.

(** X18: a table of contents written as a title line, one line [# title]
    per heading and one line [## title] per sub-heading under it is read
    back as it was written, when the titles are stripped and free of line
    ends, the title is not empty and there is a heading. *)
Theorem parse_headers_round_trip (path : pystr) (w : World) (title : pystr)
    (hs : list header.t) :
  text_at w path (toc_text title hs) ->
  title <> [] -> clean_title title ->
  hs <> [] -> Forall clean_header hs ->
  _parse_headers path w = (Return (title, hs), w).
Proof.
  intros Ht Hne (Hstrip & Hnl) Hhs Hclean.
  rewrite (parse_headers_text _ _ _ Ht).
  assert (Hlines : lines_from [] (universal_newlines (toc_text title hs))
                   = (title ++ [LF]) :: toc_lines hs).
  { set (bodies := title :: flat_map (fun h =>
        (py "# " ++ header.title h)
        :: map (fun sh => py "## " ++ sub_header.title sh)
               (header.next_headers h)) hs).
    assert (Hb : (title ++ [LF]) :: toc_lines hs
                 = map (fun b => b ++ [LF]) bodies).
    { unfold bodies. cbn [map]. f_equal. unfold toc_lines.
      clear. induction hs as [|h hs IH]; [reflexivity|].
      cbn [flat_map]. rewrite map_app, <- IH. f_equal.
      cbn [map]. f_equal.
      rewrite map_map. apply map_ext. intros sh. reflexivity. }
    assert (Hcl : Forall (Forall (fun c => c <> LF /\ c <> CR)) bodies).
    { unfold bodies. constructor; [exact Hnl|].
      clear -Hclean. induction Hclean as [|h hs (Hh & Hsubs) _ IH];
        [constructor|].
      cbn [flat_map]. constructor.
      - repeat constructor; try discriminate. apply Hh.
      - apply Forall_app. split; [|exact IH].
        apply Forall_map. eapply Forall_impl; [exact Hsubs|].
        intros sh (_ & Hsh). cbn. repeat constructor; try discriminate.
        exact Hsh. }
    unfold toc_text. rewrite Hb.
    rewrite universal_newlines_clean.
    - apply lines_from_concat. eapply Forall_impl; [exact Hcl|].
      intros b Hbody. eapply Forall_impl; [exact Hbody|]. now intros c (? & _).
    - apply Forall_concat. apply Forall_map.
      eapply Forall_impl; [exact Hcl|]. intros b Hbody. cbn.
      apply Forall_app. split.
      + eapply Forall_impl; [exact Hbody|]. now intros c (_ & ?).
      + repeat constructor. discriminate. }
  rewrite Hlines. unfold parse_lines. cbn [is_nil].
  assert (Hst : strip (title ++ [LF]) <> [])
    by (rewrite strip_line by exact Hstrip; exact Hne).
  rewrite (bind_Return _ _ w 0%nat w)
    by (apply (title_loop_found [] _ [] (title ++ [LF]) (toc_lines hs) w);
        [constructor | exact Hst | cbn; lia]).
  cbn [Nat.eqb length lookup list_lookup]. cbv zeta.
  change (drop 1 ((title ++ [LF]) :: toc_lines hs)) with (toc_lines hs).
  rewrite (bind_Return _ _ w hs w).
  - destruct hs; [contradiction|]. cbn [is_nil].
    now rewrite strip_line by exact Hstrip.
  - apply (parse_loop_toc _ hs []); [discriminate|].
    eapply Forall_impl; [exact Hclean|]. intros h (Hh & Hsubs). split.
    + apply Hh.
    + eapply Forall_impl; [exact Hsubs|]. now intros sh (? & _).
Qed.

Lemma parse_headers_round_trip_witness :
  let hs := [header.mk (py "One") [sub_header.mk (py "One.1")];
             header.mk (py "Two") []] in
  _parse_headers (py "/src/toc.md") demo_source
  = (Return (py "Book", hs), demo_source).
Proof.
  intros hs.
  apply (parse_headers_round_trip (py "/src/toc.md") demo_source (py "Book") hs).
  - reflexivity.
  - discriminate.
  - split; [reflexivity | repeat constructor; discriminate].
  - discriminate.
  - repeat constructor; discriminate.
Defined.

(** *** Tables of contents that are not read *)

Lemma parse_headers_lines (path : pystr) (w : World) (lines : list pystr) :
  lines_at w path lines -> _parse_headers path w = parse_lines lines w.
Proof. intros (s & Ht & <-). now apply parse_headers_text. Qed.

Lemma parse_loop_no_headings headers (rest : list pystr) : forall acc w,
  Forall (fun l => startswith (py "# ") l = false) rest ->
  Forall (fun l => startswith (py "## ") l = false) rest ->
  parse_loop headers rest acc w = (Return acc, w).
Proof.
  induction rest as [|l rest IH]; intros acc w H1 H2; [reflexivity|].
  inversion H1; inversion H2; subst. cbn [parse_loop]. cbv zeta.
  rewrite H3, H7. now apply IH.
Qed.

Lemma startswith_sub_not_top (h : pystr) :
  startswith (py "## ") h = true -> startswith (py "# ") h = false.
Proof.
  unfold startswith. intros H. apply bool_decide_eq_true_1 in H.
  apply bool_decide_eq_false_2.
  destruct h as [|a [|b [|c h]]]; try discriminate H.
  cbn in *. inversion H; subst. discriminate.
Qed.

Lemma parse_lines_title (blanks : list pystr) (t : pystr)
    (rest : list pystr) (w : World) :
  Forall blank blanks -> strip t <> [] ->
  parse_lines (blanks ++ t :: rest) w
  = bind (parse_loop (blanks ++ t :: rest) rest [])
      (fun headers_info =>
         if is_nil headers_info
         then raise ValueError (py "invalid toc md file: headings is empty")
         else ret (strip t, headers_info)) w.
Proof.
  intros Hb Ht. unfold parse_lines.
  replace (is_nil (blanks ++ t :: rest)) with false by now destruct blanks.
  rewrite (bind_Return _ _ w (length blanks) w).
  2:{ apply (title_loop_found blanks _ [] t rest w Hb Ht).
      rewrite length_app. cbn. lia. }
  replace (length blanks =? length (blanks ++ t :: rest))%nat with false
    by (symmetry; apply Nat.eqb_neq; rewrite length_app; cbn; lia).
  rewrite list_lookup_middle by reflexivity. cbv zeta.
  replace (drop (S (length blanks)) (blanks ++ t :: rest)) with rest.
  - reflexivity.
  - change (blanks ++ t :: rest) with (blanks ++ [t] ++ rest).
    rewrite app_assoc.
    replace (S (length blanks)) with (length (blanks ++ [t]))
      by (rewrite length_app; cbn; lia).
    now rewrite drop_app_length.
Qed.

(** X19: the tables of contents that [_parse_headers] turns down with the
    error it means to give: a path that is no file, a file without a line,
    and a file whose title is followed by no line of a heading. *)
Theorem parse_headers_rejects (path : pystr) (w : World) :
  (is_file_in w path = false ->
   _parse_headers path w
   = (Raise (mkExc ValueError (py "toc.md file not exists:" ++ path)), w))
  /\ (lines_at w path [] ->
      _parse_headers path w
      = (Raise (mkExc ValueError (py "invalid toc md file: title is empty")),
         w))
  /\ (forall blanks t rest,
        lines_at w path (blanks ++ t :: rest) ->
        Forall blank blanks -> strip t <> [] ->
        Forall (fun l => startswith (py "# ") l = false) rest ->
        Forall (fun l => startswith (py "## ") l = false) rest ->
        _parse_headers path w
        = (Raise (mkExc ValueError
                    (py "invalid toc md file: headings is empty")), w)).
Proof.
  repeat split.
  - intros Hf. unfold _parse_headers.
    rewrite (bind_Return _ _ w _ w (is_file_eq _ _)). now rewrite Hf.
  - intros Hl. now rewrite (parse_headers_lines _ _ _ Hl).
  - intros blanks t rest Hl Hb Ht H1 H2.
    rewrite (parse_headers_lines _ _ _ Hl).
    rewrite parse_lines_title by assumption.
    now rewrite (bind_Return _ _ w [] w)
      by now apply parse_loop_no_headings.
Qed.

Lemma parse_headers_rejects_witness :
  _parse_headers (py "/src/toc.md") (demo_toc (py "Book" ++ [LF] ++ py "text"))
  = (Raise (mkExc ValueError (py "invalid toc md file: headings is empty")),
     demo_toc (py "Book" ++ [LF] ++ py "text")).
Proof.
  refine (proj2 (proj2 (parse_headers_rejects (py "/src/toc.md")
            (demo_toc (py "Book" ++ [LF] ++ py "text"))))
            [] (py "Book" ++ [LF]) [py "text"] _ _ _ _ _).
  - exists (py "Book" ++ [LF] ++ py "text"). split; reflexivity.
  - constructor.
  - vm_compute. discriminate.
  - repeat constructor.
  - repeat constructor.
Defined.

Lemma title_loop_Raise fuel headers : forall i w e w',
  title_loop fuel headers i w = (Raise e, w') -> exc_class e <> ValueError.
Proof.
  induction fuel as [|fuel IH]; intros i w e w'; cbn [title_loop].
  - unfold raise. inversion 1. discriminate.
  - destruct (headers !! i) as [h|];
      [|unfold raise; inversion 1; discriminate].
    destruct (is_nil (strip h) && (i <? length headers)%nat).
    + apply IH.
    + unfold ret. discriminate.
Qed.

Lemma parse_lines_never_title_is_empty headers w w' :
  parse_lines headers w <> (Raise title_is_empty, w').
Proof.
  unfold parse_lines.
  destruct (is_nil headers); [unfold raise; intros H; inversion H|].
  unfold bind at 1.
  destruct (title_loop _ headers 0 w) as [[k|e] w1] eqn:Hk.
  2:{ apply title_loop_Raise in Hk. intros H. inversion H; subst.
      now apply Hk. }
  destruct (title_loop_Return _ _ _ _ _ _ Hk) as (t & Ht & _).
  replace (k =? length headers)%nat with false
    by (symmetry; apply Nat.eqb_neq; apply lookup_lt_Some in Ht; lia).
  rewrite Ht. cbv zeta. unfold bind.
  destruct (parse_loop headers _ [] w1) as [[info|e] w2] eqn:Hp.
  - destruct (is_nil info); unfold raise, ret; intros H; inversion H.
  - apply parse_loop_Raise in Hp. subst e. intros H. inversion H.
Qed.

(** X20: where a table of contents makes [_parse_headers] fail with an
    [IndexError] it does not mean to raise: a file of blank lines only, for
    which the search for the title indexes past the last line, and a line
    [## title] that comes before the first line [# title], for which there is
    no heading to attach it to.  The [ValueError] of the check that follows
    the search for the title is never raised. *)
Theorem parse_headers_index_error (path : pystr) (w : World) :
  (forall lines,
     lines_at w path lines -> lines <> [] -> Forall blank lines ->
     _parse_headers path w = (Raise index_error, w))
  /\ (forall blanks t others h rest,
        lines_at w path (blanks ++ t :: others ++ h :: rest) ->
        Forall blank blanks -> strip t <> [] ->
        Forall (fun l => startswith (py "# ") l = false) others ->
        startswith (py "## ") h = true ->
        _parse_headers path w = (Raise index_error, w))
  /\ (forall w', _parse_headers path w <> (Raise title_is_empty, w')).
Proof.
  repeat split.
  - intros lines Hl Hne Hb. rewrite (parse_headers_lines _ _ _ Hl).
    unfold parse_lines. destruct lines as [|l lines]; [contradiction|].
    cbn [is_nil]. apply bind_Raise.
    apply (title_loop_blank (length (l :: lines))); [reflexivity | lia|].
    exact Hb.
  - intros blanks t others h rest Hl Hb Ht Ho Hh.
    rewrite (parse_headers_lines _ _ _ Hl).
    rewrite parse_lines_title by assumption.
    apply bind_Raise. apply parse_loop_sub_first; try assumption.
    + now destruct blanks.
    + now apply startswith_sub_not_top.
  - intros w'. unfold _parse_headers.
    rewrite (bind_Return _ _ w _ w (is_file_eq _ _)).
    destruct (negb (is_file_in w path)).
    { unfold raise. intros H. inversion H. }
    unfold bind.
    destruct (readlines path w) as [[headers|e] w1] eqn:Hr.
    + apply parse_lines_never_title_is_empty.
    + unfold readlines, bind in Hr.
      destruct (read_file path w) as [[d|e'] w2] eqn:Hd.
      * destruct d; unfold ret, raise in Hr; inversion Hr; subst;
          intros H; inversion H.
      * unfold read_file, bind in Hd. rewrite resolve_eq in Hd.
        destruct (node_at _ (fs w)) as [[d|es]|]; unfold ret, raise in Hd;
          inversion Hd; subst; inversion Hr; subst; intros H; inversion H.
Qed.

Lemma parse_headers_index_error_witness :
  _parse_headers (py "/src/toc.md")
    (demo_toc (py "Book" ++ [LF] ++ py "## One" ++ [LF]))
  = (Raise index_error,
     demo_toc (py "Book" ++ [LF] ++ py "## One" ++ [LF])).
Proof.
  refine (proj1 (proj2 (parse_headers_index_error (py "/src/toc.md")
            (demo_toc (py "Book" ++ [LF] ++ py "## One" ++ [LF]))))
            [] (py "Book" ++ [LF]) [] (py "## One" ++ [LF]) [] _ _ _ _ _).
  - exists (py "Book" ++ [LF] ++ py "## One" ++ [LF]). split; reflexivity.
  - constructor.
  - vm_compute. discriminate.
  - constructor.
  - reflexivity.
Defined.

(** *** A book from a directory *)

Lemma call_create_chapter_two (self : nat) (a b : PyVal) (w : World) :
  call_create_chapter self [a; b] w
  = (Raise (too_many_positional create_chapter_signature 2), w).
Proof. reflexivity. Qed.

Lemma os_path_join_cons (a : pystr) (c : N) (p : pystr) :
  exists c' r, os_path_join a (c :: p) = c' :: r.
Proof.
  unfold os_path_join. destruct (startswith_sep (c :: p)); [eauto|].
  destruct (bool_decide (a = []) || endswith_sep a);
    destruct a as [|x a]; cbn; eauto.
Qed.

(** X21: [make_ebook] never returns.  Whatever the directory holds, the
    call ends in an exception: when the table of contents is read and the
    book is made, the first heading is passed to [create_chapter] together
    with a file path, one argument more than the method takes. *)
Theorem make_ebook_never_returns (source_dir : pystr)
    (output_dir : option pystr) (w : World) :
  exists e, fst (make_ebook source_dir output_dir w) = Raise e.
Proof.
  destruct (make_ebook source_dir output_dir w) as [[fn|e] w'] eqn:H;
    [exfalso | now exists e].
  unfold make_ebook in H. cbv zeta in H.
  apply bind_Return_inv in H. destruct H as ([title hs] & w1 & Hp & H).
  apply parse_headers_Return in Hp. destruct Hp as (_ & _ & _ & Hhs & _).
  apply bind_Return_inv in H. destruct H as (b & w2 & _ & H).
  apply bind_Return_inv in H. destruct H as (has_cover & w3 & _ & H).
  apply bind_Return_inv in H. destruct H as ([] & w4 & _ & H).
  apply bind_Return_inv in H. destruct H as ([] & w5 & Hloop & _).
  cbn [snd] in Hloop. destruct hs as [|h hs]; [contradiction|].
  cbn [for_each] in Hloop.
  apply bind_Return_inv in Hloop. destruct Hloop as ([] & w6 & Hbody & _).
  apply bind_Return_inv in Hbody. destruct Hbody as (c & w7 & Hcall & _).
  rewrite call_create_chapter_two in Hcall. discriminate Hcall.
Qed.

(** X22: when the table of contents is read and the book is made,
    [make_ebook] raises the [TypeError] of the call of [create_chapter] with
    two arguments.  By then the staging directory of the book exists, and
    nothing more has happened: the book has no chapter, no chapter was made
    and no file was copied or written. *)
Theorem make_ebook_type_error (source_dir : pystr)
    (output_dir : option pystr) (w : World) (title : pystr)
    (hs : list header.t) (b : nat) (w1 : World) :
  _parse_headers (os_path_join source_dir (py "toc.md")) w
  = (Return (title, hs), w) ->
  Ebook.__init__ title None (py "mobi") false w = (Return b, w1) ->
  exists w2,
    make_ebook source_dir output_dir w
    = (Raise (too_many_positional create_chapter_signature 2), w2)
    /\ fs w2 = fs w1 /\ chapters w2 = chapters w1
    /\ exists e, ebooks w2 !! b = Some e /\ ebook.chapter_list e = [].
Proof.
  intros Hp Hi.
  destruct (parse_headers_Return _ _ _ _ _ Hp) as (_ & _ & _ & Hhs & _).
  destruct (init_Return_inv _ _ _ _ _ _ _ Hi) as (tempdir & eu & Hb).
  destruct hs as [|h hs]; [contradiction|].
  unfold make_ebook. cbv zeta.
  rewrite (bind_Return _ _ w _ w Hp). cbn [fst snd].
  rewrite (bind_Return _ _ w _ w1 Hi).
  rewrite (bind_Return _ _ w1 _ w1 (is_file_eq _ _)).
  destruct (is_file_in w1 (os_path_join source_dir (py "cover.jpg"))).
  - destruct (os_path_join_cons source_dir 99
                (py "over.jpg")) as (c' & r & Hj).
    change (99%N :: py "over.jpg") with (py "cover.jpg") in Hj.
    rewrite Hj.
    set (e' := ebook.with_cover (Some (c' :: r)) None
                 (ebook.mk title None (py "mobi") false None None tempdir []
                    eu)).
    exists (set_ebooks (<[b := e']> (ebooks w1)) w1).
    split; [|repeat split].
    + rewrite (bind_Return _ _ w1 tt
                 (set_ebooks (<[b := e']> (ebooks w1)) w1)).
      * cbn [for_each]. repeat apply bind_Raise.
        apply call_create_chapter_two.
      * assert (Hset : Ebook.set_cover b (Some (c' :: r)) None w1
                       = (Return b, set_ebooks (<[b := e']> (ebooks w1)) w1)).
        { unfold Ebook.set_cover. cbn [truthy].
          rewrite (bind_Return _ _ w1 _ w1 (deref_Some ebooks b w1 _ Hb)).
          reflexivity. }
        now rewrite (bind_Return _ _ _ _ _ Hset).
    + exists e'. split; [|reflexivity]. cbn.
      apply list_lookup_insert_eq. now apply lookup_lt_Some in Hb.
  - exists w1. split; [|repeat split].
    + rewrite (bind_Return _ _ w1 tt w1) by reflexivity.
      cbn [for_each]. repeat apply bind_Raise.
      apply call_create_chapter_two.
    + eexists. split; [exact Hb | reflexivity].
Qed.

Lemma make_ebook_type_error_witness :
  exists w2,
    make_ebook (py "/src") (Some (py "/out")) demo_source
    = (Raise (too_many_positional create_chapter_signature 2), w2)
    /\ fs w2 = fs (snd (Ebook.__init__ (py "Book") None (py "mobi") false
                         demo_source))
    /\ chapters w2 = []
    /\ exists e, ebooks w2 !! 0%nat = Some e /\ ebook.chapter_list e = [].
Proof.
  refine (make_ebook_type_error (py "/src") (Some (py "/out")) demo_source
            (py "Book")
            [header.mk (py "One") [sub_header.mk (py "One.1")];
             header.mk (py "Two") []] 0%nat
            (snd (Ebook.__init__ (py "Book") None (py "mobi") false
                    demo_source)) _ _).
  - vm_compute. reflexivity.
  - vm_compute. reflexivity.
Defined.

(** ** Rendering a template *)


